(** * SuperBMS: the control logic of code/BMS.py

    A shallow embedding of the [BMS] class (mode state machine, telemetry,
    thermal monitor, drain planner, serial protocol) and the properties of it
    that the design document states.

    Conventions of the embedding.
    - Python floats are idealised as rationals ([Q]); comparisons are exact.
      NaN, infinities and rounding error are outside the model.
    - The object [self] and the board it drives (pins, I/O expanders, the
      non-volatile byte) are one record, [BMS], passed explicitly.  Every
      write to the board is also appended to the trace [out].
    - What a tick reads from the outside (ADC batches, temperature sensors,
      the UART) is a [tick_input].
    - [print] of an [ALERT] line is an event of the trace; [INFO] and [UART]
      console lines carry no state and are left out.
    - Uncaught Python exceptions are an [outcome]. *)

From Stdlib Require Import String Ascii DecimalString.
From Stdlib.Strings Require Import Byte.
From Stdlib Require Import ZArith QArith Qround Qminmax Bool Lia Lqa.
From Stdlib Require Import List Sorted Permutation.
Import ListNotations.
Open Scope Z_scope.

(* ------------------------------------------------------------------ *)
(** ** Python builtins used by the class *)

Module Py.

(** [x < y] and [x > y] on floats. *)
Definition ltb (x y : Q) : bool :=
  match (x ?= y)%Q with Lt => true | _ => false end.
Definition gtb (x y : Q) : bool := ltb y x.

(** [round(x)]: nearest integer, ties to the even one. *)
Definition round (x : Q) : Z :=
  let f := Qfloor x in
  match (x - inject_Z f ?= 1 # 2)%Q with
  | Lt => f
  | Gt => f + 1
  | Eq => if Z.even f then f else f + 1
  end.

(** [round(x, 2)]. *)
Definition round2 (x : Q) : Q := (inject_Z (round (x * 100)) / 100)%Q.

(** [int(x)] on a float: truncation toward zero. *)
Definition int_of_float (x : Q) : Z := Z.quot (Qnum x) (Z.pos (Qden x)).

(** [sum(l)]. *)
Definition sum (l : list Q) : Q := fold_left Qplus l 0%Q.

(** [max(l)] and [min(l)]: the first largest (smallest) element.  On the
    empty list Python raises ValueError; the class only calls them on
    [cells], [dCells] (20 entries) and on [temps] right after [getTemps]
    has appended the CPU temperature, so the default is never used. *)
Definition max (l : list Q) : Q :=
  match l with
  | [] => 0%Q
  | x :: r => fold_left (fun m y => if gtb y m then y else m) r x
  end.
Definition min (l : list Q) : Q :=
  match l with
  | [] => 0%Q
  | x :: r => fold_left (fun m y => if ltb y m then y else m) r x
  end.

(** [l[a:b]] for [0 <= a <= b]. *)
Definition slice {A : Type} (l : list A) (a b : nat) : list A :=
  firstn (b - a) (skipn a l).

(** [l[i] = v] for [i] in range.  Out of range Python raises IndexError;
    the class only assigns below [cellCount], in lists at least that long
    ([reachable_in_range]). *)
Fixpoint setitem {A : Type} (l : list A) (i : nat) (v : A) : list A :=
  match l, i with
  | [], _ => []
  | _ :: r, O => v :: r
  | x :: r, S j => x :: setitem r j v
  end.

(** [str(n)] for an integer. *)
Definition str_int (n : Z) : string := NilZero.string_of_int (Z.to_int n).

(** [bytes(s, 'utf-8')] for the ASCII strings the class sends. *)
Definition bytes_of_str (s : string) : list byte := list_byte_of_string s.

(** [bytes(n)] for an integer [n]: [n] zero bytes. *)
Definition bytes_of_int (n : nat) : list byte := repeat x00 n.

(** [''.join([chr(i) for i in bs])]. *)
Definition str_of_bytes (bs : list byte) : string := string_of_list_byte bs.

(** [''.join(["0" for i in range(n)])]; [range] of a negative number is
    empty. *)
Definition zeros (n : Z) : string :=
  string_of_list_ascii (repeat "0"%char (Z.to_nat n)).

Definition len (s : string) : Z := Z.of_nat (String.length s).

(** [bool(data)] on a string. *)
Definition bool_of_str (s : string) : bool :=
  match s with EmptyString => false | _ => true end.

(** [sorted(l, key=key, reverse=True)].  Python's sort is stable, also
    with [reverse=True]: elements with equal keys keep their order.  It is
    embedded as a stable insertion sort; [sorted_desc_perm],
    [sorted_desc_sorted] and [sorted_desc_stable] below are the contract
    of [sorted] that the proofs rely on. *)
Fixpoint insert_desc {A : Type} (key : A -> Q) (x : A) (l : list A) : list A :=
  match l with
  | [] => [x]
  | y :: r => if ltb (key x) (key y) then y :: insert_desc key x r
              else x :: y :: r
  end.
Fixpoint sorted_desc {A : Type} (key : A -> Q) (l : list A) : list A :=
  match l with
  | [] => []
  | x :: r => insert_desc key x (sorted_desc key r)
  end.

(** Builtins whose exact behaviour lies in the Python runtime: parsing and
    printing of floats and parsing of integers.  [None] is ValueError. *)
Record runtime : Type := {
  float_of_str : string -> option Q;   (* float(data) *)
  int_of_str : string -> option Z;     (* int(data) *)
  str_float : Q -> string              (* str(x) for a float x *)
}.

End Py.

(* ------------------------------------------------------------------ *)
(** ** The board: effects and inputs *)

(** The [ALERT] lines of the console. *)
Inductive alert : Type :=
| PreviousFault              (* __init__: fault during previous operation *)
| ThermalShutdown            (* getTemps *)
| TargetOutOfRange           (* balance *)
| RapidChange                (* update: cell voltage changed rapidly *)
| CellAboveMax (i : nat)     (* update: Cell_i above maximum voltage *)
| CellBelowMin (i : nat).    (* update: Cell_i below minimum voltage *)

Inductive adc_call : Type :=
| wakeupAll
| wregAll (reg : Z) (data : list Z)
| selfOffsetAll
| sleepAll.

Inductive event : Type :=
| Console (a : alert)
| Adc (c : adc_call)
| IodirSet (i : nat) (v : Z)         (* mcpArr[i].iodir = v *)
| GpioSet (i : nat) (v : Z)          (* mcpArr[i].gpio = v *)
| BuzSet (b : bool)
| RelaySet (b : bool)
| FanSet (b : bool)
| DotFill (r g b : Z)
| NvmSet (v : Z)
| UartWrite (bs : list byte)
| Sleep (secs : Q).

(** One batch of [ADS1248.fetchAll]: the voltage of each channel.  The ADC
    driver is not part of the repository; a batch is taken as a function of
    the channel number. *)
Definition reading : Type := nat -> Q.

(** What one call of [update] reads from the outside.  The k-th call of
    [getCells] in the tick gets [fetchAll k]; the k-th call of [getTemps]
    gets the raw sensor values [tmp_value k] and [cpu_temperature k]. *)
Record tick_input : Type := {
  fetchAll : nat -> reading;
  tmp_value : nat -> list Z;
  cpu_temperature : nat -> Q;
  uart_read1 : option byte;           (* uart.read(1) *)
  uart_read : option (list byte)      (* uart.read() *)
}.

(* ------------------------------------------------------------------ *)
(** ** The object *)

Record BMS : Type := mkBMS {
  mode : Z;  (* 0 = idle, 1 = chg/dschg/storage, 2 = shutdown *)
  drain : list Z;  (* per-cell discharge flags, 0 or 1 *)
  temps : list Q;  (* board temperatures, CPU last *)
  maxTemp : Q;
  fanTrigger : Q;
  cells : list Q;  (* cell voltages by logical index *)
  lastCells : list Q;  (* cells as the previous measurement left them *)
  minVoltage : Q;
  maxVoltage : Q;
  targetVoltage : Q;
  dV : Q;
  balTime : Z;
  testBalCount : Z;
  error : bool;
  verbose : bool;
  battVoltage : Q;
  capacity : Z;
  meanVoltage : Q;
  minCell : Q;  (* attribute created by update *)
  maxCell : Q;  (* attribute created by update *)
  charging : bool;  (* attribute created by balance *)
  balancing : bool;  (* attribute created by balance *)
  buz : bool;  (* buzzer.value *)
  relay : bool;  (* relay.value *)
  fan : bool;  (* fan.value *)
  gpio : list Z;  (* mcpArr[i].gpio, one entry per expander *)
  nvm0 : Z;  (* microcontroller.nvm[0] *)
  out : list event  (* effects on the board, oldest first *)
}.

Definition set_mode (v : Z) (s : BMS) : BMS :=
  mkBMS v (drain s) (temps s) (maxTemp s) (fanTrigger s) (cells s)
    (lastCells s) (minVoltage s) (maxVoltage s) (targetVoltage s) (dV s)
    (balTime s) (testBalCount s) (error s) (verbose s) (battVoltage s)
    (capacity s) (meanVoltage s) (minCell s) (maxCell s) (charging s)
    (balancing s) (buz s) (relay s) (fan s) (gpio s) (nvm0 s) (out s).

Definition set_drain (v : list Z) (s : BMS) : BMS :=
  mkBMS (mode s) v (temps s) (maxTemp s) (fanTrigger s) (cells s)
    (lastCells s) (minVoltage s) (maxVoltage s) (targetVoltage s) (dV s)
    (balTime s) (testBalCount s) (error s) (verbose s) (battVoltage s)
    (capacity s) (meanVoltage s) (minCell s) (maxCell s) (charging s)
    (balancing s) (buz s) (relay s) (fan s) (gpio s) (nvm0 s) (out s).

Definition set_temps (v : list Q) (s : BMS) : BMS :=
  mkBMS (mode s) (drain s) v (maxTemp s) (fanTrigger s) (cells s)
    (lastCells s) (minVoltage s) (maxVoltage s) (targetVoltage s) (dV s)
    (balTime s) (testBalCount s) (error s) (verbose s) (battVoltage s)
    (capacity s) (meanVoltage s) (minCell s) (maxCell s) (charging s)
    (balancing s) (buz s) (relay s) (fan s) (gpio s) (nvm0 s) (out s).

Definition set_maxTemp (v : Q) (s : BMS) : BMS :=
  mkBMS (mode s) (drain s) (temps s) v (fanTrigger s) (cells s)
    (lastCells s) (minVoltage s) (maxVoltage s) (targetVoltage s) (dV s)
    (balTime s) (testBalCount s) (error s) (verbose s) (battVoltage s)
    (capacity s) (meanVoltage s) (minCell s) (maxCell s) (charging s)
    (balancing s) (buz s) (relay s) (fan s) (gpio s) (nvm0 s) (out s).

Definition set_fanTrigger (v : Q) (s : BMS) : BMS :=
  mkBMS (mode s) (drain s) (temps s) (maxTemp s) v (cells s) (lastCells s)
    (minVoltage s) (maxVoltage s) (targetVoltage s) (dV s) (balTime s)
    (testBalCount s) (error s) (verbose s) (battVoltage s) (capacity s)
    (meanVoltage s) (minCell s) (maxCell s) (charging s) (balancing s)
    (buz s) (relay s) (fan s) (gpio s) (nvm0 s) (out s).

Definition set_cells (v : list Q) (s : BMS) : BMS :=
  mkBMS (mode s) (drain s) (temps s) (maxTemp s) (fanTrigger s) v
    (lastCells s) (minVoltage s) (maxVoltage s) (targetVoltage s) (dV s)
    (balTime s) (testBalCount s) (error s) (verbose s) (battVoltage s)
    (capacity s) (meanVoltage s) (minCell s) (maxCell s) (charging s)
    (balancing s) (buz s) (relay s) (fan s) (gpio s) (nvm0 s) (out s).

Definition set_lastCells (v : list Q) (s : BMS) : BMS :=
  mkBMS (mode s) (drain s) (temps s) (maxTemp s) (fanTrigger s) (cells s) v
    (minVoltage s) (maxVoltage s) (targetVoltage s) (dV s) (balTime s)
    (testBalCount s) (error s) (verbose s) (battVoltage s) (capacity s)
    (meanVoltage s) (minCell s) (maxCell s) (charging s) (balancing s)
    (buz s) (relay s) (fan s) (gpio s) (nvm0 s) (out s).

Definition set_minVoltage (v : Q) (s : BMS) : BMS :=
  mkBMS (mode s) (drain s) (temps s) (maxTemp s) (fanTrigger s) (cells s)
    (lastCells s) v (maxVoltage s) (targetVoltage s) (dV s) (balTime s)
    (testBalCount s) (error s) (verbose s) (battVoltage s) (capacity s)
    (meanVoltage s) (minCell s) (maxCell s) (charging s) (balancing s)
    (buz s) (relay s) (fan s) (gpio s) (nvm0 s) (out s).

Definition set_maxVoltage (v : Q) (s : BMS) : BMS :=
  mkBMS (mode s) (drain s) (temps s) (maxTemp s) (fanTrigger s) (cells s)
    (lastCells s) (minVoltage s) v (targetVoltage s) (dV s) (balTime s)
    (testBalCount s) (error s) (verbose s) (battVoltage s) (capacity s)
    (meanVoltage s) (minCell s) (maxCell s) (charging s) (balancing s)
    (buz s) (relay s) (fan s) (gpio s) (nvm0 s) (out s).

Definition set_targetVoltage (v : Q) (s : BMS) : BMS :=
  mkBMS (mode s) (drain s) (temps s) (maxTemp s) (fanTrigger s) (cells s)
    (lastCells s) (minVoltage s) (maxVoltage s) v (dV s) (balTime s)
    (testBalCount s) (error s) (verbose s) (battVoltage s) (capacity s)
    (meanVoltage s) (minCell s) (maxCell s) (charging s) (balancing s)
    (buz s) (relay s) (fan s) (gpio s) (nvm0 s) (out s).

Definition set_dV (v : Q) (s : BMS) : BMS :=
  mkBMS (mode s) (drain s) (temps s) (maxTemp s) (fanTrigger s) (cells s)
    (lastCells s) (minVoltage s) (maxVoltage s) (targetVoltage s) v
    (balTime s) (testBalCount s) (error s) (verbose s) (battVoltage s)
    (capacity s) (meanVoltage s) (minCell s) (maxCell s) (charging s)
    (balancing s) (buz s) (relay s) (fan s) (gpio s) (nvm0 s) (out s).

Definition set_balTime (v : Z) (s : BMS) : BMS :=
  mkBMS (mode s) (drain s) (temps s) (maxTemp s) (fanTrigger s) (cells s)
    (lastCells s) (minVoltage s) (maxVoltage s) (targetVoltage s) (dV s) v
    (testBalCount s) (error s) (verbose s) (battVoltage s) (capacity s)
    (meanVoltage s) (minCell s) (maxCell s) (charging s) (balancing s)
    (buz s) (relay s) (fan s) (gpio s) (nvm0 s) (out s).

Definition set_testBalCount (v : Z) (s : BMS) : BMS :=
  mkBMS (mode s) (drain s) (temps s) (maxTemp s) (fanTrigger s) (cells s)
    (lastCells s) (minVoltage s) (maxVoltage s) (targetVoltage s) (dV s)
    (balTime s) v (error s) (verbose s) (battVoltage s) (capacity s)
    (meanVoltage s) (minCell s) (maxCell s) (charging s) (balancing s)
    (buz s) (relay s) (fan s) (gpio s) (nvm0 s) (out s).

Definition set_error (v : bool) (s : BMS) : BMS :=
  mkBMS (mode s) (drain s) (temps s) (maxTemp s) (fanTrigger s) (cells s)
    (lastCells s) (minVoltage s) (maxVoltage s) (targetVoltage s) (dV s)
    (balTime s) (testBalCount s) v (verbose s) (battVoltage s) (capacity s)
    (meanVoltage s) (minCell s) (maxCell s) (charging s) (balancing s)
    (buz s) (relay s) (fan s) (gpio s) (nvm0 s) (out s).

Definition set_verbose (v : bool) (s : BMS) : BMS :=
  mkBMS (mode s) (drain s) (temps s) (maxTemp s) (fanTrigger s) (cells s)
    (lastCells s) (minVoltage s) (maxVoltage s) (targetVoltage s) (dV s)
    (balTime s) (testBalCount s) (error s) v (battVoltage s) (capacity s)
    (meanVoltage s) (minCell s) (maxCell s) (charging s) (balancing s)
    (buz s) (relay s) (fan s) (gpio s) (nvm0 s) (out s).

Definition set_battVoltage (v : Q) (s : BMS) : BMS :=
  mkBMS (mode s) (drain s) (temps s) (maxTemp s) (fanTrigger s) (cells s)
    (lastCells s) (minVoltage s) (maxVoltage s) (targetVoltage s) (dV s)
    (balTime s) (testBalCount s) (error s) (verbose s) v (capacity s)
    (meanVoltage s) (minCell s) (maxCell s) (charging s) (balancing s)
    (buz s) (relay s) (fan s) (gpio s) (nvm0 s) (out s).

Definition set_capacity (v : Z) (s : BMS) : BMS :=
  mkBMS (mode s) (drain s) (temps s) (maxTemp s) (fanTrigger s) (cells s)
    (lastCells s) (minVoltage s) (maxVoltage s) (targetVoltage s) (dV s)
    (balTime s) (testBalCount s) (error s) (verbose s) (battVoltage s) v
    (meanVoltage s) (minCell s) (maxCell s) (charging s) (balancing s)
    (buz s) (relay s) (fan s) (gpio s) (nvm0 s) (out s).

Definition set_meanVoltage (v : Q) (s : BMS) : BMS :=
  mkBMS (mode s) (drain s) (temps s) (maxTemp s) (fanTrigger s) (cells s)
    (lastCells s) (minVoltage s) (maxVoltage s) (targetVoltage s) (dV s)
    (balTime s) (testBalCount s) (error s) (verbose s) (battVoltage s)
    (capacity s) v (minCell s) (maxCell s) (charging s) (balancing s)
    (buz s) (relay s) (fan s) (gpio s) (nvm0 s) (out s).

Definition set_minCell (v : Q) (s : BMS) : BMS :=
  mkBMS (mode s) (drain s) (temps s) (maxTemp s) (fanTrigger s) (cells s)
    (lastCells s) (minVoltage s) (maxVoltage s) (targetVoltage s) (dV s)
    (balTime s) (testBalCount s) (error s) (verbose s) (battVoltage s)
    (capacity s) (meanVoltage s) v (maxCell s) (charging s) (balancing s)
    (buz s) (relay s) (fan s) (gpio s) (nvm0 s) (out s).

Definition set_maxCell (v : Q) (s : BMS) : BMS :=
  mkBMS (mode s) (drain s) (temps s) (maxTemp s) (fanTrigger s) (cells s)
    (lastCells s) (minVoltage s) (maxVoltage s) (targetVoltage s) (dV s)
    (balTime s) (testBalCount s) (error s) (verbose s) (battVoltage s)
    (capacity s) (meanVoltage s) (minCell s) v (charging s) (balancing s)
    (buz s) (relay s) (fan s) (gpio s) (nvm0 s) (out s).

Definition set_charging (v : bool) (s : BMS) : BMS :=
  mkBMS (mode s) (drain s) (temps s) (maxTemp s) (fanTrigger s) (cells s)
    (lastCells s) (minVoltage s) (maxVoltage s) (targetVoltage s) (dV s)
    (balTime s) (testBalCount s) (error s) (verbose s) (battVoltage s)
    (capacity s) (meanVoltage s) (minCell s) (maxCell s) v (balancing s)
    (buz s) (relay s) (fan s) (gpio s) (nvm0 s) (out s).

Definition set_balancing (v : bool) (s : BMS) : BMS :=
  mkBMS (mode s) (drain s) (temps s) (maxTemp s) (fanTrigger s) (cells s)
    (lastCells s) (minVoltage s) (maxVoltage s) (targetVoltage s) (dV s)
    (balTime s) (testBalCount s) (error s) (verbose s) (battVoltage s)
    (capacity s) (meanVoltage s) (minCell s) (maxCell s) (charging s) v
    (buz s) (relay s) (fan s) (gpio s) (nvm0 s) (out s).

Definition set_buz (v : bool) (s : BMS) : BMS :=
  mkBMS (mode s) (drain s) (temps s) (maxTemp s) (fanTrigger s) (cells s)
    (lastCells s) (minVoltage s) (maxVoltage s) (targetVoltage s) (dV s)
    (balTime s) (testBalCount s) (error s) (verbose s) (battVoltage s)
    (capacity s) (meanVoltage s) (minCell s) (maxCell s) (charging s)
    (balancing s) v (relay s) (fan s) (gpio s) (nvm0 s) (out s).

Definition set_relay (v : bool) (s : BMS) : BMS :=
  mkBMS (mode s) (drain s) (temps s) (maxTemp s) (fanTrigger s) (cells s)
    (lastCells s) (minVoltage s) (maxVoltage s) (targetVoltage s) (dV s)
    (balTime s) (testBalCount s) (error s) (verbose s) (battVoltage s)
    (capacity s) (meanVoltage s) (minCell s) (maxCell s) (charging s)
    (balancing s) (buz s) v (fan s) (gpio s) (nvm0 s) (out s).

Definition set_fan (v : bool) (s : BMS) : BMS :=
  mkBMS (mode s) (drain s) (temps s) (maxTemp s) (fanTrigger s) (cells s)
    (lastCells s) (minVoltage s) (maxVoltage s) (targetVoltage s) (dV s)
    (balTime s) (testBalCount s) (error s) (verbose s) (battVoltage s)
    (capacity s) (meanVoltage s) (minCell s) (maxCell s) (charging s)
    (balancing s) (buz s) (relay s) v (gpio s) (nvm0 s) (out s).

Definition set_gpio (v : list Z) (s : BMS) : BMS :=
  mkBMS (mode s) (drain s) (temps s) (maxTemp s) (fanTrigger s) (cells s)
    (lastCells s) (minVoltage s) (maxVoltage s) (targetVoltage s) (dV s)
    (balTime s) (testBalCount s) (error s) (verbose s) (battVoltage s)
    (capacity s) (meanVoltage s) (minCell s) (maxCell s) (charging s)
    (balancing s) (buz s) (relay s) (fan s) v (nvm0 s) (out s).

Definition set_nvm0 (v : Z) (s : BMS) : BMS :=
  mkBMS (mode s) (drain s) (temps s) (maxTemp s) (fanTrigger s) (cells s)
    (lastCells s) (minVoltage s) (maxVoltage s) (targetVoltage s) (dV s)
    (balTime s) (testBalCount s) (error s) (verbose s) (battVoltage s)
    (capacity s) (meanVoltage s) (minCell s) (maxCell s) (charging s)
    (balancing s) (buz s) (relay s) (fan s) (gpio s) v (out s).

Definition set_out (v : list event) (s : BMS) : BMS :=
  mkBMS (mode s) (drain s) (temps s) (maxTemp s) (fanTrigger s) (cells s)
    (lastCells s) (minVoltage s) (maxVoltage s) (targetVoltage s) (dV s)
    (balTime s) (testBalCount s) (error s) (verbose s) (battVoltage s)
    (capacity s) (meanVoltage s) (minCell s) (maxCell s) (charging s)
    (balancing s) (buz s) (relay s) (fan s) (gpio s) (nvm0 s) v.

(** [self.cellCount] and [self.cellPos] are assigned once in [__init__] and
    never written again. *)
Definition cellCount : nat := 20.
Definition cellPos : list nat :=
  [18; 15; 12; 6; 3; 9; 0; 7; 16; 13; 10; 19; 1; 4; 20; 17; 11; 5; 2; 14]%nat.

Inductive exn : Type :=
| TypeError            (* iterating the [None] of an empty [uart.read()] *)
| UnboundLocalError.   (* [target] read before assignment in [balance];
                          never from [update], see [update_target_bound] *)

(** How a method call ends: normally, or with an exception that nothing in
    the class catches.  Both carry the object as the call leaves it. *)
Inductive outcome : Type :=
| Normal (s : BMS)
| Raises (e : exn) (s : BMS).

Definition state_of (o : outcome) : BMS :=
  match o with Normal s => s | Raises _ s => s end.

(** *** Writes to the board *)

Definition emit (e : event) (s : BMS) : BMS := set_out (out s ++ [e]) s.

Definition console (a : alert) (s : BMS) : BMS := emit (Console a) s.
Definition buz_value (b : bool) (s : BMS) : BMS := emit (BuzSet b) (set_buz b s).
Definition relay_value (b : bool) (s : BMS) : BMS :=
  emit (RelaySet b) (set_relay b s).
Definition fan_value (b : bool) (s : BMS) : BMS := emit (FanSet b) (set_fan b s).
Definition gpio_value (i : nat) (v : Z) (s : BMS) : BMS :=
  emit (GpioSet i v) (set_gpio (Py.setitem (gpio s) i v) s).
Definition nvm_write (v : Z) (s : BMS) : BMS := emit (NvmSet v) (set_nvm0 v s).
Definition uart_write (bs : list byte) (s : BMS) : BMS := emit (UartWrite bs) s.
Definition sleep (secs : Q) (s : BMS) : BMS := emit (Sleep secs) s.

(* ------------------------------------------------------------------ *)
(** ** getCells *)

(** The two colour components of line 123 are computed, like every float
    of the class, in exact arithmetic.  [int()] truncates, so where the
    exact product is an integer a float implementation may give one less:
    in IEEE doubles [(255/100)*100] is just below 255 and the green
    component at capacity 100 is 254, not 255.  What is proved about the
    colour below holds for both values. *)
Definition getCells (cellRead : reading) (s : BMS) : BMS :=
  let s :=
    set_cells
      (fold_left
         (fun cells i => Py.setitem cells i (cellRead (nth i cellPos 0%nat)))
         (seq 0 20) (cells s)) s in
  let s := set_battVoltage (Py.sum (cells s)) s in
  let s :=
    set_capacity
      (Z.min (Z.max (Py.round ((100 / (84 - 68)) * (battVoltage s - 68))%Q) 0)
         100) s in
  let s :=
    set_meanVoltage (Py.sum (cells s) / inject_Z (Z.of_nat cellCount))%Q s in
  emit (DotFill
          (Py.int_of_float ((-255 / 100) * inject_Z (capacity s) + 255)%Q)
          (Py.int_of_float ((255 / 100) * inject_Z (capacity s))%Q)
          0) s.

(* ------------------------------------------------------------------ *)
(** ** getTemps *)

(** Raw 16-bit sensor value to degrees Celsius. *)
Definition celsius (value : Z) : Q :=
  ((150 / (15 # 10)) * ((inject_Z value * (33 # 10) / 65536) - (5 # 10)))%Q.

(** The list [self.temps] that one call computes. *)
Definition read_temps (values : list Z) (cpu : Q) : list Q :=
  map Py.round2 (map celsius values ++ [cpu]).

(** Returns the object and the method's return value. *)
Definition getTemps (values : list Z) (cpu : Q) (s : BMS) : BMS * bool :=
  let s := set_temps (read_temps values cpu) s in
  let s :=
    if Py.gtb (Py.max (temps s)) (fanTrigger s) then fan_value true s
    else fan_value false s in
  if Py.gtb (Py.max (temps s)) (maxTemp s + 20)%Q then
    let s := console ThermalShutdown s in
    let s := buz_value true s in
    let s := set_mode 2 s in
    (s, true)
  else (s, false).

(* ------------------------------------------------------------------ *)
(** ** sendIO *)

(** The byte of one expander: bit [j] is set when flag [j] of its slice of
    [drain] is 1. *)
Definition bank_byte (flags : list Z) : Z :=
  fold_left
    (fun send j => if nth j flags 0 =? 1 then send + 2 ^ Z.of_nat j else send)
    (seq 0 (length flags)) 0.

Definition sendIO (s : BMS) : BMS :=
  fold_left
    (fun s i =>
       gpio_value i (bank_byte (Py.slice (drain s) (8 * i) (8 * (i + 1)))) s)
    (seq 0 (length (gpio s))) s.

(* ------------------------------------------------------------------ *)
(** ** balance *)

(** Lines 190-194: the cells above [target], in index order, and the drain
    plan with the flag of every other cell cleared. *)
Definition collect (target : Q) (cells : list Q) (drain : list Z)
    : list nat * list Z :=
  fold_left
    (fun acc i =>
       let '(toDschg, drain) := acc in
       if Py.gtb (nth i cells 0%Q) target then (toDschg ++ [i], drain)
       else (toDschg, Py.setitem drain i 0))
    (seq 0 cellCount) ([], drain).

(** Lines 195-201: the sorted candidates and how many of them are taken. *)
Definition ranked (cells : list Q) (toDschg : list nat) : list nat :=
  Py.sorted_desc (fun x => nth x cells 0%Q) toDschg.

Definition take_count (toDschg : list nat) : nat :=
  if (length toDschg <=? cellCount / 2)%nat then length toDschg
  else (cellCount / 2)%nat.

(** Lines 202-203: the flags of the first [count] candidates are set. *)
Definition switch_on (toDschg : list nat) (count : nat) (drain : list Z)
    : list Z :=
  fold_left (fun drain i => Py.setitem drain (nth i toDschg 0%nat) 1)
    (seq 0 count) drain.

(** Lines 190-203: cell selection. *)
Definition select_cells (target : Q) (s : BMS) : BMS :=
  let '(toDschg, drain) := collect target (cells s) (drain s) in
  let toDschg := ranked (cells s) toDschg in
  let count := take_count toDschg in
  set_drain (switch_on toDschg count drain) s.

(** Lines 179-188: the discharge target, [None] when neither branch assigns
    it. *)
Definition choose_target (s : BMS) : option Q :=
  if Py.gtb (maxCell s - minCell s) (dV s) then Some (minCell s + dV s / 2)%Q
  else if Py.gtb (meanVoltage s) (targetVoltage s) then Some (targetVoltage s)
  else None.

(** Lines 167-174: the charge decision. *)
Definition decide_charge (s : BMS) : BMS :=
  if (Py.ltb (minCell s) (minVoltage s)
      || Py.ltb (meanVoltage s) (targetVoltage s - dV s / 2)%Q)
     && Py.ltb (maxCell s) (maxVoltage s - (5 # 100))%Q
  then relay_value true (set_charging true s)
  else set_charging false s.

(** Lines 176-207: the balance decision and the cell selection. *)
Definition decide_balance (s : BMS) : outcome :=
  if (Py.gtb (maxCell s - minCell s) (dV s)
      || Py.gtb (meanVoltage s) (targetVoltage s + dV s / 2)%Q)
     && Py.gtb (minCell s) (minVoltage s)
  then
    let s := set_balancing true s in
    let s := set_testBalCount 0 s in
    match choose_target s with
    | Some target => Normal (sendIO (select_cells target s))
    | None => Raises UnboundLocalError s
    end
  else Normal (set_balancing false s).

(** Lines 228-233: the temperature watch of the balance window; [k] is the
    number of [getTemps] calls made so far in the tick. *)
Fixpoint monitor (n k : nat) (inp : tick_input) (s : BMS) : BMS :=
  match n with
  | O => s
  | S n' =>
      let s := fst (getTemps (tmp_value inp k) (cpu_temperature inp k) s) in
      if Py.gtb (Py.max (temps s)) (maxTemp s) then s
      else monitor n' (S k) inp (sleep 8 s)
  end.

(** Lines 209-236. *)
Definition settle (inp : tick_input) (s : BMS) : BMS :=
  if negb (balancing s) && negb (charging s) then
    if testBalCount s <? 4 then
      let s := set_testBalCount (testBalCount s + 1) s in
      sleep 8 s
    else
      let s :=
        fold_left
          (fun s _ =>
             sleep (1 # 10) (buz_value false (sleep (1 # 10) (buz_value true s))))
          (seq 0 2) s in
      let s := set_mode 0 s in
      set_testBalCount 0 s
  else
    let s := monitor (Z.to_nat (balTime s / 8)) 1 inp s in
    let s := set_drain (repeat 0 cellCount) s in
    relay_value false s.

(** Lines 157-165: the abort on a target outside the voltage band. *)
Definition abort_balance (s : BMS) : BMS :=
  let s := console TargetOutOfRange s in
  let s := buz_value true s in
  let s := relay_value false s in
  let s := set_mode 0 s in
  let s := set_drain (repeat 0 cellCount) s in
  let s := sendIO s in
  sleep 1 s.

Definition balance (inp : tick_input) (s : BMS) : outcome :=
  if Py.ltb (targetVoltage s) (minVoltage s)
     || Py.gtb (targetVoltage s) (maxVoltage s)
  then Normal (abort_balance s)
  else
    match decide_balance (decide_charge s) with
    | Normal s => Normal (settle inp s)
    | Raises e s => Raises e s
    end.

(* ------------------------------------------------------------------ *)
(** ** update *)

(** Lines 248-250: the change of each cell since the previous snapshot. *)
Definition deltas (now last : list Q) : list Q :=
  map (fun i => (nth i now 0 - nth i last 0)%Q) (seq 0 cellCount).

Definition dCells (s : BMS) : list Q := deltas (cells s) (lastCells s).

(** Line 252: [max(dCells) > .05 or min(dCells) < -.05]. *)
Definition exceeds (d : list Q) : bool :=
  Py.gtb (Py.max d) (5 # 100) || Py.ltb (Py.min d) (- (5 # 100)).

Definition unstable (s : BMS) : bool := exceeds (dCells s).

(** Lines 246-260: up to [n] measurements; [k] is the number of [getCells]
    calls made so far in the tick. *)
Fixpoint measure (n k : nat) (inp : tick_input) (s : BMS) : BMS :=
  match n with
  | O => s
  | S n' =>
      let s := getCells (fetchAll inp k) s in
      if mode s =? 1 then
        if unstable s then measure n' (S k) inp (set_error true s)
        else set_error false s
      else s
  end.

(** Lines 261-267. *)
Definition latch_fault (s : BMS) : BMS :=
  if error s then
    let s := buz_value true s in
    let s := nvm_write 1 s in
    let s := set_mode 2 s in
    console RapidChange s
  else s.

(** Lines 280-286. *)
Definition limit_scan (s : BMS) : BMS :=
  fold_left
    (fun s i =>
       if Py.gtb (nth i (cells s) 0%Q) (maxVoltage s) then
         set_mode 2 (console (CellAboveMax i) s)
       else if Py.ltb (nth i (cells s) 0%Q) (minVoltage s) then
         set_mode 2 (console (CellBelowMin i) s)
       else s)
    (seq 0 cellCount) s.

(** Lines 241-301: measurement, validation and the voltage-limit scan of
    modes 0 and 1.  The boolean tells whether [update] returned here. *)
Definition checks (inp : tick_input) (s : BMS) : BMS * bool :=
  let s := sendIO s in
  let s := if mode s =? 1 then sleep 5 s else s in
  let s := measure 4 0 inp s in
  let s := latch_fault s in
  let s := set_lastCells (cells s) s in
  if mode s =? 2 then (s, true)
  else
    let s := buz_value false s in
    let s := limit_scan s in
    if mode s =? 2 then
      let s := buz_value true s in
      let s := sleep 1 s in
      let s := buz_value false s in
      (s, true)
    else
      let s := set_minCell (Py.min (cells s)) s in
      let s := set_maxCell (Py.max (cells s)) s in
      (s, false).

(** Lines 241-304, the block run in modes 0 and 1: the checks, then the
    thermal scan.  The boolean tells whether [update] returned inside the
    block. *)
Definition scan (inp : tick_input) (s : BMS) : BMS * bool :=
  let '(s, returned) := checks inp s in
  if returned then (s, true)
  else getTemps (tmp_value inp 0) (cpu_temperature inp 0) s.

(** Lines 313-317, the action of mode 2. *)
Definition power_down (s : BMS) : BMS :=
  let s := buz_value false s in
  let s := relay_value false s in
  let s := set_drain (repeat 0 cellCount) s in
  let s := sendIO s in
  emit (Adc sleepAll) s.

(** Lines 306-317. *)
Definition act (inp : tick_input) (s : BMS) : outcome :=
  if mode s =? 1 then
    if Py.ltb (Py.max (temps s)) (maxTemp s) then balance inp s
    else Normal s
  else if mode s =? 2 then Normal (power_down s)
  else Normal s.

(** *** The serial protocol (lines 320-408) *)

Section Sercom.

Variable rt : Py.runtime.

(** [self.x = float(data)]; ValueError is caught by the handler of line
    405, which writes [bytes(255)]. *)
Definition write_float (data : string) (set : Q -> BMS -> BMS) (s : BMS) : BMS :=
  match Py.float_of_str rt data with
  | Some v => set v s
  | None => uart_write (Py.bytes_of_int 255) s
  end.

Definition write_int (data : string) (set : Z -> BMS -> BMS) (s : BMS) : BMS :=
  match Py.int_of_str rt data with
  | Some v => set v s
  | None => uart_write (Py.bytes_of_int 255) s
  end.

(** A write command (lines 326-368). *)
Definition write_register (command : Z) (data : string) (s : BMS) : BMS :=
  if command =? 128 then
    if String.eqb data "0" then set_mode 0 s
    else if String.eqb data "1" then set_mode 1 s
    else if String.eqb data "2" then set_mode 2 s
    else s
  else if command =? 133 then write_float data set_targetVoltage s
  else if command =? 129 then write_float data set_maxTemp s
  else if command =? 130 then write_float data set_fanTrigger s
  else if command =? 131 then write_float data set_minVoltage s
  else if command =? 132 then write_float data set_maxVoltage s
  else if command =? 134 then write_float data set_dV s
  else if command =? 135 then write_int data set_balTime s
  else if command =? 136 then set_verbose (Py.bool_of_str data) s
  else s.

(** [str(x)] followed by the padding to [width]. *)
Definition send_float (width : Z) (x : Q) (s : BMS) : BMS :=
  let text := Py.str_float rt x in
  let s := uart_write (Py.bytes_of_str text) s in
  uart_write (Py.bytes_of_str (Py.zeros (width - Py.len text))) s.

(** One entry of a list register: the padding and the newline go out in
    one write. *)
Definition send_float_line (width : Z) (s : BMS) (x : Q) : BMS :=
  let text := Py.str_float rt x in
  let s := uart_write (Py.bytes_of_str text) s in
  uart_write (Py.bytes_of_str (Py.zeros (width - Py.len text)) ++ [x0a]) s.

(** A read command (lines 372-404). *)
Definition read_register (command : Z) (s : BMS) : BMS :=
  if command =? 1 then send_float 7 (battVoltage s) s
  else if command =? 2 then
    uart_write (Py.bytes_of_str (Py.str_int (capacity s))) s
  else if command =? 3 then send_float 7 (meanVoltage s) s
  else if command =? 4 then fold_left (send_float_line 7) (cells s) s
  else if command =? 5 then fold_left (send_float_line 5) (temps s) s
  else if command =? 6 then
    if mode s =? 2 then uart_write (Py.bytes_of_str "1") s
    else uart_write (Py.bytes_of_str "0") s
  else s.

Definition sercom (inp : tick_input) (s : BMS) : outcome :=
  match uart_read1 inp with
  | None => Normal s
  | Some recv0 =>
      let command := Z.of_N (Byte.to_N recv0) in
      if command >=? 128 then
        match uart_read inp with
        | None => Raises TypeError s
        | Some bs => Normal (write_register command (Py.str_of_bytes bs) s)
        end
      else Normal (read_register command s)
  end.

(** One tick. *)
Definition update (inp : tick_input) (s : BMS) : outcome :=
  let '(s, returned) :=
    if (mode s =? 0) || (mode s =? 1) then scan inp s else (s, false) in
  if returned then Normal s
  else
    match act inp s with
    | Normal s => sercom inp s
    | Raises e s => Raises e s
    end.

End Sercom.

(* ------------------------------------------------------------------ *)
(** ** __init__ *)

(** The constructor: [n_mcp] and [n_tmp] are [len(mcpArr)] and
    [len(tmpArr)]; [buz0], [relay0], [fan0] are the values of the three pins
    as they are handed in; [nvm] is the stored byte; [cellRead] is the ADC
    batch of the first [getCells].  Line 82 fills [temps] with the integer
    0, embedded as the rational 0; the two differ only under [str()],
    which the class applies to [temps] in register 5, and what is proved
    about that register is stated for temperatures that [getTemps] has
    measured. *)
Definition init (n_mcp n_tmp : nat) (buz0 relay0 fan0 : bool) (nvm : Z)
    (cellRead : reading) : BMS :=
  let s :=
    mkBMS 0 (repeat 0 24) (repeat 0%Q n_tmp) 80 50 (repeat 0%Q cellCount) []
      (34 # 10) (425 # 100) (385 # 100) (1 # 100) 32 0 false false 0 0 0 0 0
      false false buz0 relay0 fan0 (repeat 0 n_mcp) nvm [] in
  let s := emit (Adc wakeupAll) s in
  let s := emit (Adc (wregAll 2 [64; 3])) s in
  let s := emit (Adc selfOffsetAll) s in
  let s :=
    fold_left (fun s i => gpio_value i 0 (emit (IodirSet i 0) s))
      (seq 0 n_mcp) s in
  let s := uart_write [x7f] s in
  let s :=
    if nvm0 s =? 1 then nvm_write 0 (console PreviousFault s) else s in
  let s := getCells cellRead s in
  set_lastCells (cells s) s.

(* ------------------------------------------------------------------ *)
(** ** Vocabulary of the properties *)

(** The tick input [inp] with the UART holding the command byte [c] and,
    behind it, [payload] ([None]: nothing more in the receive buffer). *)
Definition host_sends (c : byte) (payload : option (list byte))
    (inp : tick_input) : tick_input :=
  {| fetchAll := fetchAll inp;
     tmp_value := tmp_value inp;
     cpu_temperature := cpu_temperature inp;
     uart_read1 := Some c;
     uart_read := payload |}.

(** The bytes put on the UART by a list of events. *)
Fixpoint uart_tx (evs : list event) : list byte :=
  match evs with
  | [] => []
  | UartWrite bs :: r => bs ++ uart_tx r
  | _ :: r => uart_tx r
  end.

(** The events a step added to the trace. *)
Definition added (before after : BMS) : list event :=
  skipn (length (out before)) (out after).

(** Number of flags of a drain plan that are set. *)
Definition ones (d : list Z) : nat := count_occ Z.eq_dec d 1.

(** Number of times the startup report of a latched fault was printed. *)
Definition fault_reports (evs : list event) : nat :=
  length (filter (fun e => match e with Console PreviousFault => true
                                 | _ => false end) evs).

(** Number of writes to the non-volatile byte. *)
Definition nvm_writes (evs : list event) : nat :=
  length (filter (fun e => match e with NvmSet _ => true | _ => false end) evs).

(** The capacity formula in the words of the design document:
    [clamp(round((100/(Vfull - Vempty)) * (total - Vempty)), 0, 100)]. *)
Definition Vfull : Q := 84.
Definition Vempty : Q := 68.
Definition clamp (x lo hi : Z) : Z :=
  if x <? lo then lo else if hi <? x then hi else x.
Definition spec_capacity (total : Q) : Z :=
  clamp (Py.round ((100 / (Vfull - Vempty)) * (total - Vempty))%Q) 0 100.

(** The states the controller can be in between two ticks: the constructor's
    result, and whatever a call of [update] leaves behind. *)
Inductive reachable (rt : Py.runtime) : BMS -> Prop :=
| reach_init : forall n_mcp n_tmp buz0 relay0 fan0 nvm cellRead,
    reachable rt (init n_mcp n_tmp buz0 relay0 fan0 nvm cellRead)
| reach_update : forall inp s,
    reachable rt s -> reachable rt (state_of (update rt inp s)).

(** The order in which [sorted(..., reverse=True)] leaves two candidates:
    higher voltage first, and among equal voltages the lower index first. *)
Definition before (cells : list Q) (i j : nat) : Prop :=
  (nth j cells 0%Q < nth i cells 0%Q)%Q
  \/ (nth i cells 0%Q == nth j cells 0%Q /\ (i < j)%nat).

(** The cells that [select_cells] switches on. *)
Definition chosen (target : Q) (s : BMS) : list nat :=
  let r := ranked (cells s) (fst (collect target (cells s) (drain s))) in
  firstn (take_count r) r.

(** The byte [sendIO] writes to expander [i] for the drain plan [d]. *)
Definition bank (d : list Z) (i : nat) : Z :=
  bank_byte (Py.slice d (8 * i) (8 * (i + 1))).

(** The registers written with [float(data)] and the one written with
    [int(data)]. *)
Definition float_register (command : Z) : Prop :=
  In command [129; 130; 131; 132; 133; 134].

Definition malformed (rt : Py.runtime) (command : Z) (data : string) : Prop :=
  (float_register command /\ Py.float_of_str rt data = None)
  \/ (command = 135 /\ Py.int_of_str rt data = None).

(** The bytes answered to a read command. *)
Definition response (rt : Py.runtime) (command : Z) (s : BMS) : list byte :=
  uart_tx (added s (read_register rt command s)).

(** Setting the flags of a list of cells. *)
Definition lit (m : list nat) (d : list Z) : list Z :=
  fold_left (fun d x => Py.setitem d x 1) m d.

(** No flag of the plan is set. *)
Definition quiet_drain (s : BMS) : Prop := Forall (fun v => v = 0) (drain s).

(** Line 192: [self.cells[i] > target]. *)
Definition above (target : Q) (cells : list Q) (i : nat) : bool :=
  Py.gtb (nth i cells 0%Q) target.

(** The drain plan after the loop of lines 191-194 has run over the
    indices [l]. *)
Definition cleared (target : Q) (cells : list Q) (l : list nat) (d : list Z)
    : list Z :=
  fold_left (fun d i => if above target cells i then d else Py.setitem d i 0) l d.

(* ------------------------------------------------------------------ *)
(** ** A runtime for examples

    A stand-in for the Python runtime that reads and prints plain decimal
    literals only (an optional sign, digits, an optional fraction).  It is
    used to run the model on concrete inputs; no general statement depends
    on it. *)

Module Example.

Definition digit (c : ascii) : option Z :=
  let n := nat_of_ascii c in
  if ((48 <=? n) && (n <=? 57))%nat then Some (Z.of_nat (n - 48)) else None.

(** Value of a non-empty run of digits. *)
Fixpoint digits (acc : Z) (l : list ascii) : option Z :=
  match l with
  | [] => Some acc
  | c :: r =>
      match digit c with
      | Some d => digits (10 * acc + d) r
      | None => None
      end
  end.

Definition number (l : list ascii) : option Z :=
  match l with [] => None | _ => digits 0 l end.

Definition signed (l : list ascii) : bool * list ascii :=
  match l with
  | "-"%char :: r => (true, r)
  | "+"%char :: r => (false, r)
  | _ => (false, l)
  end.

Fixpoint split_dot (l : list ascii) : list ascii * option (list ascii) :=
  match l with
  | [] => ([], None)
  | "."%char :: r => ([], Some r)
  | c :: r => let '(a, b) := split_dot r in (c :: a, b)
  end.

Definition int_of_str (s : string) : option Z :=
  let '(neg, l) := signed (list_ascii_of_string s) in
  match number l with
  | Some n => Some (if neg then - n else n)
  | None => None
  end.

Definition float_of_str (s : string) : option Q :=
  let '(neg, l) := signed (list_ascii_of_string s) in
  let '(whole, frac) := split_dot l in
  match number whole, frac with
  | Some n, None => Some (inject_Z (if neg then - n else n))
  | Some n, Some f =>
      match digits 0 f with
      | Some m =>
          let scale := 10 ^ Z.of_nat (length f) in
          let v := (inject_Z (n * scale + m) / inject_Z scale)%Q in
          Some (if neg then (- v)%Q else v)
      | None => None
      end
  | None, _ => None
  end.

(** Up to [n] fractional digits of [num / den], stopping when exact. *)
Fixpoint fraction (n : nat) (num den : Z) : string :=
  match n with
  | O => EmptyString
  | S n' =>
      let d := 10 * num / den in
      let r := 10 * num mod den in
      String.append (Py.str_int d)
        (if r =? 0 then EmptyString else fraction n' r den)
  end.

Definition str_float (x : Q) : string :=
  let num := Z.abs (Qnum x) in
  let den := Z.pos (Qden x) in
  String.append (if Qnum x <? 0 then "-"%string else EmptyString)
    (String.append (Py.str_int (num / den))
       (String "." (fraction 6 (num mod den) den))).

Definition runtime : Py.runtime :=
  {| Py.float_of_str := float_of_str;
     Py.int_of_str := int_of_str;
     Py.str_float := str_float |}.

(** Every ADC channel reads [v]. *)
Definition flat (v : Q) : reading := fun _ => v.

(** 19 cells at 4.20 V and the last logical cell (ADC channel 14) at
    3.50 V. *)
Definition one_low : reading :=
  fun ch => if Nat.eqb ch 14 then (350 # 100)%Q else (420 # 100)%Q.

(** A quiet tick: every batch is [rd], four sensors at about 0.35 C, the
    CPU at [cpu] degrees, nothing on the UART. *)
Definition quiet (rd : reading) (cpu : Q) : tick_input :=
  {| fetchAll := fun _ => rd;
     tmp_value := fun _ => [10000; 10000; 10000; 10000];
     cpu_temperature := fun _ => cpu;
     uart_read1 := None;
     uart_read := None |}.

(** The controller as built on a board with three expanders and four
    sensors, all pins low. *)
Definition boot (nvm : Z) (rd : reading) : BMS :=
  init 3 4 false false false nvm rd.

End Example.

(* ------------------------------------------------------------------ *)
(** ** Inputs of the examples *)

(** C1 as the design document states it: in every mode, sensors above
    [maxTemp + 20] during a tick leave the mode at 2 and the alarm on. *)
Definition thermal_trip_in_every_mode : Prop :=
  forall (rt : Py.runtime) (inp : tick_input) (s : BMS),
    (maxTemp s + 20
     < Py.max (read_temps (tmp_value inp 0) (cpu_temperature inp 0)))%Q ->
    mode (state_of (update rt inp s)) = 2
    /\ buz (state_of (update rt inp s)) = true.

(** A board whose CPU sensor reads 120 C, above [maxTemp + 20] = 100. *)
Definition hot_tick : tick_input := Example.quiet (Example.flat 4) 120.

(** The controller after one such tick from startup: tripped, in mode 2. *)
Definition tripped : BMS :=
  state_of (update Example.runtime hot_tick (Example.boot 0 (Example.flat 4))).

(** The scenario of the design document: 19 cells at 4.20 V and one, the
    last, at 3.50 V, with the defaults [dV] = 0.01 and [targetVoltage] =
    3.85.  The host writes mode 1 during a first tick; [scenario] is the
    controller inside the [balance] call of the second tick, at the
    balance decision. *)
Definition scenario : BMS :=
  let tick := Example.quiet Example.one_low 30 in
  let s0 := Example.boot 0 Example.one_low in
  let s1 :=
    state_of (update Example.runtime (host_sends x80 (Some [x31]) tick) s0) in
  decide_charge (fst (scan tick s1)).

(* ------------------------------------------------------------------ *)
(** ** Vocabulary of the further properties *)

(** The number whose bit [j] is set when flag [j] is 1. *)
Fixpoint bits_value (flags : list Z) : Z :=
  match flags with
  | [] => 0
  | f :: r => Z.b2z (f =? 1) + 2 * bits_value r
  end.

(** The parameters that only a write command of the host changes. *)
Definition config (s : BMS) : Q * Q * Q * Q * Q * Q * Z * bool :=
  (maxTemp s, fanTrigger s, minVoltage s, maxVoltage s, targetVoltage s,
   dV s, balTime s, verbose s).

(** What the part of a tick before the serial protocol can do to the
    parameters, the latch, the mode and the relay: [x] is a later state of
    the tick that started in [s]. *)
Definition control_step (s x : BMS) : Prop :=
  config x = config s /\
  (nvm0 x = nvm0 s \/ nvm0 x = 1) /\
  (mode x = mode s \/ mode x = 0 \/ mode x = 2) /\
  (relay x = relay s \/ relay x = false).

(** The tick carries no write command: the UART is silent or holds a read
    command. *)
Definition no_write (inp : tick_input) : Prop :=
  match uart_read1 inp with
  | None => True
  | Some c => Z.of_N (Byte.to_N c) < 128
  end.


(** Lines 281 and 284: cell [i] is outside the voltage band. *)
Definition out_of_band (s : BMS) (i : nat) : bool :=
  Py.gtb (nth i (cells s) 0%Q) (maxVoltage s)
  || Py.ltb (nth i (cells s) 0%Q) (minVoltage s).

(** The alert printed for a cell outside the band. *)
Definition limit_alert (s : BMS) (i : nat) : event :=
  if Py.gtb (nth i (cells s) 0%Q) (maxVoltage s) then Console (CellAboveMax i)
  else Console (CellBelowMin i).


(** The bytes of one entry of a list register (commands 4 and 5): the
    text of the value, the padding with "0" up to [width], a newline. *)
Definition line (rt : Py.runtime) (width : Z) (x : Q) : list byte :=
  Py.bytes_of_str (Py.str_float rt x)
  ++ Py.bytes_of_str (Py.zeros (width - Py.len (Py.str_float rt x)))
  ++ [x0a].

(** The command bytes the protocol knows. *)
Definition known_command (c : Z) : Prop := 1 <= c <= 6 \/ 128 <= c <= 136.

(** Line 157 does not fire: the target voltage lies within the band. *)
Definition target_in_band (s : BMS) : Prop :=
  (minVoltage s <= targetVoltage s <= maxVoltage s)%Q.

(** Line 167: the charge condition. *)
Definition wants_charge (s : BMS) : Prop :=
  ((minCell s < minVoltage s \/ meanVoltage s < targetVoltage s - dV s / 2)
   /\ maxCell s < maxVoltage s - (5 # 100))%Q.

(** Line 176: the balance condition. *)
Definition wants_balance (s : BMS) : Prop :=
  ((dV s < maxCell s - minCell s \/ targetVoltage s + dV s / 2 < meanVoltage s)
   /\ minVoltage s < minCell s)%Q.

(** The events that switch a pin of the power path: the charge relay and
    the expanders of the discharge resistors. *)
Definition pin_write (e : event) : Prop :=
  match e with
  | GpioSet _ _ | RelaySet _ => True
  | _ => False
  end.

(* ------------------------------------------------------------------ *)
(** ** Inputs of the further examples *)

(** The controller started on a pack that reads [rd], after a first tick
    during which the host has written mode 1. *)
Definition started (rd : reading) : BMS :=
  state_of (update Example.runtime
              (host_sends x80 (Some [x31]) (Example.quiet rd 30))
              (Example.boot 0 rd)).

(** The same controller in its second tick, at the call of [balance]. *)
Definition at_balance (rd : reading) : BMS :=
  fst (scan (Example.quiet rd 30) (started rd)).

(** The controller after the host has written mode 2 during the first
    tick. *)
Definition halted : BMS :=
  state_of (update Example.runtime
              (host_sends x80 (Some [x32])
                 (Example.quiet (Example.flat 4) 30))
              (Example.boot 0 (Example.flat 4))).

(** A controller that has latched a measurement fault (every batch 0.2 V
    above the snapshot) and to which the host has then written mode 0. *)
Definition rearmed : BMS :=
  let jump := Example.quiet (Example.flat (42 # 10)) 30 in
  let faulted :=
    state_of (update Example.runtime jump (started (Example.flat 4))) in
  state_of (update Example.runtime (host_sends x80 (Some [x30]) jump) faulted).

(** A tick whose first batch reads 4.2 V on every channel and whose later
    batches read 4.0 V. *)
Definition jitter : tick_input :=
  {| fetchAll := fun k => if Nat.eqb k 0 then Example.flat (42 # 10)
                          else Example.flat 4;
     tmp_value := fun _ => [10000; 10000; 10000; 10000];
     cpu_temperature := fun _ => 30%Q;
     uart_read1 := None;
     uart_read := None |}.

(** A tick on the pack of 19 cells at 4.20 V and one at 3.50 V whose CPU
    sensor reads 30 C at the thermal scan and 120 C from then on, with
    nothing on the UART. *)
Definition late_heat : tick_input :=
  {| fetchAll := fun _ => Example.one_low;
     tmp_value := fun _ => [10000; 10000; 10000; 10000];
     cpu_temperature := fun k => if Nat.eqb k 0 then 30%Q else 120%Q;
     uart_read1 := None;
     uart_read := None |}.

(* ------------------------------------------------------------------ *)
(** ** Tactics *)

Ltac open_ex H :=
  repeat match type of H with
         | exists _, _ => let x := fresh "x" in destruct H as [x H]
         end.

(** Replace a step by its setters. *)
Ltac reshape lem :=
  let H := fresh "H" in
  pose proof lem as H; open_ex H; rewrite H; clear H.

(** Compute the fields of a state written with setters. *)
Ltac fields :=
  cbn [mode drain temps maxTemp fanTrigger cells lastCells minVoltage
    maxVoltage targetVoltage dV balTime testBalCount error verbose
    battVoltage capacity meanVoltage minCell maxCell charging balancing
    buz relay fan gpio nvm0 out set_mode set_drain set_temps set_maxTemp
    set_fanTrigger set_cells set_lastCells set_minVoltage set_maxVoltage
    set_targetVoltage set_dV set_balTime set_testBalCount set_error
    set_verbose set_battVoltage set_capacity set_meanVoltage set_minCell
    set_maxCell set_charging set_balancing set_buz set_relay set_fan
    set_gpio set_nvm0 set_out emit console buz_value relay_value fan_value
    gpio_value nvm_write uart_write sleep state_of fst snd].

Ltac fields_in H :=
  cbn [mode drain temps maxTemp fanTrigger cells lastCells minVoltage
    maxVoltage targetVoltage dV balTime testBalCount error verbose
    battVoltage capacity meanVoltage minCell maxCell charging balancing
    buz relay fan gpio nvm0 out set_mode set_drain set_temps set_maxTemp
    set_fanTrigger set_cells set_lastCells set_minVoltage set_maxVoltage
    set_targetVoltage set_dV set_balTime set_testBalCount set_error
    set_verbose set_battVoltage set_capacity set_meanVoltage set_minCell
    set_maxCell set_charging set_balancing set_buz set_relay set_fan
    set_gpio set_nvm0 set_out emit console buz_value relay_value fan_value
    gpio_value nvm_write uart_write sleep state_of fst snd] in H.

(** Close an equation between two states written with setters. *)
Ltac same_state :=
  cbv beta iota delta [mode drain temps maxTemp fanTrigger cells lastCells
    minVoltage maxVoltage targetVoltage dV balTime testBalCount error
    verbose battVoltage capacity meanVoltage minCell maxCell charging
    balancing buz relay fan gpio nvm0 out set_mode set_drain set_temps
    set_maxTemp set_fanTrigger set_cells set_lastCells set_minVoltage
    set_maxVoltage set_targetVoltage set_dV set_balTime set_testBalCount
    set_error set_verbose set_battVoltage set_capacity set_meanVoltage
    set_minCell set_maxCell set_charging set_balancing set_buz set_relay
    set_fan set_gpio set_nvm0 set_out emit console buz_value relay_value
    fan_value gpio_value nvm_write uart_write sleep];
  reflexivity.

(* ------------------------------------------------------------------ *)
(** * Properties *)

(** ** Comparisons *)

Lemma ltb_lt (x y : Q) : Py.ltb x y = true <-> (x < y)%Q.
Proof.
  unfold Py.ltb. rewrite Qlt_alt.
  destruct (x ?= y)%Q; split; intro H; congruence.
Qed.

Lemma ltb_ge (x y : Q) : Py.ltb x y = false <-> (y <= x)%Q.
Proof.
  split.
  - intros H. apply Qnot_lt_le. intro L. apply ltb_lt in L. congruence.
  - intros H. destruct (Py.ltb x y) eqn:E; auto.
    apply ltb_lt, Qlt_not_le in E. contradiction.
Qed.

Lemma gtb_gt (x y : Q) : Py.gtb x y = true <-> (y < x)%Q.
Proof. apply ltb_lt. Qed.

Lemma gtb_le (x y : Q) : Py.gtb x y = false <-> (x <= y)%Q.
Proof. apply ltb_ge. Qed.

(** ** Folds *)

Lemma fold_left_invariant {A B : Type} (P : A -> Prop) (f : A -> B -> A)
    (l : list B) (a : A) :
  P a -> (forall a b, P a -> P (f a b)) -> P (fold_left f l a).
Proof.
  intros Ha Hstep. revert a Ha.
  induction l as [|b l IH]; intros a Ha; simpl; auto.
Qed.

(** ** What each step can touch

    Each lemma writes the result of a step as setters applied to the state
    it started from; the fields not named are untouched. *)

Lemma sendIO_touches (s : BMS) :
  exists g o, sendIO s = set_out o (set_gpio g s).
Proof.
  unfold sendIO. generalize (seq 0 (length (gpio s))) as l. intro l.
  apply fold_left_invariant
    with (P := fun s' => exists g o, s' = set_out o (set_gpio g s)).
  - exists (gpio s), (out s). destruct s; reflexivity.
  - intros a i (g & o & ->). eexists; eexists; reflexivity.
Qed.

Lemma getCells_touches (cellRead : reading) (s : BMS) :
  exists c b cap m o,
    getCells cellRead s =
    set_out o (set_meanVoltage m (set_capacity cap (set_battVoltage b
      (set_cells c s)))).
Proof. unfold getCells. do 5 eexists. reflexivity. Qed.

(** ** getCells *)

Lemma clamp_min_max (x : Z) : Z.min (Z.max x 0) 100 = clamp x 0 100.
Proof.
  unfold clamp.
  destruct (x <? 0) eqn:L; [apply Z.ltb_lt in L | apply Z.ltb_ge in L];
    destruct (100 <? x) eqn:U; [apply Z.ltb_lt in U | apply Z.ltb_ge in U
                               | apply Z.ltb_lt in U | apply Z.ltb_ge in U];
    lia.
Qed.

Lemma clamp_bounds (x : Z) : 0 <= clamp x 0 100 <= 100.
Proof. rewrite <- clamp_min_max. lia. Qed.

(** C7. For every pack voltage that [getCells] computes, above [Vfull] and
    below [Vempty] included, the capacity it stores is
    [clamp(round((100/(84-68)) * (total - 68)), 0, 100)], where [total] is
    the sum of the cell voltages just read, and so lies in [0, 100]. *)
Theorem C7_capacity_clamped :
  forall (cellRead : reading) (s : BMS),
    let s' := getCells cellRead s in
    battVoltage s' = Py.sum (cells s') /\
    capacity s' = spec_capacity (battVoltage s') /\
    0 <= capacity s' <= 100.
Proof.
  intros cellRead s s'. subst s'. unfold getCells. fields.
  split; [reflexivity|]. rewrite clamp_min_max.
  split; [reflexivity | apply clamp_bounds].
Qed.

Example capacity_examples :
  spec_capacity (833 # 10) = 96 /\ spec_capacity 90 = 100
  /\ spec_capacity 60 = 0 /\ spec_capacity (6808 # 100) = 0
  /\ spec_capacity (6824 # 100) = 2.
Proof. repeat split; reflexivity. Qed.

(** ** sendIO *)

Lemma setitem_app {A : Type} (l1 l2 : list A) (x v : A) (n : nat) :
  n = length l1 -> Py.setitem (l1 ++ x :: l2) n v = l1 ++ v :: l2.
Proof.
  intros ->. induction l1 as [|y l1 IH]; simpl; [reflexivity | now rewrite IH].
Qed.

Lemma skipn_cons_nth {A : Type} (l : list A) (a : nat) (d : A) :
  (a < length l)%nat -> skipn a l = nth a l d :: skipn (S a) l.
Proof.
  revert a. induction l as [|x l IH]; intros [|a] H; simpl in *; try lia.
  - reflexivity.
  - apply IH. lia.
Qed.

Lemma sendIO_from (s : BMS) (m a : nat) :
  (a + m = length (gpio s))%nat ->
  fold_left
    (fun s i =>
       gpio_value i (bank_byte (Py.slice (drain s) (8 * i) (8 * (i + 1)))) s)
    (seq a m)
    (set_out (out s ++ map (fun i => GpioSet i (bank (drain s) i)) (seq 0 a))
       (set_gpio (map (bank (drain s)) (seq 0 a) ++ skipn a (gpio s)) s))
  = set_out
      (out s ++ map (fun i => GpioSet i (bank (drain s) i))
                    (seq 0 (length (gpio s))))
      (set_gpio (map (bank (drain s)) (seq 0 (length (gpio s)))) s).
Proof.
  revert a. induction m as [|m IH]; intros a H.
  - replace a with (length (gpio s)) by lia.
    rewrite skipn_all, app_nil_r. reflexivity.
  - cbn [seq fold_left]. rewrite <- (IH (S a)) by lia. f_equal.
    unfold gpio_value, emit. fields. fold (bank (drain s) a).
    rewrite (skipn_cons_nth (gpio s) a 0) by lia.
    rewrite setitem_app by now rewrite length_map, length_seq.
    rewrite seq_S, !map_app. cbn [map Nat.add].
    rewrite <- !app_assoc. reflexivity.
Qed.

Lemma sendIO_spec (s : BMS) :
  sendIO s =
  set_out
    (out s ++ map (fun i => GpioSet i (bank (drain s) i))
                  (seq 0 (length (gpio s))))
    (set_gpio (map (bank (drain s)) (seq 0 (length (gpio s)))) s).
Proof.
  unfold sendIO. rewrite <- (sendIO_from s (length (gpio s)) 0) by lia.
  f_equal. cbn [seq map app skipn]. rewrite app_nil_r.
  destruct s; reflexivity.
Qed.

Lemma bank_byte_zero (flags : list Z) :
  Forall (fun v => v = 0) flags -> bank_byte flags = 0.
Proof.
  intro H. unfold bank_byte.
  apply fold_left_invariant with (P := fun send => send = 0); [reflexivity|].
  intros send j ->.
  destruct (nth_in_or_default j flags 0) as [I | ->]; [|reflexivity].
  rewrite Forall_forall in H. rewrite (H _ I). reflexivity.
Qed.

Lemma Forall_firstn {A : Type} (P : A -> Prop) (n : nat) (l : list A) :
  Forall P l -> Forall P (firstn n l).
Proof.
  intro H. revert n. induction H as [|x l Hx Hl IH]; intros [|n]; simpl; auto.
Qed.

Lemma Forall_skipn {A : Type} (P : A -> Prop) (n : nat) (l : list A) :
  Forall P l -> Forall P (skipn n l).
Proof.
  intro H. revert n. induction H as [|x l Hx Hl IH]; intros [|n]; simpl; auto.
Qed.

Lemma Forall_slice {A : Type} (P : A -> Prop) (l : list A) (a b : nat) :
  Forall P l -> Forall P (Py.slice l a b).
Proof.
  intro H. unfold Py.slice. apply Forall_firstn, Forall_skipn, H.
Qed.

Lemma Forall_repeat_zero (n : nat) : Forall (fun v : Z => v = 0) (repeat 0 n).
Proof. apply Forall_forall. intros x H. now apply repeat_spec in H. Qed.

Lemma bank_zero (d : list Z) (i : nat) :
  Forall (fun v => v = 0) d -> bank d i = 0.
Proof. intro H. apply bank_byte_zero, Forall_slice, H. Qed.

Lemma map_const_repeat {A B : Type} (f : A -> B) (b : B) (l : list A) :
  (forall x, f x = b) -> map f l = repeat b (length l).
Proof.
  intro H. induction l as [|x l IH]; simpl; [reflexivity|].
  now rewrite H, IH.
Qed.

(** C3. When [targetVoltage] lies strictly outside
    [[minVoltage, maxVoltage]], [balance] aborts: it sounds the alarm, opens
    the charge relay, clears the drain plan (every flag 0) and sends it to
    the expanders, and forces the mode to Idle (0).  It makes no charge or
    balance decision: the trace shows nothing else than these writes and a
    pause, and [charging], [balancing] and [testBalCount] are as before. *)
Theorem C3_target_outside_band_aborts :
  forall (inp : tick_input) (s : BMS),
    (targetVoltage s < minVoltage s \/ maxVoltage s < targetVoltage s)%Q ->
    exists s',
      balance inp s = Normal s' /\
      buz s' = true /\ relay s' = false /\ mode s' = 0 /\
      drain s' = repeat 0 cellCount /\
      Forall (fun v => v = 0) (drain s') /\
      gpio s' = repeat 0 (length (gpio s)) /\
      out s' = out s
               ++ [Console TargetOutOfRange; BuzSet true; RelaySet false]
               ++ map (fun i => GpioSet i 0) (seq 0 (length (gpio s)))
               ++ [Sleep 1] /\
      charging s' = charging s /\ balancing s' = balancing s /\
      testBalCount s' = testBalCount s.
Proof.
  intros inp s H. exists (abort_balance s). split.
  - unfold balance.
    destruct H as [H | H]; [apply ltb_lt in H | apply gtb_gt in H];
      rewrite H; [reflexivity | now rewrite orb_true_r].
  - unfold abort_balance. rewrite sendIO_spec. fields.
    repeat split; try reflexivity.
    + apply Forall_repeat_zero.
    + rewrite (map_const_repeat _ 0), length_seq; [reflexivity|].
      intro i. apply bank_zero, Forall_repeat_zero.
    + rewrite <- !app_assoc. cbn [app]. do 5 f_equal.
      apply map_ext. intro i. f_equal. apply bank_zero, Forall_repeat_zero.
Qed.

(* ------------------------------------------------------------------ *)
(** ** The serial protocol *)

Lemma added_app (s : BMS) (evs : list event) (s' : BMS) :
  out s' = out s ++ evs -> added s s' = evs.
Proof.
  intro H. unfold added. rewrite H, skipn_app, skipn_all, Nat.sub_diag.
  reflexivity.
Qed.

Lemma added_same (s s' : BMS) : out s' = out s -> added s s' = [].
Proof. intro H. apply added_app. now rewrite app_nil_r. Qed.

Lemma length_bytes_of_str (t : string) :
  length (Py.bytes_of_str t) = String.length t.
Proof.
  unfold Py.bytes_of_str, list_byte_of_string.
  rewrite length_map. induction t as [|c t IH]; simpl; congruence.
Qed.

Lemma length_zeros (n : Z) : String.length (Py.zeros n) = Z.to_nat n.
Proof.
  unfold Py.zeros. generalize (Z.to_nat n) as k.
  induction k as [|k IH]; simpl; congruence.
Qed.

(** C10. A write to the mode register (128) whose payload is not exactly
    ["0"], ["1"] or ["2"].  With a payload behind the command byte the
    command is ignored without a trace: the object is left as it was, the
    stored mode included, and nothing is written to the UART, the 255
    answer of the error handler included.  With no payload (the receive
    buffer is empty and [uart.read()] is [None]) the mode is unchanged and
    nothing is written either, but the command is not ignored: line 326
    raises TypeError, which the handler of line 405 does not catch, and
    the exception leaves [update]. *)
Theorem C10_unknown_mode_payload :
  forall (rt : Py.runtime) (inp : tick_input) (s : BMS)
         (payload : option (list byte)),
    (forall bs, payload = Some bs ->
       Py.str_of_bytes bs <> "0"%string /\
       Py.str_of_bytes bs <> "1"%string /\
       Py.str_of_bytes bs <> "2"%string) ->
    let o := sercom rt (host_sends x80 payload inp) s in
    state_of o = s /\
    mode (state_of o) = mode s /\
    uart_tx (added s (state_of o)) = [] /\
    (forall bs, payload = Some bs -> o = Normal s) /\
    (payload = None ->
     o = Raises TypeError s /\
     forall s0, mode s0 = 2 ->
       update rt (host_sends x80 None inp) s0
       = Raises TypeError (power_down s0)).
Proof.
  intros rt inp s payload H o.
  assert (E : o = match payload with
                  | Some _ => Normal s
                  | None => Raises TypeError s
                  end).
  { subst o. unfold sercom, host_sends, write_register.
    cbn [uart_read1 uart_read].
    change (Z.of_N (Byte.to_N x80)) with 128.
    change (128 >=? 128) with true. change (128 =? 128) with true.
    cbv iota. destruct payload as [bs|]; [|reflexivity].
    destruct (H bs eq_refl) as (H0 & H1 & H2).
    apply String.eqb_neq in H0, H1, H2. now rewrite H0, H1, H2. }
  assert (S0 : state_of o = s) by (rewrite E; now destruct payload).
  rewrite S0. split; [reflexivity|]. split; [reflexivity|].
  split; [now rewrite added_same|]. split.
  - intros bs P. rewrite E, P. reflexivity.
  - intro P. rewrite E, P. split; [reflexivity|].
    intros s0 M. unfold update. rewrite M. cbn [Z.eqb Pos.eqb orb].
    unfold act. rewrite M. reflexivity.
Qed.

Lemma write_register_malformed (rt : Py.runtime) (command : Z) (data : string)
    (s : BMS) :
  malformed rt command data ->
  write_register rt command data s = uart_write (Py.bytes_of_int 255) s.
Proof.
  unfold malformed, float_register, write_register, write_float, write_int.
  intros [[H E] | [-> E]].
  - simpl in H.
    destruct H as [<- | [<- | [<- | [<- | [<- | [<- | []]]]]]];
      cbn [Z.eqb Pos.eqb]; now rewrite E.
  - cbn [Z.eqb Pos.eqb]. now rewrite E.
Qed.

(** C4 (what the code does). A write command whose payload does not parse
    as the register's type (["abc"] for register 129, [maxTemp]) leaves the
    whole object as it was, the targeted parameter included; the answer of
    the handler is [bytes(255)], which is 255 bytes of value 0 and not the
    single byte 255. *)
Theorem C4_malformed_payload_answer :
  forall (rt : Py.runtime) (inp : tick_input) (s : BMS) (c : byte)
         (bs : list byte),
    malformed rt (Z.of_N (Byte.to_N c)) (Py.str_of_bytes bs) ->
    let o := sercom rt (host_sends c (Some bs) inp) s in
    o = Normal (set_out (out s ++ [UartWrite (repeat x00 255)]) s) /\
    maxTemp (state_of o) = maxTemp s /\
    uart_tx (added s (state_of o)) = repeat x00 255 /\
    length (uart_tx (added s (state_of o))) = 255%nat /\
    uart_tx (added s (state_of o)) <> [xff].
Proof.
  intros rt inp s c bs H o.
  assert (Hc : 128 <= Z.of_N (Byte.to_N c)).
  { destruct H as [[H _] | [-> _]]; [|lia].
    unfold float_register in H. simpl in H. lia. }
  assert (E : o = Normal (set_out (out s ++ [UartWrite (repeat x00 255)]) s)).
  { subst o. unfold sercom, host_sends. cbn [uart_read1 uart_read].
    apply Z.geb_le in Hc. rewrite Hc.
    now rewrite write_register_malformed. }
  rewrite E. cbn [state_of]. split; [reflexivity|]. split; [reflexivity|].
  rewrite (added_app s [UartWrite (repeat x00 255)]) by reflexivity.
  cbn [uart_tx]. rewrite app_nil_r.
  split; [reflexivity|]. split; [apply repeat_length|].
  intro F. apply (f_equal (@length byte)) in F.
  rewrite repeat_length in F. discriminate F.
Qed.

(** C8 (what the code does). The answer to a read command is the text of
    the value followed by ['0'] characters up to the register's width, but
    only where the text is shorter: the capacity (register 2) is sent as
    [str(capacity)] with no padding at all, so one byte for 5 and three for
    100 and not two; and a float whose text is longer than 7 characters is
    sent whole, so the answer of registers 1 and 3 has the length of the
    longer of 7 and the text. *)
Theorem C8_read_response_widths :
  forall (rt : Py.runtime) (inp : tick_input) (s : BMS),
    sercom rt (host_sends x02 None inp) s =
      Normal (uart_write (Py.bytes_of_str (Py.str_int (capacity s))) s) /\
    response rt 2 s = Py.bytes_of_str (Py.str_int (capacity s)) /\
    response rt 2 (set_capacity 5 s) = [x35] /\
    response rt 2 (set_capacity 100 s) = [x31; x30; x30] /\
    Z.of_nat (length (response rt 1 s))
      = Z.max 7 (Py.len (Py.str_float rt (battVoltage s))) /\
    Z.of_nat (length (response rt 3 s))
      = Z.max 7 (Py.len (Py.str_float rt (meanVoltage s))).
Proof.
  intros rt inp s.
  assert (R2 : forall s0,
             response rt 2 s0 = Py.bytes_of_str (Py.str_int (capacity s0))).
  { intro s0. unfold response, read_register. cbn [Z.eqb Pos.eqb].
    rewrite (added_app s0 [UartWrite (Py.bytes_of_str (Py.str_int (capacity s0)))])
      by reflexivity.
    cbn [uart_tx]. apply app_nil_r. }
  assert (RF : forall x s0,
             Z.of_nat (length (uart_tx (added s0 (send_float rt 7 x s0))))
             = Z.max 7 (Py.len (Py.str_float rt x))).
  { intros x s0. unfold send_float.
    rewrite (added_app s0
               [UartWrite (Py.bytes_of_str (Py.str_float rt x));
                UartWrite (Py.bytes_of_str
                             (Py.zeros (7 - Py.len (Py.str_float rt x))))])
      by (unfold uart_write, emit; fields; now rewrite <- app_assoc).
    cbn [uart_tx]. rewrite app_nil_r, length_app, !length_bytes_of_str.
    rewrite length_zeros. unfold Py.len. lia. }
  repeat split.
  - apply R2.
  - now rewrite R2.
  - now rewrite R2.
  - apply RF.
  - apply RF.
Qed.

(** C9 (what the code does). [__init__] creates the drain plan with 24
    slots, but every later clear ([balance], lines 162 and 235, and the
    shutdown action, line 315) replaces it by a list of [cellCount] = 20
    slots: after the host has written mode 2, the next tick leaves a plan of
    20 slots. *)
Theorem C9_drain_plan_resized :
  forall (rt : Py.runtime),
    let s0 := Example.boot 0 (Example.flat 4) in
    let tick := Example.quiet (Example.flat 4) 30 in
    let s1 := state_of (update rt (host_sends x80 (Some [x32]) tick) s0) in
    let s2 := state_of (update rt tick s1) in
    length (drain s0) = 24%nat /\
    mode s1 = 2 /\ length (drain s1) = 24%nat /\
    length (drain s2) = 20%nat /\
    (forall s, length (drain (power_down s)) = 20%nat) /\
    (forall s, length (drain (abort_balance s)) = 20%nat).
Proof.
  intro rt. cbv zeta.
  split; [reflexivity|]. split; [vm_compute; reflexivity|].
  split; [vm_compute; reflexivity|]. split; [vm_compute; reflexivity|].
  split; intro s.
  - unfold power_down. reshape (sendIO_touches (set_drain (repeat 0 cellCount)
      (relay_value false (buz_value false s)))). reflexivity.
  - unfold abort_balance.
    reshape (sendIO_touches (set_drain (repeat 0 cellCount)
      (set_mode 0 (relay_value false (buz_value true
         (console TargetOutOfRange s)))))).
    reflexivity.
Qed.


(* ------------------------------------------------------------------ *)
(** ** Measurement and validation *)

(** With 20 cells in the list, a measurement overwrites all of them with
    the batch, taken in the wiring order. *)
Lemma cells_getCells (cellRead : reading) (s : BMS) :
  length (cells s) = cellCount ->
  cells (getCells cellRead s) = map cellRead cellPos.
Proof.
  intro H. unfold getCells. fields.
  destruct (cells s) as [|c0 c]; [discriminate H|].
  do 19 (destruct c as [|? c]; [discriminate H|]).
  destruct c; [reflexivity | discriminate H].
Qed.

Lemma measure_touches (inp : tick_input) (n k : nat) (s : BMS) :
  exists c b cap m e o,
    measure n k inp s =
    set_out o (set_error e (set_meanVoltage m (set_capacity cap
      (set_battVoltage b (set_cells c s))))).
Proof.
  revert k s. induction n as [|n IH]; intros k s.
  - exists (cells s), (battVoltage s), (capacity s), (meanVoltage s), (error s),
      (out s). destruct s; reflexivity.
  - cbn [measure].
    destruct (getCells_touches (fetchAll inp k) s) as (c & b & cap & m & o & E).
    rewrite E. fields. destruct (mode s =? 1).
    + match goal with |- context [if ?u then _ else _] => destruct u end.
      * match goal with |- context [measure n (S k) inp ?x] =>
          destruct (IH (S k) x) as (c' & b' & cap' & m' & e' & o' & ->) end.
        do 6 eexists. same_state.
      * do 6 eexists. same_state.
    + exists c, b, cap, m, (error s), o. same_state.
Qed.

Lemma mode_getCells (cellRead : reading) (s : BMS) :
  mode (getCells cellRead s) = mode s.
Proof. reflexivity. Qed.

Lemma lastCells_getCells (cellRead : reading) (s : BMS) :
  lastCells (getCells cellRead s) = lastCells s.
Proof. reflexivity. Qed.

Lemma unstable_getCells (cellRead : reading) (s : BMS) :
  length (cells s) = cellCount ->
  unstable (getCells cellRead s)
  = exceeds (deltas (map cellRead cellPos) (lastCells s)).
Proof.
  intro H. unfold unstable, dCells.
  now rewrite cells_getCells, lastCells_getCells.
Qed.

(** One unstable measurement in mode 1: the flag is set and the loop goes
    on. *)
Lemma measure_retry (inp : tick_input) (n k : nat) (s : BMS) :
  mode s = 1 ->
  unstable (getCells (fetchAll inp k) s) = true ->
  measure (S n) k inp s
  = measure n (S k) inp (set_error true (getCells (fetchAll inp k) s)).
Proof.
  intros Hm Hu. cbn [measure]. rewrite mode_getCells, Hm, Hu. reflexivity.
Qed.

(** When every one of the [n] measurements of a tick in mode 1 is unstable
    against the previous snapshot, the loop ends with the error flag set. *)
Lemma measure_unstable (inp : tick_input) (n k : nat) (s : BMS) :
  mode s = 1 ->
  length (cells s) = cellCount ->
  (forall j, (j < S n)%nat ->
     exceeds (deltas (map (fetchAll inp (k + j)) cellPos) (lastCells s)) = true) ->
  error (measure (S n) k inp s) = true.
Proof.
  revert k s. induction n as [|n IH]; intros k s Hm Hl Hu.
  all: assert (U : unstable (getCells (fetchAll inp k) s) = true)
    by (rewrite unstable_getCells by exact Hl;
        specialize (Hu 0%nat); rewrite Nat.add_0_r in Hu; apply Hu; lia).
  - rewrite (measure_retry inp 0 k s Hm U). reflexivity.
  - rewrite (measure_retry inp (S n) k s Hm U). apply IH.
    + exact Hm.
    + generalize (cells_getCells (fetchAll inp k) s Hl).
      generalize (getCells (fetchAll inp k) s). intros x Hx.
      fields. rewrite Hx. reflexivity.
    + intros j Hj. specialize (Hu (S j)).
      replace (S k + j)%nat with (k + S j)%nat by lia. apply Hu. lia.
Qed.

(** ** The startup report of the fault latch *)

Lemma fault_reports_app (l r : list event) :
  fault_reports (l ++ r) = (fault_reports l + fault_reports r)%nat.
Proof. unfold fault_reports. now rewrite filter_app, length_app. Qed.

Lemma nvm_writes_app (l r : list event) :
  nvm_writes (l ++ r) = (nvm_writes l + nvm_writes r)%nat.
Proof. unfold nvm_writes. now rewrite filter_app, length_app. Qed.

(** Setting up the expanders neither prints nor touches the stored byte. *)
Lemma init_mcp_quiet (l : list nat) (s : BMS) :
  let x := fold_left (fun s i => gpio_value i 0 (emit (IodirSet i 0) s)) l s in
  fault_reports (out x) = fault_reports (out s)
  /\ nvm_writes (out x) = nvm_writes (out s)
  /\ nvm0 x = nvm0 s.
Proof.
  cbv zeta.
  apply fold_left_invariant
    with (P := fun x => fault_reports (out x) = fault_reports (out s)
                        /\ nvm_writes (out x) = nvm_writes (out s)
                        /\ nvm0 x = nvm0 s).
  - repeat split.
  - intros a i (A1 & A2 & A3). unfold gpio_value, emit. fields.
    rewrite !fault_reports_app, !nvm_writes_app, A1, A2, A3.
    cbn. repeat split; lia.
Qed.

(** What [__init__] does with the latch: the events it produces and the
    byte it leaves, for the stored byte [nvm]. *)
Lemma init_latch (n_mcp n_tmp : nat) (buz0 relay0 fan0 : bool) (nvm : Z)
    (cellRead : reading) :
  let s := init n_mcp n_tmp buz0 relay0 fan0 nvm cellRead in
  fault_reports (out s) = (if nvm =? 1 then 1%nat else 0%nat) /\
  nvm_writes (out s) = (if nvm =? 1 then 1%nat else 0%nat) /\
  nvm0 s = (if nvm =? 1 then 0 else nvm).
Proof.
  unfold init. cbv zeta.
  match goal with |- context [fold_left ?f (seq 0 n_mcp) ?s0] =>
    destruct (init_mcp_quiet (seq 0 n_mcp) s0) as (A1 & A2 & A3);
    generalize dependent (fold_left f (seq 0 n_mcp) s0)
  end.
  intros x A1 A2 A3. unfold emit in A1, A2, A3. fields_in A1. fields_in A2.
  fields_in A3. cbn in A1, A2.
  unfold getCells, uart_write, emit. fields. rewrite A3.
  destruct (nvm =? 1); unfold nvm_write, console, emit; fields;
    rewrite !fault_reports_app, !nvm_writes_app, A1, A2; repeat split.
  exact A3.
Qed.

(** The state handed to the measurement loop: [sendIO], then the settle
    pause of mode 1. *)
Lemma before_measure (s : BMS) :
  let p := if mode (sendIO s) =? 1 then sleep 5 (sendIO s) else sendIO s in
  mode p = mode s /\ cells p = cells s /\ lastCells p = lastCells s.
Proof.
  destruct (sendIO_touches s) as (g & o & ->). fields.
  destruct (mode s =? 1); repeat split.
Qed.

(** With the error flag set, lines 261-278 latch the fault and leave the
    tick. *)
Lemma latch_fault_error (x : BMS) :
  error x = true ->
  let y := set_lastCells (cells (latch_fault x)) (latch_fault x) in
  mode y = 2 /\ buz y = true /\ nvm0 y = 1.
Proof.
  intro E. unfold latch_fault. rewrite E. repeat split.
Qed.

Lemma checks_latched (inp : tick_input) (s : BMS) :
  let p := if mode (sendIO s) =? 1 then sleep 5 (sendIO s) else sendIO s in
  let x := measure 4 0 inp p in
  let y := set_lastCells (cells (latch_fault x)) (latch_fault x) in
  mode y = 2 -> checks inp s = (y, true).
Proof.
  cbv zeta. unfold checks.
  generalize (measure 4 0 inp
                (if mode (sendIO s) =? 1 then sleep 5 (sendIO s) else sendIO s)).
  intros x H. cbv zeta. rewrite H. reflexivity.
Qed.

(** C5. In Active mode (1), when the per-cell change against the previous
    snapshot exceeds +0.05 or falls below -0.05 on each of the 4 measurements
    of a tick, the tick sets the fault latch (the non-volatile byte) to 1,
    sounds the alarm and leaves the mode at Shutdown (2).  A startup that
    finds the latch set reports the fault once and clears the byte with one
    write; the startup after that reports nothing and writes nothing. *)
Theorem C5_unstable_measurement_latches_fault :
  forall (rt : Py.runtime) (inp : tick_input) (s : BMS),
    mode s = 1 ->
    length (cells s) = cellCount ->
    (forall k, (k < 4)%nat ->
       exceeds (deltas (map (fetchAll inp k) cellPos) (lastCells s)) = true) ->
    exists s',
      update rt inp s = Normal s' /\
      nvm0 s' = 1 /\ buz s' = true /\ mode s' = 2 /\
      forall n_mcp n_tmp buz0 relay0 fan0 rd rd',
        let t := init n_mcp n_tmp buz0 relay0 fan0 (nvm0 s') rd in
        let t' := init n_mcp n_tmp buz0 relay0 fan0 (nvm0 t) rd' in
        fault_reports (out t) = 1%nat /\ nvm_writes (out t) = 1%nat /\
        nvm0 t = 0 /\
        fault_reports (out t') = 0%nat /\ nvm_writes (out t') = 0%nat /\
        nvm0 t' = 0.
Proof.
  intros rt inp s Hm Hl Hu.
  destruct (before_measure s) as (Pm & Pc & Pl).
  pose proof (checks_latched inp s) as C. cbv zeta in Pm, Pc, Pl, C.
  assert (E : error (measure 4 0 inp
                       (if mode (sendIO s) =? 1 then sleep 5 (sendIO s)
                        else sendIO s)) = true).
  { apply measure_unstable.
    - now rewrite Pm.
    - now rewrite Pc.
    - intros j Hj. rewrite Pl. apply Hu. exact Hj. }
  revert C E.
  generalize (measure 4 0 inp
                (if mode (sendIO s) =? 1 then sleep 5 (sendIO s) else sendIO s)).
  intros x C E.
  destruct (latch_fault_error x E) as (M & B & N).
  specialize (C M).
  exists (set_lastCells (cells (latch_fault x)) (latch_fault x)).
  split; [|split; [exact N|split; [exact B|split; [exact M|]]]].
  - unfold update, scan. rewrite Hm. cbn [Z.eqb Pos.eqb orb]. now rewrite C.
  - intros n_mcp n_tmp buz0 relay0 fan0 rd rd'. rewrite N. cbv zeta.
    destruct (init_latch n_mcp n_tmp buz0 relay0 fan0 1 rd) as (R & W & V).
    cbv zeta in R, W, V. cbn [Z.eqb Pos.eqb] in R, W, V. rewrite V.
    destruct (init_latch n_mcp n_tmp buz0 relay0 fan0 0 rd') as (R' & W' & V').
    cbv zeta in R', W', V'. cbn [Z.eqb] in R', W', V'.
    repeat split; assumption.
Qed.

(* ------------------------------------------------------------------ *)
(** ** The checks of modes 0 and 1 and the thermal scan *)

Lemma latch_fault_touches (s : BMS) :
  exists b v m o, latch_fault s = set_out o (set_mode m (set_nvm0 v (set_buz b s))).
Proof.
  unfold latch_fault. destruct (error s).
  - do 4 eexists. same_state.
  - exists (buz s), (nvm0 s), (mode s), (out s). destruct s; reflexivity.
Qed.

Lemma limit_scan_touches (s : BMS) :
  exists m o, limit_scan s = set_out o (set_mode m s).
Proof.
  unfold limit_scan. generalize (seq 0 cellCount) as l. intro l.
  apply fold_left_invariant
    with (P := fun s' => exists m o, s' = set_out o (set_mode m s)).
  - exists (mode s), (out s). destruct s; reflexivity.
  - intros a i (m & o & ->). fields.
    destruct (Py.gtb (nth i (cells s) 0%Q) (maxVoltage s));
      [|destruct (Py.ltb (nth i (cells s) 0%Q) (minVoltage s))].
    + do 2 eexists. same_state.
    + do 2 eexists. same_state.
    + exists m, o. reflexivity.
Qed.

Lemma checks_touches (inp : tick_input) (s : BMS) :
  exists g c b cap m e bz v md lc mn mx o,
    fst (checks inp s) =
    set_out o (set_maxCell mx (set_minCell mn (set_lastCells lc (set_mode md
      (set_nvm0 v (set_buz bz (set_error e (set_meanVoltage m
        (set_capacity cap (set_battVoltage b (set_cells c
          (set_gpio g s)))))))))))).
Proof.
  unfold checks.
  destruct (sendIO_touches s) as (g & o & ->).
  match goal with |- context [measure 4 0 inp ?p] =>
    assert (P : exists o1, p = set_out o1 (set_gpio g s))
      by (fields; destruct (mode s =? 1); eexists; same_state);
    destruct P as (o1 & ->)
  end.
  destruct (measure_touches inp 4 0 (set_out o1 (set_gpio g s)))
    as (c & b & cap & m & e & o2 & ->).
  match goal with |- context [latch_fault ?x] =>
    destruct (latch_fault_touches x) as (bz & v & md & o3 & ->) end.
  match goal with |- context [limit_scan ?x] =>
    destruct (limit_scan_touches x) as (md' & o4 & ->) end.
  fields. destruct (md =? 2); [|destruct (md' =? 2)]; cbn [fst].
  - exists g, c, b, cap, m, e, bz, v, md, c, (minCell s), (maxCell s), o3.
    destruct s; same_state.
  - exists g, c, b, cap, m, e, false, v, md', c, (minCell s), (maxCell s).
    eexists. destruct s; same_state.
  - do 13 eexists. same_state.
Qed.

Lemma checks_maxTemp (inp : tick_input) (s : BMS) :
  maxTemp (fst (checks inp s)) = maxTemp s.
Proof. reshape (checks_touches inp s). reflexivity. Qed.

(** [getTemps] in any state and any mode: readings above [maxTemp + 20]
    print the alert, sound the alarm and store mode 2. *)
Lemma getTemps_trip (values : list Z) (cpu : Q) (s : BMS) :
  (maxTemp s + 20 < Py.max (read_temps values cpu))%Q ->
  exists s',
    getTemps values cpu s = (s', true) /\
    mode s' = 2 /\ buz s' = true /\ temps s' = read_temps values cpu /\
    exists f, out s' = out s ++ [FanSet f; Console ThermalShutdown; BuzSet true].
Proof.
  intro H. apply gtb_gt in H. unfold getTemps. fields.
  destruct (Py.gtb (Py.max (read_temps values cpu)) (fanTrigger s));
    unfold fan_value, emit; fields; rewrite H;
    (eexists; split; [reflexivity|]); unfold console, buz_value, emit; fields;
    rewrite <- !app_assoc; repeat split; eexists; reflexivity.
Qed.

(** C1 fails in Shutdown mode: the tick of mode 2 reads no temperature and
    switches the alarm off.  With the controller already tripped (mode 2,
    stored temperatures and sensors both above [maxTemp + 20]), the next
    tick ends with the buzzer off and writes no [True] to it. *)
Lemma C1_counterexample :
  let s' := state_of (update Example.runtime hot_tick tripped) in
  mode tripped = 2 /\
  (maxTemp tripped + 20 < Py.max (temps tripped))%Q /\
  (maxTemp tripped + 20
   < Py.max (read_temps (tmp_value hot_tick 0) (cpu_temperature hot_tick 0)))%Q /\
  buz s' = false /\
  ~ In (BuzSet true) (added tripped s') /\
  ~ thermal_trip_in_every_mode.
Proof.
  cbv zeta.
  assert (B : buz (state_of (update Example.runtime hot_tick tripped)) = false)
    by (vm_compute; reflexivity).
  split; [vm_compute; reflexivity|]. split; [vm_compute; reflexivity|].
  split; [vm_compute; reflexivity|]. split; [exact B|]. split.
  - vm_compute. intuition discriminate.
  - intro H. specialize (H Example.runtime hot_tick tripped).
    destruct H as [_ H]; [vm_compute; reflexivity|].
    rewrite B in H. discriminate H.
Qed.

(** The thermal scan of line 303.  In mode 0 or 1, when the measurement and
    voltage-limit checks of the tick pass and the temperatures then read
    satisfy [max(temps) > maxTemp + 20], the tick ends at the scan with the
    mode at 2 and the alarm on: the alert and the write of [True] to the
    buzzer are the last events of the tick. *)
Lemma scan_trip :
  forall (rt : Py.runtime) (inp : tick_input) (s : BMS),
    mode s = 0 \/ mode s = 1 ->
    snd (checks inp s) = false ->
    (maxTemp s + 20
     < Py.max (read_temps (tmp_value inp 0) (cpu_temperature inp 0)))%Q ->
    exists s',
      update rt inp s = Normal s' /\
      mode s' = 2 /\ buz s' = true /\
      temps s' = read_temps (tmp_value inp 0) (cpu_temperature inp 0) /\
      exists evs, out s' = evs ++ [Console ThermalShutdown; BuzSet true].
Proof.
  intros rt inp s Hm Hc Hot.
  rewrite <- (checks_maxTemp inp s) in Hot.
  unfold update, scan.
  replace ((mode s =? 0) || (mode s =? 1)) with true
    by (destruct Hm as [-> | ->]; reflexivity).
  destruct (checks inp s) as [s1 r]. cbn [fst snd] in Hot, Hc. subst r.
  destruct (getTemps_trip _ _ s1 Hot) as (s' & G & M & B & T & f & O).
  rewrite G. exists s'. repeat split; try assumption.
  exists (out s1 ++ [FanSet f]). rewrite O, <- app_assoc. reflexivity.
Qed.

(* ------------------------------------------------------------------ *)
(** ** sorted(..., reverse=True) *)

Section Sorted_desc.

Context {A : Type} (key : A -> Q).

Lemma insert_desc_perm (x : A) (l : list A) :
  Permutation (x :: l) (Py.insert_desc key x l).
Proof.
  induction l as [|y l IH]; simpl; [reflexivity|].
  destruct (Py.ltb (key x) (key y)); [|reflexivity].
  rewrite perm_swap. now apply perm_skip.
Qed.

Lemma sorted_desc_perm (l : list A) : Permutation l (Py.sorted_desc key l).
Proof.
  induction l as [|x l IH]; simpl; [reflexivity|].
  rewrite <- insert_desc_perm. now apply perm_skip.
Qed.

(** The result is in descending order of key. *)
Lemma insert_desc_sorted (x : A) (l : list A) :
  StronglySorted (fun a b => (key b <= key a)%Q) l ->
  StronglySorted (fun a b => (key b <= key a)%Q) (Py.insert_desc key x l).
Proof.
  induction 1 as [|y l Hl IH Hy]; simpl.
  - repeat constructor.
  - destruct (Py.ltb (key x) (key y)) eqn:E.
    + apply ltb_lt in E. constructor; [exact IH|].
      rewrite <- insert_desc_perm. constructor; [|exact Hy].
      now apply Qlt_le_weak.
    + apply ltb_ge in E. constructor; [now constructor|].
      constructor; [exact E|].
      eapply Forall_impl; [|exact Hy]. intros z Hz. cbv beta in Hz.
      now apply Qle_trans with (key y).
Qed.

Lemma sorted_desc_sorted (l : list A) :
  StronglySorted (fun a b => (key b <= key a)%Q) (Py.sorted_desc key l).
Proof.
  induction l as [|x l IH]; simpl; [constructor|].
  now apply insert_desc_sorted.
Qed.

(** Stability: the elements of any one key come out in the order they
    went in. *)
Lemma insert_desc_stable (k : Q) (x : A) (l : list A) :
  filter (fun a => Qeq_bool (key a) k) (Py.insert_desc key x l)
  = filter (fun a => Qeq_bool (key a) k) (x :: l).
Proof.
  induction l as [|y l IH]; [reflexivity|].
  cbn [Py.insert_desc]. destruct (Py.ltb (key x) (key y)) eqn:E;
    [|reflexivity].
  apply ltb_lt in E. cbn [filter] in *. rewrite IH.
  destruct (Qeq_bool (key x) k) eqn:Ex; [|reflexivity].
  destruct (Qeq_bool (key y) k) eqn:Ey; [|reflexivity].
  apply Qeq_bool_iff in Ex, Ey. rewrite Ex, Ey in E.
  now apply Qlt_irrefl in E.
Qed.

Lemma sorted_desc_stable (k : Q) (l : list A) :
  filter (fun a => Qeq_bool (key a) k) (Py.sorted_desc key l)
  = filter (fun a => Qeq_bool (key a) k) l.
Proof.
  induction l as [|x l IH]; [reflexivity|].
  cbn [Py.sorted_desc]. rewrite insert_desc_stable.
  cbn [filter]. now rewrite IH.
Qed.

End Sorted_desc.

(** For candidates listed by increasing index, descending and stable means
    sorted by [before]. *)
Lemma insert_desc_before (cs : list Q) (x : nat) (l : list nat) :
  StronglySorted (before cs) l ->
  Forall (fun y => (x < y)%nat) l ->
  StronglySorted (before cs) (Py.insert_desc (fun i => nth i cs 0%Q) x l).
Proof.
  induction 1 as [|y l Hl IH Hy]; intro Hx; simpl.
  - repeat constructor.
  - inversion Hx as [|? ? Hxy Hxl]; subst.
    destruct (Py.ltb (nth x cs 0%Q) (nth y cs 0%Q)) eqn:E.
    + apply ltb_lt in E. constructor; [now apply IH|].
      rewrite <- insert_desc_perm. constructor; [|exact Hy].
      left. exact E.
    + apply ltb_ge in E. constructor; [now constructor|].
      assert (B : forall z, (nth z cs 0%Q <= nth x cs 0%Q)%Q -> (x < z)%nat ->
                            before cs x z).
      { intros z Hz Hlt. apply Qle_lt_or_eq in Hz. destruct Hz as [Hz | Hz].
        - left. exact Hz.
        - right. split; [symmetry; exact Hz | exact Hlt]. }
      constructor; [now apply B|].
      rewrite Forall_forall in Hy, Hxl |- *. intros z Hz.
      apply B; [|now apply Hxl].
      apply Qle_trans with (nth y cs 0%Q); [|exact E].
      destruct (Hy z Hz) as [L | [Q _]].
      * now apply Qlt_le_weak.
      * rewrite Q. apply Qle_refl.
Qed.

Lemma ranked_before (cs : list Q) (l : list nat) :
  StronglySorted lt l -> StronglySorted (before cs) (ranked cs l).
Proof.
  unfold ranked. induction 1 as [|x l Hl IH Hx]; simpl; [constructor|].
  apply insert_desc_before; [exact IH|].
  rewrite <- sorted_desc_perm. exact Hx.
Qed.

Lemma StronglySorted_filter {A : Type} (R : A -> A -> Prop) (p : A -> bool)
    (l : list A) :
  StronglySorted R l -> StronglySorted R (filter p l).
Proof.
  induction 1 as [|x l Hl IH Hx]; simpl; [constructor|].
  destruct (p x); [|exact IH]. constructor; [exact IH|].
  rewrite Forall_forall in Hx |- *. intros y Hy.
  apply filter_In in Hy. now apply Hx.
Qed.

Lemma StronglySorted_seq (a n : nat) : StronglySorted lt (seq a n).
Proof.
  revert a. induction n as [|n IH]; intro a; simpl; constructor.
  - apply IH.
  - apply Forall_forall. intros y Hy. apply in_seq in Hy. lia.
Qed.

(* ------------------------------------------------------------------ *)
(** ** Cell selection *)

Lemma length_setitem {A : Type} (d : list A) (i : nat) (v : A) :
  length (Py.setitem d i v) = length d.
Proof.
  revert i. induction d as [|x d IH]; intros [|i]; simpl; auto.
Qed.

Lemma nth_setitem_same {A : Type} (d : list A) (i : nat) (v dflt : A) :
  (i < length d)%nat -> nth i (Py.setitem d i v) dflt = v.
Proof.
  revert i. induction d as [|x d IH]; intros [|i] H; simpl in *; try lia.
  - reflexivity.
  - apply IH. lia.
Qed.

Lemma nth_setitem_other {A : Type} (d : list A) (i j : nat) (v dflt : A) :
  i <> j -> nth j (Py.setitem d i v) dflt = nth j d dflt.
Proof.
  revert i j. induction d as [|x d IH]; intros [|i] [|j] H; simpl; auto.
  congruence.
Qed.

(** Clearing a flag: also right when [i] is past the end, where the flag
    reads 0 anyway. *)
Lemma nth_setitem_zero (d : list Z) (i : nat) :
  nth i (Py.setitem d i 0) 0 = 0.
Proof.
  destruct (Nat.lt_ge_cases i (length d)) as [H | H].
  - now apply nth_setitem_same.
  - apply nth_overflow. now rewrite length_setitem.
Qed.

Lemma ones_setitem_zero (d : list Z) (i : nat) :
  (ones (Py.setitem d i 0%Z) <= ones d)%nat.
Proof.
  unfold ones. revert i. induction d as [|x d IH]; intros [|i]; simpl; auto.
  - destruct (Z.eq_dec x 1); lia.
  - specialize (IH i). destruct (Z.eq_dec x 1); lia.
Qed.

Lemma ones_setitem_one (d : list Z) (i : nat) :
  (ones (Py.setitem d i 1%Z) <= S (ones d))%nat.
Proof.
  unfold ones. revert i. induction d as [|x d IH]; intros [|i]; simpl; auto.
  - destruct (Z.eq_dec x 1); lia.
  - specialize (IH i). destruct (Z.eq_dec x 1); lia.
Qed.

Lemma collect_from (target : Q) (cs : list Q) (l acc : list nat)
    (d : list Z) :
  fold_left
    (fun acc i =>
       let '(toDschg, drain) := acc in
       if Py.gtb (nth i cs 0%Q) target then (toDschg ++ [i], drain)
       else (toDschg, Py.setitem drain i 0))
    l (acc, d)
  = (acc ++ filter (above target cs) l, cleared target cs l d).
Proof.
  revert acc d. induction l as [|i l IH]; intros acc d; cbn [fold_left].
  - cbn. now rewrite app_nil_r.
  - unfold cleared. cbn [filter fold_left]. fold (above target cs i).
    destruct (above target cs i); rewrite IH.
    + now rewrite <- app_assoc.
    + reflexivity.
Qed.

Lemma collect_spec (target : Q) (cs : list Q) (d : list Z) :
  collect target cs d
  = (filter (above target cs) (seq 0 cellCount),
     cleared target cs (seq 0 cellCount) d).
Proof. unfold collect. now rewrite collect_from. Qed.

Lemma cleared_cons (target : Q) (cs : list Q) (i : nat) (l : list nat)
    (d : list Z) :
  cleared target cs (i :: l) d
  = cleared target cs l (if above target cs i then d else Py.setitem d i 0).
Proof. reflexivity. Qed.

Lemma cleared_length (target : Q) (cs : list Q) (l : list nat) (d : list Z) :
  length (cleared target cs l d) = length d.
Proof.
  revert d. induction l as [|i l IH]; intro d; [reflexivity|].
  rewrite cleared_cons, IH.
  destruct (above target cs i); [reflexivity | apply length_setitem].
Qed.

Lemma cleared_ones (target : Q) (cs : list Q) (l : list nat) (d : list Z) :
  (ones (cleared target cs l d) <= ones d)%nat.
Proof.
  revert d. induction l as [|i l IH]; intro d; [apply Nat.le_refl|].
  rewrite cleared_cons. etransitivity; [apply IH|].
  destruct (above target cs i);
    [apply Nat.le_refl | apply ones_setitem_zero].
Qed.

(** A flag that reads 0 stays 0. *)
Lemma cleared_keeps_zero (target : Q) (cs : list Q) (l : list nat)
    (d : list Z) (j : nat) :
  nth j d 0 = 0 -> nth j (cleared target cs l d) 0 = 0.
Proof.
  revert d. induction l as [|i l IH]; intros d H; [exact H|].
  rewrite cleared_cons. apply IH. destruct (above target cs i); [exact H|].
  destruct (Nat.eq_dec i j) as [-> | N].
  - apply nth_setitem_zero.
  - now rewrite nth_setitem_other.
Qed.

Lemma cleared_nth_zero (target : Q) (cs : list Q) (l : list nat)
    (d : list Z) (j : nat) :
  In j l -> above target cs j = false -> nth j (cleared target cs l d) 0 = 0.
Proof.
  revert d. induction l as [|i l IH]; intros d H Hj; [destruct H|].
  destruct H as [-> | H].
  - rewrite cleared_cons, Hj. apply cleared_keeps_zero, nth_setitem_zero.
  - rewrite cleared_cons. now apply IH.
Qed.

Lemma cleared_nth_other (target : Q) (cs : list Q) (l : list nat)
    (d : list Z) (j : nat) :
  above target cs j = true -> nth j (cleared target cs l d) 0 = nth j d 0.
Proof.
  intro Hj. revert d. induction l as [|i l IH]; intro d; [reflexivity|].
  rewrite cleared_cons, IH. destruct (above target cs i) eqn:E; [reflexivity|].
  apply nth_setitem_other. intros ->. congruence.
Qed.

Lemma lit_cons (x : nat) (m : list nat) (d : list Z) :
  lit (x :: m) d = lit m (Py.setitem d x 1).
Proof. reflexivity. Qed.

Lemma lit_ones (m : list nat) (d : list Z) :
  (ones (lit m d) <= ones d + length m)%nat.
Proof.
  revert d. induction m as [|x m IH]; intro d; cbn [length].
  - rewrite Nat.add_0_r. apply Nat.le_refl.
  - rewrite lit_cons. etransitivity; [apply IH|].
    pose proof (ones_setitem_one d x). lia.
Qed.

Lemma lit_nth_other (m : list nat) (d : list Z) (j : nat) :
  ~ In j m -> nth j (lit m d) 0 = nth j d 0.
Proof.
  revert d. induction m as [|x m IH]; intros d H; [reflexivity|].
  rewrite lit_cons, IH by (simpl in H; tauto).
  apply nth_setitem_other. simpl in H. tauto.
Qed.

Lemma lit_keeps_one (m : list nat) (d : list Z) (j : nat) :
  nth j d 0 = 1 -> nth j (lit m d) 0 = 1.
Proof.
  revert d. induction m as [|x m IH]; intros d H; [exact H|].
  rewrite lit_cons. apply IH.
  destruct (Nat.eq_dec x j) as [-> | N].
  - apply nth_setitem_same.
    destruct (Nat.lt_ge_cases j (length d)) as [L | L]; [exact L|].
    rewrite nth_overflow in H by exact L. discriminate H.
  - now rewrite nth_setitem_other.
Qed.

Lemma lit_nth_one (m : list nat) (d : list Z) (j : nat) :
  In j m -> (j < length d)%nat -> nth j (lit m d) 0 = 1.
Proof.
  revert d. induction m as [|x m IH]; intros d H L; [destruct H|].
  rewrite lit_cons. destruct H as [-> | H].
  - apply lit_keeps_one. now apply nth_setitem_same.
  - apply IH; [exact H | now rewrite length_setitem].
Qed.

Lemma map_nth_seq {A : Type} (r : list A) (dflt : A) (n : nat) :
  (n <= length r)%nat -> map (fun i => nth i r dflt) (seq 0 n) = firstn n r.
Proof.
  revert r. induction n as [|n IH]; intros r H; [reflexivity|].
  destruct r as [|x r]; [simpl in H; lia|].
  cbn [seq map nth firstn]. f_equal.
  rewrite <- seq_shift, map_map. apply IH. simpl in H. lia.
Qed.

Lemma fold_left_map {A B C : Type} (g : A -> C -> A) (f : B -> C)
    (l : list B) (a : A) :
  fold_left (fun a b => g a (f b)) l a = fold_left g (map f l) a.
Proof. revert a. induction l as [|b l IH]; intro a; simpl; auto. Qed.

Lemma take_count_le (r : list nat) :
  (take_count r <= length r)%nat /\ (take_count r <= cellCount / 2)%nat
  /\ take_count r = Nat.min (length r) (cellCount / 2).
Proof.
  unfold take_count.
  destruct (length r <=? cellCount / 2)%nat eqn:E;
    [apply Nat.leb_le in E | apply Nat.leb_gt in E]; lia.
Qed.

(** Lines 202-203 switch on the first [count] candidates. *)
Lemma switch_on_lit (r : list nat) (d : list Z) :
  switch_on r (take_count r) d = lit (firstn (take_count r) r) d.
Proof.
  unfold switch_on, lit.
  rewrite (fold_left_map (fun d x => Py.setitem d x 1) (fun i => nth i r 0%nat)).
  rewrite map_nth_seq by apply take_count_le. reflexivity.
Qed.

(** The drain plan that [select_cells] leaves. *)
Lemma select_cells_drain (target : Q) (s : BMS) :
  drain (select_cells target s)
  = lit (chosen target s) (cleared target (cells s) (seq 0 cellCount) (drain s)).
Proof.
  unfold select_cells, chosen. rewrite collect_spec. cbn [fst].
  fields. apply switch_on_lit.
Qed.

Lemma select_cells_touches (target : Q) (s : BMS) :
  exists d, select_cells target s = set_drain d s.
Proof.
  unfold select_cells. destruct (collect target (cells s) (drain s)).
  eexists. reflexivity.
Qed.

Lemma chosen_length (target : Q) (s : BMS) :
  (length (chosen target s) <= cellCount / 2)%nat.
Proof.
  unfold chosen. cbv zeta. rewrite length_firstn.
  match goal with |- context [take_count ?r] =>
    pose proof (take_count_le r) end. lia.
Qed.

(** Selection adds at most [cellCount / 2] set flags to the plan. *)
Lemma select_cells_ones (target : Q) (s : BMS) :
  (ones (drain (select_cells target s)) <= ones (drain s) + cellCount / 2)%nat.
Proof.
  rewrite select_cells_drain.
  etransitivity; [apply lit_ones|].
  pose proof (cleared_ones target (cells s) (seq 0 cellCount) (drain s)).
  pose proof (chosen_length target s). lia.
Qed.

Lemma In_firstn {A : Type} (n : nat) (l : list A) (x : A) :
  In x (firstn n l) -> In x l.
Proof.
  revert l. induction n as [|n IH]; intros [|y l] H; simpl in *; try tauto.
  destruct H as [H | H]; [now left | right; now apply IH].
Qed.

(** C6. Cell selection (lines 190-203) collects exactly the cells whose
    voltage is strictly above the target, in index order; sorts them by
    descending voltage, cells of equal voltage staying in index order;
    switches on the first of them, at most [cellCount / 2]; and clears the
    flag of every cell at or below the target.  In the scenario of 19 cells
    at 4.20 V and one at 3.50 V the target is 3.505 V, the ten cells
    switched on are cells 0 to 9, all at 4.20 V, and the 3.50 V cell is
    not among them. *)
Theorem C6_cell_selection :
  forall (target : Q) (s : BMS),
    (cellCount <= length (drain s))%nat ->
    let cand := fst (collect target (cells s) (drain s)) in
    let r := ranked (cells s) cand in
    let d' := drain (select_cells target s) in
    (forall i, In i cand <->
               (i < cellCount)%nat /\ (target < nth i (cells s) 0%Q)%Q) /\
    StronglySorted lt cand /\
    Permutation cand r /\
    StronglySorted (before (cells s)) r /\
    (forall k, filter (fun i => Qeq_bool (nth i (cells s) 0%Q) k) r
               = filter (fun i => Qeq_bool (nth i (cells s) 0%Q) k) cand) /\
    chosen target s = firstn (Nat.min (length cand) (cellCount / 2)) r /\
    (length (chosen target s) <= cellCount / 2)%nat /\
    (forall i, In i (chosen target s) -> nth i d' 0 = 1) /\
    (forall i, (i < cellCount)%nat -> (nth i (cells s) 0%Q <= target)%Q ->
               nth i d' 0 = 0) /\
    (forall i, ~ In i (chosen target s) -> (target < nth i (cells s) 0%Q)%Q ->
               nth i d' 0 = nth i (drain s) 0) /\
    (cells scenario = repeat (420 # 100)%Q 19 ++ [(350 # 100)%Q] /\
     dV scenario = (1 # 100)%Q /\ targetVoltage scenario = (385 # 100)%Q /\
     option_map Qred (choose_target scenario) = Some (701 # 200)%Q /\
     chosen (701 # 200) scenario = seq 0 10 /\
     drain (state_of (decide_balance scenario)) = repeat 1 10 ++ repeat 0 14 /\
     ~ In 19%nat (chosen (701 # 200) scenario)).
Proof.
  intros target s Hd cand r d'.
  assert (Ec : cand = filter (fun i => Py.gtb (nth i (cells s) 0%Q) target)
                        (seq 0 cellCount))
    by (subst cand; now rewrite collect_spec).
  assert (Hin : forall i, In i cand <->
                  (i < cellCount)%nat /\ (target < nth i (cells s) 0%Q)%Q).
  { intro i. rewrite Ec, filter_In, in_seq, gtb_gt. intuition lia. }
  assert (Hperm : Permutation cand r)
    by (subst r; unfold ranked; apply sorted_desc_perm).
  assert (Hsub : forall i, In i (chosen target s) -> In i cand).
  { intros i Hi. unfold chosen in Hi. cbv zeta in Hi.
    apply In_firstn in Hi. fold cand in Hi. fold r in Hi.
    now rewrite Hperm. }
  split; [exact Hin|]. split.
  { rewrite Ec. apply StronglySorted_filter, StronglySorted_seq. }
  split; [exact Hperm|]. split.
  { subst r. apply ranked_before. rewrite Ec.
    apply StronglySorted_filter, StronglySorted_seq. }
  split.
  { intro k. subst r. unfold ranked. apply sorted_desc_stable. }
  split.
  { unfold chosen. cbv zeta. fold cand. fold r.
    destruct (take_count_le r) as (_ & _ & ->).
    now rewrite <- (Permutation_length Hperm). }
  split; [apply chosen_length|]. split.
  { intros i Hi. subst d'. rewrite select_cells_drain.
    apply lit_nth_one; [exact Hi|].
    rewrite cleared_length. apply Hsub, Hin in Hi. lia. }
  split.
  { intros i Hi Hle. subst d'. rewrite select_cells_drain.
    rewrite lit_nth_other.
    - apply cleared_nth_zero; [apply in_seq; lia | now apply gtb_le].
    - intro Hc. apply Hsub, Hin in Hc. destruct Hc as [_ Hc].
      now apply Qlt_not_le in Hc. }
  split.
  { intros i Hi Hgt. subst d'. rewrite select_cells_drain.
    rewrite lit_nth_other by exact Hi.
    apply cleared_nth_other. now apply gtb_gt. }
  repeat split; try (vm_compute; reflexivity).
  vm_compute. intuition discriminate.
Qed.

(* ------------------------------------------------------------------ *)
(** ** The drain plan between ticks *)

Lemma ones_quiet (d : list Z) : Forall (fun v => v = 0) d -> ones d = 0%nat.
Proof.
  unfold ones. induction 1 as [|x d Hx Hd IH]; [reflexivity|].
  subst x. simpl. exact IH.
Qed.

Lemma getTemps_touches (values : list Z) (cpu : Q) (s : BMS) :
  exists t f b m o,
    fst (getTemps values cpu s) =
    set_out o (set_mode m (set_buz b (set_fan f (set_temps t s)))).
Proof.
  unfold getTemps. fields.
  destruct (Py.gtb (Py.max (read_temps values cpu)) (fanTrigger s));
    unfold fan_value, emit; fields;
    destruct (Py.gtb (Py.max (read_temps values cpu)) (maxTemp s + 20)%Q);
    cbn [fst].
  - do 5 eexists. same_state.
  - exists (read_temps values cpu), true, (buz s), (mode s). eexists.
    same_state.
  - do 5 eexists. same_state.
  - exists (read_temps values cpu), false, (buz s), (mode s). eexists.
    same_state.
Qed.

Lemma monitor_touches (inp : tick_input) (n k : nat) (s : BMS) :
  exists t f b m o,
    monitor n k inp s =
    set_out o (set_mode m (set_buz b (set_fan f (set_temps t s)))).
Proof.
  revert k s. induction n as [|n IH]; intros k s.
  - exists (temps s), (fan s), (buz s), (mode s), (out s).
    destruct s; reflexivity.
  - cbn [monitor].
    destruct (getTemps_touches (tmp_value inp k) (cpu_temperature inp k) s)
      as (t & f & b & m & o & ->).
    fields. destruct (Py.gtb (Py.max t) (maxTemp s)).
    + do 5 eexists. reflexivity.
    + match goal with |- context [monitor n (S k) inp ?x] =>
        destruct (IH (S k) x) as (t' & f' & b' & m' & o' & ->) end.
      do 5 eexists. same_state.
Qed.

Lemma drain_scan (inp : tick_input) (s : BMS) :
  drain (fst (scan inp s)) = drain s.
Proof.
  unfold scan.
  pose proof (checks_touches inp s) as C.
  destruct (checks inp s) as [s1 r]. cbn [fst] in C.
  destruct C as (g & c & b & cap & m & e & bz & v & md & lc & mn & mx & o & ->).
  destruct r; [reflexivity|].
  match goal with |- context [getTemps ?a ?b ?x] =>
    destruct (getTemps_touches a b x) as (t & f & b' & m' & o' & ->) end.
  reflexivity.
Qed.

Lemma decide_charge_touches (s : BMS) :
  exists c r o, decide_charge s = set_out o (set_relay r (set_charging c s)).
Proof.
  unfold decide_charge.
  match goal with |- context [if ?c then _ else _] => destruct c end.
  - do 3 eexists. same_state.
  - exists false, (relay s), (out s). destruct s; reflexivity.
Qed.

Lemma drain_sendIO (s : BMS) : drain (sendIO s) = drain s.
Proof. reshape (sendIO_touches s). reflexivity. Qed.

Lemma balancing_sendIO (s : BMS) : balancing (sendIO s) = balancing s.
Proof. reshape (sendIO_touches s). reflexivity. Qed.

Lemma balancing_select_cells (target : Q) (s : BMS) :
  balancing (select_cells target s) = balancing s.
Proof. reshape (select_cells_touches target s). reflexivity. Qed.

(** The plan selected does not depend on the two flags that line 177-178
    set. *)
Lemma select_cells_drain_flags (target : Q) (s : BMS) :
  drain (select_cells target (set_testBalCount 0 (set_balancing true s)))
  = drain (select_cells target s).
Proof. now rewrite !select_cells_drain. Qed.

(** After lines 176-207 either the plan is as before, or [balancing] is set
    and the plan is the one just selected. *)
Lemma decide_balance_drain (s : BMS) :
  let s' := state_of (decide_balance s) in
  drain s' = drain s
  \/ (balancing s' = true
      /\ (exists e, decide_balance s = Normal e)
      /\ exists target, drain s' = drain (select_cells target s)).
Proof.
  unfold decide_balance.
  match goal with |- context [if ?c then _ else _] => destruct c end;
    [|left; reflexivity].
  cbv zeta.
  destruct (choose_target (set_testBalCount 0 (set_balancing true s)))
    as [target|]; [|left; reflexivity].
  right. cbn [state_of]. split; [|split].
  - now rewrite balancing_sendIO, balancing_select_cells.
  - eexists. reflexivity.
  - exists target. now rewrite drain_sendIO, select_cells_drain_flags.
Qed.

(** The end of [balance] (lines 209-236) leaves a quiet plan when it was
    quiet or when a selection was just made. *)
Lemma settle_quiet (inp : tick_input) (s : BMS) :
  quiet_drain s \/ balancing s = true -> quiet_drain (settle inp s).
Proof.
  intro H. unfold settle, quiet_drain.
  destruct (balancing s) eqn:B; cbn [negb andb].
  - destruct (monitor_touches inp (Z.to_nat (balTime s / 8)) 1 s)
      as (t & f & b & m & o & ->).
    apply Forall_repeat_zero.
  - destruct H as [H | H]; [|discriminate H].
    destruct (charging s); cbn [negb].
    + destruct (monitor_touches inp (Z.to_nat (balTime s / 8)) 1 s)
        as (t & f & b & m & o & ->).
      apply Forall_repeat_zero.
    + destruct (testBalCount s <? 4); exact H.
Qed.

Lemma select_cells_quiet_bound (target : Q) (s : BMS) :
  quiet_drain s ->
  (ones (drain (select_cells target s)) <= cellCount / 2)%nat.
Proof.
  intro H. pose proof (select_cells_ones target s) as B.
  rewrite (ones_quiet _ H) in B. exact B.
Qed.

Lemma balance_quiet (inp : tick_input) (s : BMS) :
  quiet_drain s -> quiet_drain (state_of (balance inp s)).
Proof.
  intro H. unfold balance.
  match goal with |- context [if ?c then _ else _] => destruct c end.
  - cbn [state_of]. unfold abort_balance.
    match goal with |- context [sendIO ?x] =>
      destruct (sendIO_touches x) as (g & o & ->) end.
    apply Forall_repeat_zero.
  - assert (Q : quiet_drain (decide_charge s)).
    { destruct (decide_charge_touches s) as (c & r & o & ->). exact H. }
    revert Q. generalize (decide_charge s). intros x Q.
    destruct (decide_balance_drain x) as [D | (B0 & B)];
      destruct (decide_balance x) as [y | e y]; cbn [state_of] in *.
    + apply settle_quiet. left. unfold quiet_drain. now rewrite D.
    + unfold quiet_drain. now rewrite D.
    + apply settle_quiet. now right.
    + destruct B as ((z & F) & _). discriminate F.
Qed.

Lemma power_down_quiet (s : BMS) : quiet_drain (power_down s).
Proof.
  unfold power_down, quiet_drain.
  match goal with |- context [sendIO ?x] =>
    destruct (sendIO_touches x) as (g & o & ->) end.
  apply Forall_repeat_zero.
Qed.

Lemma act_quiet (inp : tick_input) (s : BMS) :
  quiet_drain s -> quiet_drain (state_of (act inp s)).
Proof.
  intro H. unfold act.
  destruct (mode s =? 1); [|destruct (mode s =? 2)].
  - destruct (Py.ltb (Py.max (temps s)) (maxTemp s));
      [now apply balance_quiet | exact H].
  - apply power_down_quiet.
  - exact H.
Qed.

Lemma drain_write_register (rt : Py.runtime) (command : Z) (data : string)
    (s : BMS) :
  drain (write_register rt command data s) = drain s.
Proof.
  unfold write_register, write_float, write_int.
  repeat match goal with
         | |- context [if ?c then _ else _] => destruct c
         | |- context [match ?x with Some _ => _ | None => _ end] => destruct x
         end; reflexivity.
Qed.

Lemma send_lines_touches (rt : Py.runtime) (width : Z) (l : list Q) (s : BMS) :
  exists o, fold_left (send_float_line rt width) l s = set_out o s.
Proof.
  apply fold_left_invariant with (P := fun s' => exists o, s' = set_out o s).
  - exists (out s). destruct s; reflexivity.
  - intros a x (o & ->). eexists. same_state.
Qed.

Lemma drain_read_register (rt : Py.runtime) (command : Z) (s : BMS) :
  drain (read_register rt command s) = drain s.
Proof.
  unfold read_register.
  destruct (send_lines_touches rt 7 (cells s) s) as (o7 & ->).
  destruct (send_lines_touches rt 5 (temps s) s) as (o5 & ->).
  repeat match goal with
         | |- context [if ?c then _ else _] => destruct c
         end; reflexivity.
Qed.

Lemma drain_sercom (rt : Py.runtime) (inp : tick_input) (s : BMS) :
  drain (state_of (sercom rt inp s)) = drain s.
Proof.
  unfold sercom. destruct (uart_read1 inp) as [c|]; [|reflexivity].
  cbv zeta. destruct (Z.of_N (Byte.to_N c) >=? 128).
  - destruct (uart_read inp) as [bs|]; [|reflexivity].
    apply drain_write_register.
  - apply drain_read_register.
Qed.

(** A tick hands over a quiet plan if it was handed one. *)
Lemma update_quiet (rt : Py.runtime) (inp : tick_input) (s : BMS) :
  quiet_drain s -> quiet_drain (state_of (update rt inp s)).
Proof.
  intro H. unfold update.
  assert (S1 : quiet_drain
                 (fst (if (mode s =? 0) || (mode s =? 1) then scan inp s
                       else (s, false)))).
  { destruct ((mode s =? 0) || (mode s =? 1)); [|exact H].
    unfold quiet_drain. now rewrite drain_scan. }
  destruct (if (mode s =? 0) || (mode s =? 1) then scan inp s else (s, false))
    as [s1 r]. cbn [fst] in S1.
  destruct r; [exact S1|].
  pose proof (act_quiet inp s1 S1) as A.
  destruct (act inp s1) as [y | e y]; cbn [state_of] in A; [|exact A].
  unfold quiet_drain. now rewrite drain_sercom.
Qed.

Lemma init_mcp_touches (l : list nat) (s : BMS) :
  exists g o,
    fold_left (fun s i => gpio_value i 0 (emit (IodirSet i 0) s)) l s
    = set_out o (set_gpio g s).
Proof.
  apply fold_left_invariant
    with (P := fun s' => exists g o, s' = set_out o (set_gpio g s)).
  - exists (gpio s), (out s). destruct s; reflexivity.
  - intros a i (g & o & ->). do 2 eexists. same_state.
Qed.

Lemma init_quiet (n_mcp n_tmp : nat) (buz0 relay0 fan0 : bool) (nvm : Z)
    (cellRead : reading) :
  quiet_drain (init n_mcp n_tmp buz0 relay0 fan0 nvm cellRead).
Proof.
  unfold init, quiet_drain. cbv zeta.
  match goal with |- context [fold_left ?f (seq 0 n_mcp) ?s0] =>
    destruct (init_mcp_touches (seq 0 n_mcp) s0) as (g & o & ->) end.
  match goal with |- context [getCells cellRead ?x] =>
    destruct (getCells_touches cellRead x) as (c & b & cap & m & o' & ->) end.
  fields. destruct (nvm =? 1); apply (Forall_repeat_zero 24).
Qed.

Lemma drain_decide_charge (s : BMS) : drain (decide_charge s) = drain s.
Proof. reshape (decide_charge_touches s). reflexivity. Qed.

Lemma reachable_quiet (rt : Py.runtime) (s : BMS) :
  reachable rt s -> quiet_drain s.
Proof.
  induction 1 as [n_mcp n_tmp buz0 relay0 fan0 nvm cellRead | inp s H IH].
  - apply init_quiet.
  - now apply update_quiet.
Qed.

(** C2. In every state the controller can reach, whatever the cell
    voltages read, at most [cellCount / 2] (10 of 20) flags of the drain
    plan are set: between ticks (none is), right after the cell selection
    inside [balance] in the next tick (for the target the code chooses, and
    for any target), and after that tick. *)
Theorem C2_drain_budget :
  forall (rt : Py.runtime) (s : BMS),
    reachable rt s ->
    (ones (drain s) <= cellCount / 2)%nat /\
    (forall (inp : tick_input),
        let entry := decide_charge (fst (scan inp s)) in
        (ones (drain (state_of (decide_balance entry))) <= cellCount / 2)%nat
        /\ (forall target,
               (ones (drain (select_cells target entry)) <= cellCount / 2)%nat)
        /\ (ones (drain (state_of (update rt inp s))) <= cellCount / 2)%nat).
Proof.
  intros rt s R. pose proof (reachable_quiet rt s R) as Q.
  split; [rewrite (ones_quiet _ Q); apply Nat.le_0_l|].
  intros inp entry.
  assert (E : quiet_drain entry).
  { subst entry. unfold quiet_drain.
    now rewrite drain_decide_charge, drain_scan. }
  clearbody entry. split; [|split].
  - destruct (decide_balance_drain entry) as [D | (_ & _ & t & D)];
      cbv zeta in D; rewrite D.
    + rewrite (ones_quiet _ E). apply Nat.le_0_l.
    + now apply select_cells_quiet_bound.
  - intro target. now apply select_cells_quiet_bound.
  - rewrite (ones_quiet _ (update_quiet rt inp s Q)). apply Nat.le_0_l.
Qed.

(* ------------------------------------------------------------------ *)
(** ** Indices stay in range, and [target] is always bound *)

(** In [update], [minCell] and [maxCell] are the extremes of the same list,
    so one of the two branches of lines 179-188 assigns [target] whenever
    the balance condition of line 176 holds. *)
Lemma choose_target_bound (s : BMS) :
  (minCell s <= maxCell s)%Q ->
  (Py.gtb (maxCell s - minCell s) (dV s)
   || Py.gtb (meanVoltage s) (targetVoltage s + dV s / 2)%Q) = true ->
  choose_target s <> None.
Proof.
  intros Hle Hc. unfold choose_target.
  destruct (Py.gtb (maxCell s - minCell s) (dV s)) eqn:E1; [discriminate|].
  destruct (Py.gtb (meanVoltage s) (targetVoltage s)) eqn:E2; [discriminate|].
  cbn [orb] in Hc. apply gtb_le in E1, E2. apply gtb_gt in Hc. exfalso.
  unfold Qdiv in Hc. change (/ 2)%Q with (1 # 2)%Q in Hc. lra.
Qed.

(** A step that only reads the list of cells. *)
Ltac frame :=
  repeat match goal with
         | |- context [sendIO ?x] => reshape (sendIO_touches x)
         | |- context [select_cells ?t ?x] => reshape (select_cells_touches t x)
         | |- context [decide_charge ?x] => reshape (decide_charge_touches x)
         | |- context [monitor ?n ?k ?i ?x] => reshape (monitor_touches i n k x)
         | |- context [fst (getTemps ?a ?b ?x)] =>
             reshape (getTemps_touches a b x)
         | |- context [fold_left (send_float_line ?r ?w) ?l ?x] =>
             reshape (send_lines_touches r w l x)
         | |- context [match ?x with Some _ => _ | None => _ end] => destruct x
         | |- context [if ?c then _ else _] => destruct c
         end;
  try reflexivity.

Lemma cells_balance (inp : tick_input) (s : BMS) :
  cells (state_of (balance inp s)) = cells s.
Proof.
  unfold balance, abort_balance, decide_balance, settle. cbv zeta.
  destruct (Py.ltb (targetVoltage s) (minVoltage s)
            || Py.gtb (targetVoltage s) (maxVoltage s)); [frame|].
  destruct (decide_charge_touches s) as (c & r & o & ->). fields.
  match goal with |- context [if ?c then _ else _] => destruct c end.
  - destruct (choose_target _); [|reflexivity]. cbn [state_of]. frame.
  - cbn [state_of]. frame.
Qed.

Lemma cells_act (inp : tick_input) (s : BMS) :
  cells (state_of (act inp s)) = cells s.
Proof.
  unfold act, power_down.
  destruct (mode s =? 1); [|frame].
  destruct (Py.ltb (Py.max (temps s)) (maxTemp s)); [|reflexivity].
  apply cells_balance.
Qed.

Lemma cells_sercom (rt : Py.runtime) (inp : tick_input) (s : BMS) :
  cells (state_of (sercom rt inp s)) = cells s.
Proof.
  unfold sercom, write_register, write_float, write_int, read_register.
  cbv zeta. frame.
Qed.

Lemma length_cells_getCells (cellRead : reading) (s : BMS) :
  length (cells (getCells cellRead s)) = length (cells s).
Proof.
  unfold getCells. fields. generalize (seq 0 20) as l. intro l.
  apply fold_left_invariant with (P := fun c => length c = length (cells s)).
  - reflexivity.
  - intros c i H. now rewrite length_setitem.
Qed.

Lemma length_cells_measure (inp : tick_input) (n k : nat) (s : BMS) :
  length (cells (measure n k inp s)) = length (cells s).
Proof.
  revert k s. induction n as [|n IH]; intros k s; [reflexivity|].
  cbn [measure].
  pose proof (length_cells_getCells (fetchAll inp k) s) as L.
  revert L. generalize (getCells (fetchAll inp k) s). intros x L.
  destruct (mode x =? 1); [|exact L].
  destruct (unstable x); [|exact L].
  now rewrite IH.
Qed.

Lemma length_cells_checks (inp : tick_input) (s : BMS) :
  length (cells (fst (checks inp s))) = length (cells s).
Proof.
  unfold checks.
  assert (P : length (cells (if mode (sendIO s) =? 1 then sleep 5 (sendIO s)
                             else sendIO s)) = length (cells s))
    by (destruct (sendIO_touches s) as (g & o & ->); fields;
        destruct (mode s =? 1); reflexivity).
  transitivity
    (length (cells (measure 4 0 inp
                      (if mode (sendIO s) =? 1 then sleep 5 (sendIO s)
                       else sendIO s))));
    [|now rewrite length_cells_measure].
  clear P.
  generalize (measure 4 0 inp
                (if mode (sendIO s) =? 1 then sleep 5 (sendIO s) else sendIO s)).
  intro x. cbv zeta.
  destruct (latch_fault_touches x) as (b & v & m & o & ->).
  match goal with |- context [limit_scan ?y] =>
    destruct (limit_scan_touches y) as (m' & o' & ->) end.
  fields. destruct (m =? 2); [reflexivity|].
  destruct (m' =? 2); reflexivity.
Qed.

Lemma length_cells_update (rt : Py.runtime) (inp : tick_input) (s : BMS) :
  length (cells (state_of (update rt inp s))) = length (cells s).
Proof.
  unfold update.
  assert (S1 : length (cells (fst (if (mode s =? 0) || (mode s =? 1)
                                   then scan inp s else (s, false))))
               = length (cells s)).
  { destruct ((mode s =? 0) || (mode s =? 1)); [|reflexivity].
    unfold scan. pose proof (length_cells_checks inp s) as C.
    destruct (checks inp s) as [s1 r]. cbn [fst] in C.
    destruct r; [exact C|]. rewrite <- C.
    reshape (getTemps_touches (tmp_value inp 0) (cpu_temperature inp 0) s1).
    reflexivity. }
  destruct (if (mode s =? 0) || (mode s =? 1) then scan inp s else (s, false))
    as [s1 r]. cbn [fst] in S1.
  destruct r; [exact S1|]. rewrite <- S1, <- (cells_act inp s1).
  destruct (act inp s1) as [y | e y]; cbn [state_of]; [|reflexivity].
  now rewrite cells_sercom.
Qed.

(** What a tick does to the list [drain]: it leaves it alone or replaces it
    by [[0]*cellCount]. *)
Lemma drain_balance (inp : tick_input) (s : BMS) :
  drain (state_of (balance inp s)) = drain s
  \/ drain (state_of (balance inp s)) = repeat 0 cellCount.
Proof.
  unfold balance.
  match goal with |- context [if ?c then _ else _] => destruct c end.
  - right. cbn [state_of]. unfold abort_balance. frame.
  - rewrite <- (drain_decide_charge s).
    generalize (decide_charge s). intro x.
    destruct (decide_balance_drain x) as [D | (B & (y & E) & _)].
    + cbv zeta in D.
      destruct (decide_balance x) as [y | e y]; cbn [state_of] in *;
        [|now left].
      rewrite <- D. unfold settle.
      destruct (negb (balancing y) && negb (charging y)).
      * left. destruct (testBalCount y <? 4); reflexivity.
      * right. frame.
    + cbv zeta in B. rewrite E in B |- *. cbn [state_of] in *.
      right. unfold settle. rewrite B. cbn [negb andb]. frame.
Qed.

Lemma drain_update (rt : Py.runtime) (inp : tick_input) (s : BMS) :
  drain (state_of (update rt inp s)) = drain s
  \/ drain (state_of (update rt inp s)) = repeat 0 cellCount.
Proof.
  unfold update.
  assert (S1 : drain (fst (if (mode s =? 0) || (mode s =? 1)
                           then scan inp s else (s, false))) = drain s).
  { destruct ((mode s =? 0) || (mode s =? 1)); [|reflexivity].
    apply drain_scan. }
  destruct (if (mode s =? 0) || (mode s =? 1) then scan inp s else (s, false))
    as [s1 r]. cbn [fst] in S1.
  destruct r; [now left|]. rewrite <- S1.
  assert (A : drain (state_of (act inp s1)) = drain s1
              \/ drain (state_of (act inp s1)) = repeat 0 cellCount).
  { unfold act. destruct (mode s1 =? 1); [|destruct (mode s1 =? 2)].
    - destruct (Py.ltb (Py.max (temps s1)) (maxTemp s1));
        [apply drain_balance | now left].
    - right. unfold power_down. cbn [state_of]. frame.
    - now left. }
  destruct (act inp s1) as [y | e y]; cbn [state_of] in *; [|exact A].
  now rewrite drain_sercom.
Qed.

Lemma init_in_range (n_mcp n_tmp : nat) (buz0 relay0 fan0 : bool) (nvm : Z)
    (cellRead : reading) :
  let s := init n_mcp n_tmp buz0 relay0 fan0 nvm cellRead in
  length (cells s) = cellCount /\ drain s = repeat 0 24.
Proof.
  unfold init. cbv zeta.
  match goal with |- context [fold_left ?f (seq 0 n_mcp) ?s0] =>
    destruct (init_mcp_touches (seq 0 n_mcp) s0) as (g & o & ->) end.
  match goal with |- context [getCells cellRead ?x] =>
    assert (P : length (cells x) = cellCount /\ drain x = repeat 0 24)
      by (fields; destruct (nvm =? 1); split; reflexivity);
    revert P; generalize x
  end.
  intros x (C & D).
  pose proof (length_cells_getCells cellRead x) as L.
  destruct (getCells_touches cellRead x) as (c & b & cap & m & o' & E).
  rewrite E in L |- *. fields. fields_in L. split; [congruence | exact D].
Qed.

(** In every reachable state the two lists indexed by cell number are long
    enough: no assignment [self.cells[i] = ...] or [self.drain[i] = ...]
    and no read [self.cells[i]] of the class is out of range. *)
Lemma reachable_in_range (rt : Py.runtime) (s : BMS) :
  reachable rt s ->
  length (cells s) = cellCount /\ (cellCount <= length (drain s))%nat.
Proof.
  induction 1 as [n_mcp n_tmp buz0 relay0 fan0 nvm cellRead | inp s H IH].
  - destruct (init_in_range n_mcp n_tmp buz0 relay0 fan0 nvm cellRead)
      as (C & D).
    cbv zeta in C, D. split; [exact C|].
    rewrite D, repeat_length. unfold cellCount. lia.
  - destruct IH as (C & D). split.
    + now rewrite length_cells_update.
    + destruct (drain_update rt inp s) as [-> | ->]; [exact D|].
      now rewrite repeat_length.
Qed.

Lemma max_from (r : list Q) (x : Q) :
  (x <= fold_left (fun m y => if Py.gtb y m then y else m) r x)%Q.
Proof.
  revert x. induction r as [|y r IH]; intro x; cbn [fold_left].
  - apply Qle_refl.
  - eapply Qle_trans; [|apply IH].
    destruct (Py.gtb y x) eqn:E; [|apply Qle_refl].
    apply gtb_gt in E. now apply Qlt_le_weak.
Qed.

Lemma min_from (r : list Q) (x : Q) :
  (fold_left (fun m y => if Py.ltb y m then y else m) r x <= x)%Q.
Proof.
  revert x. induction r as [|y r IH]; intro x; cbn [fold_left].
  - apply Qle_refl.
  - eapply Qle_trans; [apply IH|].
    destruct (Py.ltb y x) eqn:E; [|apply Qle_refl].
    apply ltb_lt in E. now apply Qlt_le_weak.
Qed.

Lemma min_le_max (l : list Q) : (Py.min l <= Py.max l)%Q.
Proof.
  destruct l as [|x r]; [apply Qle_refl|].
  apply Qle_trans with x; [apply min_from | apply max_from].
Qed.

(** When the checks pass, [minCell] and [maxCell] are the extremes of the
    cells just measured. *)
Lemma checks_extremes (inp : tick_input) (s : BMS) :
  snd (checks inp s) = false ->
  (minCell (fst (checks inp s)) <= maxCell (fst (checks inp s)))%Q.
Proof.
  unfold checks.
  generalize (measure 4 0 inp
                (if mode (sendIO s) =? 1 then sleep 5 (sendIO s) else sendIO s)).
  intro x. cbv zeta.
  generalize (latch_fault x). intro y.
  generalize (limit_scan (buz_value false (set_lastCells (cells y) y))).
  intro z. fields.
  destruct (mode y =? 2); [discriminate|].
  destruct (mode z =? 2); [discriminate|].
  intros _. fields. apply min_le_max.
Qed.

Lemma sercom_no_unbound (rt : Py.runtime) (inp : tick_input) (s s' : BMS) :
  sercom rt inp s <> Raises UnboundLocalError s'.
Proof.
  unfold sercom. destruct (uart_read1 inp) as [b|]; [|discriminate].
  cbv zeta. destruct (Z.of_N (Byte.to_N b) >=? 128); [|discriminate].
  destruct (uart_read inp); discriminate.
Qed.

Lemma decide_balance_bound (s y : BMS) :
  (minCell s <= maxCell s)%Q ->
  decide_balance (decide_charge s) <> Raises UnboundLocalError y.
Proof.
  intro H. destruct (decide_charge_touches s) as (c & r & o & ->).
  unfold decide_balance. fields.
  match goal with |- context [if ?c && _ then _ else _] =>
    destruct c eqn:B end; [|discriminate].
  destruct (Py.gtb (minCell s) (minVoltage s)); [|discriminate].
  cbn [andb]. cbv zeta.
  match goal with |- context [choose_target ?x] =>
    pose proof (choose_target_bound x) as T;
    destruct (choose_target x) end; [discriminate|].
  exfalso. apply T; [exact H | exact B | reflexivity].
Qed.

(** [update] never raises UnboundLocalError: [balance] is only entered after
    the checks of the same tick have stored the extremes. *)
Lemma update_target_bound (rt : Py.runtime) (inp : tick_input) (s s' : BMS) :
  update rt inp s <> Raises UnboundLocalError s'.
Proof.
  unfold update.
  assert (S1 : let p := if (mode s =? 0) || (mode s =? 1) then scan inp s
                        else (s, false) in
               snd p = false -> mode (fst p) = 1 ->
               (minCell (fst p) <= maxCell (fst p))%Q).
  { cbv zeta. destruct ((mode s =? 0) || (mode s =? 1)) eqn:M.
    - unfold scan. pose proof (checks_extremes inp s) as C.
      destruct (checks inp s) as [s1 r]. cbn [fst snd] in C.
      destruct r; [discriminate|]. specialize (C eq_refl).
      destruct (getTemps_touches (tmp_value inp 0) (cpu_temperature inp 0) s1)
        as (t & f & b & m & o & E).
      intros _ _. rewrite E. exact C.
    - cbn [fst snd]. intros _ M1. rewrite M1 in M. discriminate M. }
  cbv zeta in S1.
  destruct (if (mode s =? 0) || (mode s =? 1) then scan inp s else (s, false))
    as [s1 r]. cbn [fst snd] in S1.
  destruct r; [discriminate|]. specialize (S1 eq_refl).
  assert (A : forall y, act inp s1 <> Raises UnboundLocalError y).
  { intro y. unfold act. destruct (mode s1 =? 1) eqn:M1;
      [|destruct (mode s1 =? 2); discriminate].
    apply Z.eqb_eq in M1. specialize (S1 M1).
    destruct (Py.ltb (Py.max (temps s1)) (maxTemp s1)); [|discriminate].
    unfold balance.
    destruct (Py.ltb (targetVoltage s1) (minVoltage s1)
              || Py.gtb (targetVoltage s1) (maxVoltage s1)); [discriminate|].
    pose proof (decide_balance_bound s1 y S1) as D.
    destruct (decide_balance (decide_charge s1)) as [z | e z];
      [discriminate | congruence]. }
  destruct (act inp s1) as [y | e y].
  - apply sercom_no_unbound.
  - intro E. apply (A y). congruence.
Qed.

(* ------------------------------------------------------------------ *)
(** ** The theorems at concrete inputs *)

(** The controller after the host has written mode 1 during the first tick,
    in the scenario of 19 cells at 4.20 V and one at 3.50 V. *)
Lemma C2_drain_budget_witness :
  let tick := Example.quiet Example.one_low 30 in
  let s :=
    state_of (update Example.runtime (host_sends x80 (Some [x31]) tick)
                (Example.boot 0 Example.one_low)) in
  reachable Example.runtime s /\
  (ones (drain s) <= cellCount / 2)%nat /\
  (ones (drain (state_of (decide_balance (decide_charge (fst (scan tick s))))))
   <= cellCount / 2)%nat /\
  (ones (drain (state_of (update Example.runtime tick s))) <= cellCount / 2)%nat.
Proof.
  cbv zeta.
  assert (R : reachable Example.runtime
                (state_of (update Example.runtime
                             (host_sends x80 (Some [x31])
                                (Example.quiet Example.one_low 30))
                             (Example.boot 0 Example.one_low))))
    by (apply reach_update, reach_init).
  split; [exact R|].
  destruct (C2_drain_budget Example.runtime _ R) as (B0 & B).
  split; [exact B0|].
  specialize (B (Example.quiet Example.one_low 30)). cbv zeta in B.
  destruct B as (B1 & _ & B3).
  split; [exact B1 | exact B3].
Defined.

Lemma C3_target_outside_band_aborts_witness :
  let tick := Example.quiet (Example.flat 4) 30 in
  let s :=
    state_of (update Example.runtime
                (host_sends x85 (Some [x35; x2e; x30]) tick)
                (Example.boot 0 (Example.flat 4))) in
  (targetVoltage s < minVoltage s \/ maxVoltage s < targetVoltage s)%Q /\
  exists s',
    balance tick s = Normal s' /\
    buz s' = true /\ relay s' = false /\ mode s' = 0 /\
    drain s' = repeat 0 cellCount.
Proof.
  cbv zeta.
  match goal with |- (?a \/ ?b) /\ _ =>
    assert (H : a \/ b) by (right; vm_compute; reflexivity) end.
  split; [exact H|].
  destruct (C3_target_outside_band_aborts
              (Example.quiet (Example.flat 4) 30) _ H)
    as (s' & E & B & R & M & D & _).
  exists s'. split; [exact E|]. split; [exact B|]. split; [exact R|].
  split; [exact M | exact D].
Defined.

Lemma C4_malformed_payload_answer_witness :
  let tick := Example.quiet (Example.flat 4) 30 in
  let s := Example.boot 0 (Example.flat 4) in
  let o := sercom Example.runtime (host_sends x81 (Some [x61; x62; x63]) tick) s in
  malformed Example.runtime (Z.of_N (Byte.to_N x81))
    (Py.str_of_bytes [x61; x62; x63]) /\
  maxTemp (state_of o) = maxTemp s /\
  uart_tx (added s (state_of o)) = repeat x00 255 /\
  uart_tx (added s (state_of o)) <> [xff].
Proof.
  cbv zeta.
  assert (H : malformed Example.runtime (Z.of_N (Byte.to_N x81))
                (Py.str_of_bytes [x61; x62; x63])).
  { left. split; [unfold float_register; simpl; tauto | reflexivity]. }
  split; [exact H|].
  pose proof (C4_malformed_payload_answer Example.runtime
                (Example.quiet (Example.flat 4) 30)
                (Example.boot 0 (Example.flat 4)) x81 [x61; x62; x63] H) as P.
  cbv zeta in P. destruct P as (_ & M & T & _ & N).
  split; [exact M|]. split; [exact T | exact N].
Defined.

(** The host has written mode 1 with every cell at 4.0 V; in the next tick
    every batch reads 4.2 V, 0.2 V above the snapshot. *)
Lemma C5_unstable_measurement_latches_fault_witness :
  let s :=
    state_of (update Example.runtime
                (host_sends x80 (Some [x31]) (Example.quiet (Example.flat 4) 30))
                (Example.boot 0 (Example.flat 4))) in
  let tick := Example.quiet (Example.flat (42 # 10)) 30 in
  mode s = 1 /\
  length (cells s) = cellCount /\
  (forall k, (k < 4)%nat ->
     exceeds (deltas (map (fetchAll tick k) cellPos) (lastCells s)) = true) /\
  exists s',
    update Example.runtime tick s = Normal s' /\
    nvm0 s' = 1 /\ buz s' = true /\ mode s' = 2 /\
    fault_reports (out (Example.boot (nvm0 s') (Example.flat 4))) = 1%nat /\
    nvm0 (Example.boot (nvm0 s') (Example.flat 4)) = 0.
Proof.
  cbv zeta.
  match goal with |- ?a /\ ?b /\ ?c /\ _ =>
    assert (H1 : a) by (vm_compute; reflexivity);
    assert (H2 : b) by (vm_compute; reflexivity);
    assert (H3 : c) by (intros k Hk; vm_compute; reflexivity)
  end.
  split; [exact H1|]. split; [exact H2|]. split; [exact H3|].
  destruct (C5_unstable_measurement_latches_fault Example.runtime
              (Example.quiet (Example.flat (42 # 10)) 30) _ H1 H2 H3)
    as (s' & E & N & B & M & Rst).
  exists s'. split; [exact E|]. split; [exact N|]. split; [exact B|].
  split; [exact M|].
  specialize (Rst 3%nat 4%nat false false false (Example.flat 4)
                (Example.flat 4)).
  cbv zeta in Rst. destruct Rst as (R1 & _ & R3 & _).
  split; [exact R1 | exact R3].
Defined.

Lemma C6_cell_selection_witness :
  (cellCount <= length (drain scenario))%nat /\
  chosen (701 # 200) scenario
  = firstn (Nat.min (length (fst (collect (701 # 200) (cells scenario)
                                    (drain scenario))))
              (cellCount / 2))
      (ranked (cells scenario)
         (fst (collect (701 # 200) (cells scenario) (drain scenario)))) /\
  (length (chosen (701 # 200) scenario) <= cellCount / 2)%nat.
Proof.
  assert (H : (cellCount <= length (drain scenario))%nat)
    by (vm_compute; lia).
  split; [exact H|].
  pose proof (C6_cell_selection (701 # 200) scenario H) as P.
  cbv zeta in P. destruct P as (_ & _ & _ & _ & _ & C & L & _).
  split; [exact C | exact L].
Defined.

Lemma C10_unknown_mode_payload_witness :
  let tick := Example.quiet (Example.flat 4) 30 in
  let s := Example.boot 0 (Example.flat 4) in
  (forall bs, Some [x33] = Some bs ->
     Py.str_of_bytes bs <> "0"%string /\
     Py.str_of_bytes bs <> "1"%string /\
     Py.str_of_bytes bs <> "2"%string) /\
  sercom Example.runtime (host_sends x80 (Some [x33]) tick) s = Normal s /\
  sercom Example.runtime (host_sends x80 None tick) s = Raises TypeError s /\
  uart_tx (added s (state_of (sercom Example.runtime
                                (host_sends x80 None tick) s))) = [].
Proof.
  cbv zeta.
  assert (H : forall bs, Some [x33] = Some bs ->
                Py.str_of_bytes bs <> "0"%string /\
                Py.str_of_bytes bs <> "1"%string /\
                Py.str_of_bytes bs <> "2"%string).
  { intros bs E. injection E as <-.
    repeat split; apply String.eqb_neq; reflexivity. }
  assert (N : forall bs, @None (list byte) = Some bs ->
                Py.str_of_bytes bs <> "0"%string /\
                Py.str_of_bytes bs <> "1"%string /\
                Py.str_of_bytes bs <> "2"%string)
    by (intros bs E; discriminate E).
  split; [exact H|].
  pose proof (C10_unknown_mode_payload Example.runtime
                (Example.quiet (Example.flat 4) 30)
                (Example.boot 0 (Example.flat 4)) (Some [x33]) H) as P.
  pose proof (C10_unknown_mode_payload Example.runtime
                (Example.quiet (Example.flat 4) 30)
                (Example.boot 0 (Example.flat 4)) None N) as Q0.
  cbv zeta in P, Q0.
  destruct P as (_ & _ & _ & PS & _).
  destruct Q0 as (_ & _ & QU & _ & QN).
  split; [exact (PS [x33] eq_refl)|].
  split; [exact (proj1 (QN eq_refl)) | exact QU].
Defined.

(* ------------------------------------------------------------------ *)
(** * Further properties of the code *)

(** ** sendIO: the bytes on the expanders *)

Lemma bank_byte_from (l pre : list Z) (acc : Z) :
  fold_left
    (fun send j =>
       if nth j (pre ++ l) 0 =? 1 then send + 2 ^ Z.of_nat j else send)
    (seq (length pre) (length l)) acc
  = acc + 2 ^ Z.of_nat (length pre) * bits_value l.
Proof.
  revert pre acc. induction l as [|f l IH]; intros pre acc.
  - cbn. lia.
  - cbn [length seq fold_left bits_value].
    replace (nth (length pre) (pre ++ f :: l) 0) with f
      by (rewrite app_nth2, Nat.sub_diag by lia; reflexivity).
    replace (pre ++ f :: l) with ((pre ++ [f]) ++ l)
      by (rewrite <- app_assoc; reflexivity).
    replace (S (length pre)) with (length (pre ++ [f]))
      by (rewrite length_app; cbn; lia).
    rewrite IH, length_app. cbn [length].
    replace (Z.of_nat (length pre + 1)) with (Z.succ (Z.of_nat (length pre)))
      by lia.
    rewrite Z.pow_succ_r by lia.
    destruct (f =? 1); cbn [Z.b2z]; lia.
Qed.

Lemma bank_byte_bits_value (flags : list Z) : bank_byte flags = bits_value flags.
Proof.
  unfold bank_byte. pose proof (bank_byte_from flags [] 0) as H.
  cbn [app length] in H. rewrite H.
  change (2 ^ Z.of_nat 0) with 1. lia.
Qed.

Lemma bits_value_testbit (flags : list Z) (j : nat) :
  Z.testbit (bits_value flags) (Z.of_nat j) = (nth j flags 0 =? 1).
Proof.
  revert j. induction flags as [|f r IH]; intro j.
  - destruct j; cbn [bits_value nth]; now rewrite Z.testbit_0_l.
  - cbn [bits_value]. rewrite Z.add_comm. destruct j as [|j].
    + cbn [nth Z.of_nat]. apply Z.testbit_0_r.
    + rewrite Nat2Z.inj_succ, Z.testbit_succ_r by lia. cbn [nth]. apply IH.
Qed.

Lemma bits_value_range (flags : list Z) :
  0 <= bits_value flags < 2 ^ Z.of_nat (length flags).
Proof.
  induction flags as [|f r IH]; cbn [bits_value length]; [cbn; lia|].
  rewrite Nat2Z.inj_succ, Z.pow_succ_r by lia.
  destruct (f =? 1); cbn [Z.b2z]; lia.
Qed.

Lemma bits_value_zeros (l z : list Z) :
  Forall (fun v => v = 0) z -> bits_value (l ++ z) = bits_value l.
Proof.
  intro H. induction l as [|f l IH]; cbn [app bits_value].
  - induction H as [|x z Hx Hz IHz]; [reflexivity|].
    subst x. cbn [bits_value]. rewrite IHz. reflexivity.
  - now rewrite IH.
Qed.

Lemma length_slice {A : Type} (l : list A) (a b : nat) :
  (length (Py.slice l a b) <= b - a)%nat.
Proof. unfold Py.slice. rewrite length_firstn. lia. Qed.

Lemma nth_slice (d : list Z) (a b j : nat) :
  (j < b - a)%nat -> nth j (Py.slice d a b) 0 = nth (a + j) d 0.
Proof.
  intro H. unfold Py.slice. rewrite nth_firstn.
  destruct (j <? b - a)%nat eqn:E; [apply nth_skipn|].
  apply Nat.ltb_ge in E. lia.
Qed.

Lemma bank_testbit (d : list Z) (i j : nat) :
  (j < 8)%nat ->
  Z.testbit (bank d i) (Z.of_nat j) = (nth (8 * i + j) d 0 =? 1).
Proof.
  intro H. unfold bank. rewrite bank_byte_bits_value, bits_value_testbit.
  rewrite nth_slice by lia. reflexivity.
Qed.

Lemma bank_range (d : list Z) (i : nat) : 0 <= bank d i < 256.
Proof.
  unfold bank. rewrite bank_byte_bits_value.
  pose proof (bits_value_range (Py.slice d (8 * i) (8 * (i + 1)))) as R.
  pose proof (length_slice d (8 * i) (8 * (i + 1))) as L.
  assert (2 ^ Z.of_nat (length (Py.slice d (8 * i) (8 * (i + 1)))) <= 2 ^ 8)
    by (apply Z.pow_le_mono_r; lia).
  change (2 ^ 8) with 256 in *. lia.
Qed.

Lemma gpio_sendIO (s : BMS) (i : nat) :
  (i < length (gpio s))%nat -> nth i (gpio (sendIO s)) 0 = bank (drain s) i.
Proof.
  intro H. rewrite sendIO_spec. fields.
  rewrite (nth_indep _ 0 (bank (drain s) 0%nat))
    by now rewrite length_map, length_seq.
  rewrite map_nth, seq_nth by exact H. reflexivity.
Qed.

(** X1. [sendIO] packs the drain plan into the expander bytes: bit [j] of
    the byte written to expander [i] is set exactly when [drain[8*i + j]]
    is 1 (a slot past the end of the list counts as 0), every byte lies in
    0..255, each expander gets one write, in order, and the plan itself is
    not changed. *)
Theorem X1_sendIO_bits :
  forall (s : BMS),
    length (gpio (sendIO s)) = length (gpio s) /\
    drain (sendIO s) = drain s /\
    added s (sendIO s)
    = map (fun i => GpioSet i (nth i (gpio (sendIO s)) 0))
        (seq 0 (length (gpio s))) /\
    forall i, (i < length (gpio s))%nat ->
      0 <= nth i (gpio (sendIO s)) 0 < 256 /\
      forall j, (j < 8)%nat ->
        Z.testbit (nth i (gpio (sendIO s)) 0) (Z.of_nat j)
        = (nth (8 * i + j) (drain s) 0 =? 1).
Proof.
  intro s. split; [|split; [|split]].
  - rewrite sendIO_spec. fields. now rewrite length_map, length_seq.
  - apply drain_sendIO.
  - apply added_app. rewrite sendIO_spec at 1. fields. f_equal.
    apply map_ext_in. intros i Hi. apply in_seq in Hi.
    now rewrite gpio_sendIO by lia.
  - intros i Hi. rewrite gpio_sendIO by exact Hi. split.
    + apply bank_range.
    + intros j Hj. now apply bank_testbit.
Qed.

Lemma slice_app_zeros (d z : list Z) (a b : nat) :
  Forall (fun v => v = 0) z ->
  exists z', Py.slice (d ++ z) a b = Py.slice d a b ++ z'
             /\ Forall (fun v => v = 0) z'.
Proof.
  intro H. unfold Py.slice. rewrite skipn_app, firstn_app.
  eexists. split; [reflexivity|]. now apply Forall_firstn, Forall_skipn.
Qed.

Lemma bank_app_zeros (d z : list Z) (i : nat) :
  Forall (fun v => v = 0) z -> bank (d ++ z) i = bank d i.
Proof.
  intro H. unfold bank.
  destruct (slice_app_zeros d z (8 * i) (8 * (i + 1)) H) as (z' & -> & Hz).
  rewrite !bank_byte_bits_value. now apply bits_value_zeros.
Qed.

(** X2. What [sendIO] writes does not depend on trailing 0 slots of the
    plan: a plan and the same plan followed by any number of 0 slots (the
    20 slots of [[0]*cellCount] and the 24 of [__init__]) give the same
    writes and the same expander bytes. *)
Theorem X2_sendIO_trailing_zeros :
  forall (s : BMS) (k : nat),
    let s' := set_drain (drain s ++ repeat 0 k) s in
    gpio (sendIO s') = gpio (sendIO s) /\
    added s' (sendIO s') = added s (sendIO s).
Proof.
  intros s k s'. subst s'.
  assert (B : forall i, bank (drain s ++ repeat 0 k) i = bank (drain s) i)
    by (intro i; apply bank_app_zeros, Forall_repeat_zero).
  split.
  - rewrite !sendIO_spec. fields. apply map_ext. exact B.
  - rewrite (added_app s _ (sendIO s) (f_equal out (sendIO_spec s))).
    apply added_app. rewrite sendIO_spec. fields. f_equal.
    apply map_ext. intro i. now rewrite B.
Qed.

(* ------------------------------------------------------------------ *)
(** ** What a tick does to the parameters, the latch, the mode and the relay *)

Lemma control_step_refl (s : BMS) : control_step s s.
Proof. unfold control_step. tauto. Qed.

Lemma control_step_trans (s x y : BMS) :
  control_step s x -> control_step x y -> control_step s y.
Proof.
  unfold control_step.
  intros (C1 & N1 & M1 & R1) (C2 & N2 & M2 & R2).
  rewrite C2, C1. split; [reflexivity|].
  repeat split; intuition congruence.
Qed.

Lemma latch_fault_step (s : BMS) :
  exists b v m o,
    latch_fault s = set_out o (set_mode m (set_nvm0 v (set_buz b s)))
    /\ (v = nvm0 s \/ v = 1) /\ (m = mode s \/ m = 2).
Proof.
  unfold latch_fault. destruct (error s).
  - do 4 eexists. split; [same_state|]. split; right; reflexivity.
  - exists (buz s), (nvm0 s), (mode s), (out s).
    split; [destruct s; reflexivity|]. split; left; reflexivity.
Qed.

Lemma limit_scan_step (s : BMS) :
  exists m o, limit_scan s = set_out o (set_mode m s) /\ (m = mode s \/ m = 2).
Proof.
  unfold limit_scan. generalize (seq 0 cellCount) as l. intro l.
  apply fold_left_invariant
    with (P := fun s' => exists m o, s' = set_out o (set_mode m s)
                                     /\ (m = mode s \/ m = 2)).
  - exists (mode s), (out s). split; [destruct s; reflexivity | now left].
  - intros a i (m & o & -> & Hm). fields.
    destruct (Py.gtb (nth i (cells s) 0%Q) (maxVoltage s));
      [|destruct (Py.ltb (nth i (cells s) 0%Q) (minVoltage s))].
    + do 2 eexists. split; [same_state | now right].
    + do 2 eexists. split; [same_state | now right].
    + exists m, o. split; [reflexivity | exact Hm].
Qed.

Lemma getTemps_step (values : list Z) (cpu : Q) (s : BMS) :
  exists t f b m o,
    fst (getTemps values cpu s) =
    set_out o (set_mode m (set_buz b (set_fan f (set_temps t s))))
    /\ (m = mode s \/ m = 2).
Proof.
  unfold getTemps. fields.
  destruct (Py.gtb (Py.max (read_temps values cpu)) (fanTrigger s));
    unfold fan_value, emit; fields;
    destruct (Py.gtb (Py.max (read_temps values cpu)) (maxTemp s + 20)%Q);
    cbn [fst].
  - do 5 eexists. split; [same_state | now right].
  - exists (read_temps values cpu), true, (buz s), (mode s). eexists.
    split; [same_state | now left].
  - do 5 eexists. split; [same_state | now right].
  - exists (read_temps values cpu), false, (buz s), (mode s). eexists.
    split; [same_state | now left].
Qed.

Lemma monitor_step (inp : tick_input) (n k : nat) (s : BMS) :
  exists t f b m o,
    monitor n k inp s =
    set_out o (set_mode m (set_buz b (set_fan f (set_temps t s))))
    /\ (m = mode s \/ m = 2).
Proof.
  revert k s. induction n as [|n IH]; intros k s.
  - exists (temps s), (fan s), (buz s), (mode s), (out s).
    split; [destruct s; reflexivity | now left].
  - cbn [monitor].
    destruct (getTemps_step (tmp_value inp k) (cpu_temperature inp k) s)
      as (t & f & b & m & o & -> & Hm).
    fields. destruct (Py.gtb (Py.max t) (maxTemp s)).
    + do 5 eexists. split; [reflexivity | exact Hm].
    + match goal with |- context [monitor n (S k) inp ?x] =>
        destruct (IH (S k) x) as (t' & f' & b' & m' & o' & -> & Hm') end.
      fields_in Hm'. do 5 eexists. split; [same_state|].
      destruct Hm' as [-> | ->]; [exact Hm | now right].
Qed.

Lemma control_step_checks (inp : tick_input) (s : BMS) :
  control_step s (fst (checks inp s)).
Proof.
  unfold checks.
  destruct (sendIO_touches s) as (g & o & ->).
  match goal with |- context [measure 4 0 inp ?p] =>
    assert (P : exists o1, p = set_out o1 (set_gpio g s))
      by (fields; destruct (mode s =? 1); eexists; same_state);
    destruct P as (o1 & ->)
  end.
  destruct (measure_touches inp 4 0 (set_out o1 (set_gpio g s)))
    as (c & b & cap & m & e & o2 & ->).
  match goal with |- context [latch_fault ?x] =>
    destruct (latch_fault_step x) as (bz & v & md & o3 & -> & Hv & Hmd) end.
  match goal with |- context [limit_scan ?x] =>
    destruct (limit_scan_step x) as (md' & o4 & -> & Hmd') end.
  fields_in Hv. fields_in Hmd. fields_in Hmd'. fields.
  unfold control_step, config.
  destruct (md =? 2); [|destruct (md' =? 2)]; cbn [fst]; fields;
    (split; [reflexivity|]); repeat split; intuition congruence.
Qed.

Lemma control_step_scan (inp : tick_input) (s : BMS) :
  control_step s (fst (scan inp s)).
Proof.
  unfold scan. pose proof (control_step_checks inp s) as C.
  destruct (checks inp s) as [s1 r]. cbn [fst] in C.
  destruct r; [exact C|].
  apply (control_step_trans s s1); [exact C|].
  destruct (getTemps_step (tmp_value inp 0) (cpu_temperature inp 0) s1)
    as (t & f & b & m & o & -> & Hm).
  unfold control_step, config. fields. split; [reflexivity|].
  repeat split; intuition congruence.
Qed.

Lemma decide_charge_step (s : BMS) :
  exists c r o,
    decide_charge s = set_out o (set_relay r (set_charging c s))
    /\ (c = true \/ (c = false /\ r = relay s)).
Proof.
  unfold decide_charge.
  match goal with |- context [if ?c then _ else _] => destruct c end.
  - do 3 eexists. split; [same_state | now left].
  - exists false, (relay s), (out s).
    split; [destruct s; reflexivity | now right].
Qed.

Lemma decide_balance_touches (s : BMS) :
  exists bl tb d g o,
    state_of (decide_balance s) =
    set_out o (set_gpio g (set_drain d (set_testBalCount tb
      (set_balancing bl s)))).
Proof.
  unfold decide_balance.
  match goal with |- context [if ?c then _ else _] => destruct c end.
  - cbv zeta.
    destruct (choose_target (set_testBalCount 0 (set_balancing true s)))
      as [target|]; cbn [state_of].
    + match goal with |- context [sendIO ?x] =>
        destruct (sendIO_touches x) as (g & o & ->) end.
      match goal with |- context [select_cells ?t ?x] =>
        destruct (select_cells_touches t x) as (d & ->) end.
      do 5 eexists. same_state.
    + exists true, 0, (drain s), (gpio s), (out s). destruct s; reflexivity.
  - cbn [state_of].
    exists false, (testBalCount s), (drain s), (gpio s), (out s).
    destruct s; reflexivity.
Qed.

Lemma settle_step (inp : tick_input) (s : BMS) :
  exists tb md bz t f d r o,
    settle inp s =
    set_out o (set_relay r (set_drain d (set_fan f (set_temps t (set_buz bz
      (set_mode md (set_testBalCount tb s)))))))
    /\ (md = mode s \/ md = 0 \/ md = 2)
    /\ (r = false \/ (charging s = false /\ r = relay s)).
Proof.
  unfold settle.
  destruct (monitor_step inp (Z.to_nat (balTime s / 8)) 1 s)
    as (t & f & b & m & o & -> & Hm).
  destruct (balancing s); cbn [negb andb].
  - do 8 eexists. split; [same_state|]. split; [|now left].
    destruct Hm as [-> | ->]; tauto.
  - destruct (charging s); cbn [negb].
    + do 8 eexists. split; [same_state|]. split; [|now left].
      destruct Hm as [-> | ->]; tauto.
    + destruct (testBalCount s <? 4).
      * exists (testBalCount s + 1), (mode s), (buz s), (temps s), (fan s),
          (drain s), (relay s). eexists.
        split; [same_state|]. split; [now left | now right].
      * cbn [seq fold_left].
        exists 0, 0, false, (temps s), (fan s), (drain s), (relay s). eexists.
        split; [same_state|]. split; [tauto | now right].
Qed.

Lemma control_step_balance (inp : tick_input) (s y : BMS) :
  balance inp s = Normal y -> control_step s y.
Proof.
  unfold balance.
  match goal with |- context [if ?c then _ else _] => destruct c end.
  - intro E. injection E as <-. unfold abort_balance.
    match goal with |- context [sendIO ?x] =>
      destruct (sendIO_touches x) as (g & o & ->) end.
    unfold control_step, config. fields. tauto.
  - destruct (decide_charge_step s) as (c & r & o & -> & Hc).
    match goal with |- context [decide_balance ?x] =>
      pose proof (decide_balance_touches x) as D;
      destruct (decide_balance x) as [z | e z]
    end; [|discriminate].
    cbn [state_of] in D. destruct D as (bl & tb & d & g & o' & ->).
    intro E. injection E as <-.
    match goal with |- context [settle inp ?x] =>
      destruct (settle_step inp x)
        as (tb' & md & bz & t & f & d' & r' & o'' & -> & Hmd & Hr) end.
    fields_in Hmd. fields_in Hr.
    unfold control_step, config. fields. split; [reflexivity|].
    repeat split; try tauto.
    destruct Hr as [-> | (Hc' & ->)]; [now right|].
    destruct Hc as [-> | (_ & ->)]; [discriminate | now left].
Qed.

Lemma balance_raises (inp : tick_input) (s y : BMS) (e : exn) :
  balance inp s = Raises e y -> e = UnboundLocalError.
Proof.
  unfold balance, decide_balance.
  repeat match goal with
         | |- context [if ?c then _ else _] => destruct c
         | |- context [match choose_target ?x with _ => _ end] =>
             destruct (choose_target x)
         end; cbv zeta; try discriminate.
  all: repeat match goal with
         | |- context [match choose_target ?x with _ => _ end] =>
             destruct (choose_target x)
         end; try discriminate.
  all: intro E; injection E as <- _; reflexivity.
Qed.

Lemma power_down_step (s : BMS) : control_step s (power_down s).
Proof.
  unfold power_down.
  match goal with |- context [sendIO ?x] =>
    destruct (sendIO_touches x) as (g & o & ->) end.
  unfold control_step, config. fields. tauto.
Qed.

Lemma control_step_act (inp : tick_input) (s y : BMS) :
  act inp s = Normal y -> control_step s y.
Proof.
  unfold act. destruct (mode s =? 1); [|destruct (mode s =? 2)].
  - destruct (Py.ltb (Py.max (temps s)) (maxTemp s)).
    + apply control_step_balance.
    + intro E. injection E as <-. apply control_step_refl.
  - intro E. injection E as <-. apply power_down_step.
  - intro E. injection E as <-. apply control_step_refl.
Qed.

Lemma act_raises (inp : tick_input) (s y : BMS) (e : exn) :
  act inp s = Raises e y -> e = UnboundLocalError.
Proof.
  unfold act. destruct (mode s =? 1); [|destruct (mode s =? 2); discriminate].
  destruct (Py.ltb (Py.max (temps s)) (maxTemp s)); [|discriminate].
  apply balance_raises.
Qed.

(** The shape of a tick: it returns inside the block of modes 0 and 1, or
    it ends with the serial protocol run on the state [x] that the control
    part left. *)
Lemma update_shape (rt : Py.runtime) (inp : tick_input) (s : BMS) :
  exists x,
    control_step s x /\
    (update rt inp s = Normal x \/ update rt inp s = sercom rt inp x).
Proof.
  pose proof (update_target_bound rt inp s) as NB.
  unfold update in NB |- *.
  assert (S1 : control_step s
                 (fst (if (mode s =? 0) || (mode s =? 1) then scan inp s
                       else (s, false)))).
  { destruct ((mode s =? 0) || (mode s =? 1));
      [apply control_step_scan | apply control_step_refl]. }
  destruct (if (mode s =? 0) || (mode s =? 1) then scan inp s else (s, false))
    as [s1 r]. cbn [fst] in S1.
  destruct r; [exists s1; split; [exact S1 | now left]|].
  destruct (act inp s1) as [y | e y] eqn:A.
  - exists y. split; [|now right].
    apply (control_step_trans s s1); [exact S1|].
    now apply (control_step_act inp).
  - apply act_raises in A. subst e. exfalso. now apply (NB y).
Qed.

Lemma read_register_touches (rt : Py.runtime) (command : Z) (s : BMS) :
  exists o, read_register rt command s = set_out o s.
Proof.
  unfold read_register, send_float.
  destruct (send_lines_touches rt 7 (cells s) s) as (o7 & ->).
  destruct (send_lines_touches rt 5 (temps s) s) as (o5 & ->).
  repeat match goal with
         | |- context [if ?c then _ else _] => destruct c
         end; try (eexists; same_state).
  exists (out s). destruct s; reflexivity.
Qed.

Lemma write_register_step (rt : Py.runtime) (command : Z) (data : string)
    (s : BMS) :
  let y := write_register rt command data s in
  nvm0 y = nvm0 s /\ relay y = relay s /\
  (mode y = mode s \/ mode y = 0 \/ mode y = 1 \/ mode y = 2).
Proof.
  unfold write_register, write_float, write_int. cbv zeta.
  repeat match goal with
         | |- context [if ?c then _ else _] => destruct c
         | |- context [match ?x with Some _ => _ | None => _ end] => destruct x
         end; fields; tauto.
Qed.

Lemma sercom_step (rt : Py.runtime) (inp : tick_input) (s : BMS) :
  let y := state_of (sercom rt inp s) in
  nvm0 y = nvm0 s /\ relay y = relay s /\
  (mode y = mode s \/ mode y = 0 \/ mode y = 1 \/ mode y = 2) /\
  (no_write inp -> config y = config s).
Proof.
  unfold sercom, no_write. cbv zeta.
  destruct (uart_read1 inp) as [c|]; [|cbn [state_of]; tauto].
  destruct (Z.of_N (Byte.to_N c) >=? 128) eqn:E.
  - apply Z.geb_le in E.
    destruct (uart_read inp) as [bs|]; cbn [state_of].
    + destruct (write_register_step rt (Z.of_N (Byte.to_N c))
                  (Py.str_of_bytes bs) s) as (N & R & M).
      split; [exact N|]. split; [exact R|]. split; [exact M|]. intro; lia.
    + split; [reflexivity|]. split; [reflexivity|]. split; [now left|].
      intro; lia.
  - cbn [state_of].
    destruct (read_register_touches rt (Z.of_N (Byte.to_N c)) s) as (o & ->).
    unfold config. fields. tauto.
Qed.

(** X3. No tick clears the fault latch: after [update] the non-volatile
    byte holds what it held before, or 1.  Only [__init__] writes 0. *)
Theorem X3_update_never_clears_latch :
  forall (rt : Py.runtime) (inp : tick_input) (s : BMS),
    nvm0 (state_of (update rt inp s)) = nvm0 s
    \/ nvm0 (state_of (update rt inp s)) = 1.
Proof.
  intros rt inp s.
  destruct (update_shape rt inp s) as (x & (_ & N & _) & [-> | ->]).
  - exact N.
  - destruct (sercom_step rt inp x) as (Ny & _). cbv zeta in Ny.
    rewrite Ny. exact N.
Qed.

(** X4. A tick never hands over a closed charge relay that it found open:
    after [update] the relay is as before or open.  Charging goes on only
    inside the balance window of [balance], which opens the relay before it
    returns. *)
Theorem X4_update_leaves_relay_open :
  forall (rt : Py.runtime) (inp : tick_input) (s : BMS),
    relay (state_of (update rt inp s)) = relay s
    \/ relay (state_of (update rt inp s)) = false.
Proof.
  intros rt inp s.
  destruct (update_shape rt inp s) as (x & (_ & _ & _ & R) & [-> | ->]).
  - exact R.
  - destruct (sercom_step rt inp x) as (_ & Ry & _). cbv zeta in Ry.
    rewrite Ry. exact R.
Qed.

(** X5. A tick without a write command leaves every parameter as it was:
    [maxTemp], [fanTrigger], [minVoltage], [maxVoltage], [targetVoltage],
    [dV], [balTime] and [verbose] change only through the serial write
    registers. *)
Theorem X5_parameters_change_only_by_write :
  forall (rt : Py.runtime) (inp : tick_input) (s : BMS),
    no_write inp ->
    config (state_of (update rt inp s)) = config s.
Proof.
  intros rt inp s H.
  destruct (update_shape rt inp s) as (x & (C & _) & [-> | ->]).
  - exact C.
  - destruct (sercom_step rt inp x) as (_ & _ & _ & Cy). cbv zeta in Cy.
    now rewrite Cy.
Qed.

Lemma init_mode (n_mcp n_tmp : nat) (buz0 relay0 fan0 : bool) (nvm : Z)
    (cellRead : reading) :
  mode (init n_mcp n_tmp buz0 relay0 fan0 nvm cellRead) = 0.
Proof.
  unfold init. cbv zeta.
  match goal with |- context [fold_left ?f (seq 0 n_mcp) ?s0] =>
    destruct (init_mcp_touches (seq 0 n_mcp) s0) as (g & o & ->) end.
  match goal with |- context [getCells cellRead ?x] =>
    destruct (getCells_touches cellRead x) as (c & b & cap & m & o' & ->) end.
  fields. destruct (nvm =? 1); reflexivity.
Qed.

(** X6. In every reachable state the stored mode is 0, 1 or 2. *)
Theorem X6_mode_is_0_1_2 :
  forall (rt : Py.runtime) (s : BMS),
    reachable rt s -> mode s = 0 \/ mode s = 1 \/ mode s = 2.
Proof.
  intros rt s R.
  induction R as [n_mcp n_tmp buz0 relay0 fan0 nvm cellRead | inp s R IH].
  - left. apply init_mode.
  - destruct (update_shape rt inp s) as (x & (_ & _ & M & _) & [-> | ->]).
    + cbn [state_of]. intuition congruence.
    + destruct (sercom_step rt inp x) as (_ & _ & My & _). cbv zeta in My.
      intuition congruence.
Qed.

(* ------------------------------------------------------------------ *)
(** ** Shutdown *)

Lemma bank_zeros_map (n m : nat) :
  map (bank (repeat 0 n)) (seq 0 m) = repeat 0 m.
Proof.
  rewrite (map_const_repeat _ 0), length_seq; [reflexivity|].
  intro i. apply bank_zero, Forall_repeat_zero.
Qed.

Lemma power_down_spec (s : BMS) :
  let y := power_down s in
  mode y = mode s /\ buz y = false /\ relay y = false /\
  drain y = repeat 0 cellCount /\
  gpio y = repeat 0 (length (gpio s)) /\
  cells y = cells s /\ temps y = temps s /\ nvm0 y = nvm0 s /\
  out y = out s ++ [BuzSet false; RelaySet false]
                ++ map (fun i => GpioSet i 0) (seq 0 (length (gpio s)))
                ++ [Adc sleepAll].
Proof.
  cbv zeta. unfold power_down. rewrite sendIO_spec. fields.
  rewrite bank_zeros_map.
  repeat split; try reflexivity.
  rewrite <- !app_assoc. cbn [app]. do 4 f_equal.
  apply map_ext. intro i. f_equal. apply bank_zero, Forall_repeat_zero.
Qed.

Lemma update_shutdown (rt : Py.runtime) (inp : tick_input) (s : BMS) :
  mode s = 2 -> update rt inp s = sercom rt inp (power_down s).
Proof.
  intro M. unfold update. rewrite M. cbn [Z.eqb Pos.eqb orb].
  unfold act. rewrite M. reflexivity.
Qed.

(** X7. A tick in mode 2 with nothing on the UART measures nothing: it
    switches the buzzer and the relay off, clears the drain plan, writes 0
    to every expander, puts the ADCs to sleep, and stays in mode 2. *)
Theorem X7_shutdown_tick :
  forall (rt : Py.runtime) (inp : tick_input) (s : BMS),
    mode s = 2 ->
    uart_read1 inp = None ->
    exists s',
      update rt inp s = Normal s' /\
      mode s' = 2 /\ buz s' = false /\ relay s' = false /\
      drain s' = repeat 0 cellCount /\
      gpio s' = repeat 0 (length (gpio s)) /\
      cells s' = cells s /\ temps s' = temps s /\ nvm0 s' = nvm0 s /\
      added s s' = [BuzSet false; RelaySet false]
                   ++ map (fun i => GpioSet i 0) (seq 0 (length (gpio s)))
                   ++ [Adc sleepAll].
Proof.
  intros rt inp s M U.
  exists (power_down s). split.
  - rewrite (update_shutdown rt inp s M). unfold sercom. now rewrite U.
  - destruct (power_down_spec s) as (Hm & Hb & Hr & Hd & Hg & Hc & Ht & Hn & Ho).
    rewrite Hm. repeat split; try assumption.
    now apply added_app.
Qed.

Lemma byte_128 (c : byte) : Z.of_N (Byte.to_N c) = 128 -> c = x80.
Proof. destruct c; intro H; try discriminate H; reflexivity. Qed.

Lemma mode_write_register (rt : Py.runtime) (command : Z) (data : string)
    (s : BMS) :
  mode (write_register rt command data s)
  = if command =? 128 then
      if String.eqb data "0" then 0
      else if String.eqb data "1" then 1
      else if String.eqb data "2" then 2
      else mode s
    else mode s.
Proof.
  unfold write_register, write_float, write_int.
  repeat match goal with
         | |- context [if ?c then _ else _] => destruct c
         | |- context [match ?x with Some _ => _ | None => _ end] => destruct x
         end; reflexivity.
Qed.

Lemma sercom_leaves_shutdown (rt : Py.runtime) (inp : tick_input) (x : BMS) :
  mode x = 2 ->
  (mode (state_of (sercom rt inp x)) <> 2
   <-> exists bs,
         uart_read1 inp = Some x80 /\ uart_read inp = Some bs /\
         (Py.str_of_bytes bs = "0"%string \/ Py.str_of_bytes bs = "1"%string)).
Proof.
  intro Hm. unfold sercom. split.
  - destruct (uart_read1 inp) as [c|]; [|cbn [state_of]; congruence].
    destruct (Z.of_N (Byte.to_N c) >=? 128).
    + destruct (uart_read inp) as [bs|]; [|cbn [state_of]; congruence].
      cbn [state_of]. rewrite mode_write_register.
      destruct (Z.of_N (Byte.to_N c) =? 128) eqn:E; [|congruence].
      apply Z.eqb_eq, byte_128 in E. subst c.
      destruct (String.eqb (Py.str_of_bytes bs) "0") eqn:E0.
      { apply String.eqb_eq in E0. intros _. exists bs. tauto. }
      destruct (String.eqb (Py.str_of_bytes bs) "1") eqn:E1.
      { apply String.eqb_eq in E1. intros _. exists bs. tauto. }
      destruct (String.eqb (Py.str_of_bytes bs) "2"); congruence.
    + cbn [state_of].
      destruct (read_register_touches rt (Z.of_N (Byte.to_N c)) x) as (o & ->).
      fields. congruence.
  - intros (bs & -> & -> & H). cbn [state_of Byte.to_N Z.of_N Z.geb Z.compare
      Pos.compare Pos.compare_cont].
    rewrite mode_write_register. cbn [Z.eqb Pos.eqb].
    destruct H as [-> | ->]; cbn; discriminate.
Qed.

(** X8. Mode 2 is left only on the host's word: a tick started in mode 2
    ends in another mode exactly when the UART holds command 128 with the
    payload "0" or "1". *)
Theorem X8_shutdown_left_by_host_only :
  forall (rt : Py.runtime) (inp : tick_input) (s : BMS),
    mode s = 2 ->
    (mode (state_of (update rt inp s)) <> 2
     <-> exists bs,
           uart_read1 inp = Some x80 /\ uart_read inp = Some bs /\
           (Py.str_of_bytes bs = "0"%string \/ Py.str_of_bytes bs = "1"%string)).
Proof.
  intros rt inp s M.
  rewrite (update_shutdown rt inp s M).
  destruct (power_down_spec s) as (Hm & _). rewrite M in Hm.
  now apply sercom_leaves_shutdown.
Qed.

(* ------------------------------------------------------------------ *)
(** ** What each part of a tick writes *)

Lemma settle_touches (inp : tick_input) (s : BMS) :
  exists tb md bz t f d r o,
    settle inp s =
    set_out o (set_relay r (set_drain d (set_fan f (set_temps t (set_buz bz
      (set_mode md (set_testBalCount tb s))))))).
Proof.
  destruct (settle_step inp s)
    as (tb & md & bz & t & f & d & r & o & E & _).
  now exists tb, md, bz, t, f, d, r, o.
Qed.

Lemma balance_touches (inp : tick_input) (s : BMS) :
  exists c bl g tb md bz t f d r o,
    state_of (balance inp s) =
    set_out o (set_relay r (set_drain d (set_fan f (set_temps t (set_buz bz
      (set_mode md (set_testBalCount tb (set_gpio g (set_balancing bl
        (set_charging c s)))))))))).
Proof.
  unfold balance.
  match goal with |- context [if ?c then _ else _] => destruct c end.
  - cbn [state_of]. unfold abort_balance.
    match goal with |- context [sendIO ?x] =>
      destruct (sendIO_touches x) as (g & o & ->) end.
    exists (charging s), (balancing s), g, (testBalCount s), 0, true,
      (temps s), (fan s), (repeat 0 cellCount), false. eexists. same_state.
  - destruct (decide_charge_touches s) as (c & r & o & ->).
    match goal with |- context [decide_balance ?x] =>
      pose proof (decide_balance_touches x) as D;
      destruct (decide_balance x) as [z | e z]
    end; cbn [state_of] in D |- *;
      destruct D as (bl & tb & d & g & o' & ->).
    + match goal with |- context [settle inp ?x] =>
        destruct (settle_touches inp x)
          as (tb' & md & bz & t & f & d' & r' & o'' & ->) end.
      do 11 eexists. same_state.
    + exists c, bl, g, tb, (mode s), (buz s), (temps s), (fan s), d, r, o'.
      same_state.
Qed.

Lemma act_touches (inp : tick_input) (s : BMS) :
  exists c bl g tb md bz t f d r o,
    state_of (act inp s) =
    set_out o (set_relay r (set_drain d (set_fan f (set_temps t (set_buz bz
      (set_mode md (set_testBalCount tb (set_gpio g (set_balancing bl
        (set_charging c s)))))))))).
Proof.
  assert (I : exists c bl g tb md bz t f d r o,
             s = set_out o (set_relay r (set_drain d (set_fan f (set_temps t
                   (set_buz bz (set_mode md (set_testBalCount tb (set_gpio g
                     (set_balancing bl (set_charging c s))))))))))).
  { exists (charging s), (balancing s), (gpio s), (testBalCount s), (mode s),
      (buz s), (temps s), (fan s), (drain s), (relay s), (out s).
    destruct s; reflexivity. }
  unfold act. destruct (mode s =? 1); [|destruct (mode s =? 2)].
  - destruct (Py.ltb (Py.max (temps s)) (maxTemp s));
      [apply balance_touches | exact I].
  - cbn [state_of]. unfold power_down.
    match goal with |- context [sendIO ?x] =>
      destruct (sendIO_touches x) as (g & o & ->) end.
    exists (charging s), (balancing s), g, (testBalCount s), (mode s), false,
      (temps s), (fan s), (repeat 0 cellCount), false. eexists. same_state.
  - exact I.
Qed.

Lemma write_register_touches (rt : Py.runtime) (command : Z) (data : string)
    (s : BMS) :
  exists md tv mt ft mnv mxv dv bt vb o,
    write_register rt command data s =
    set_out o (set_verbose vb (set_balTime bt (set_dV dv (set_maxVoltage mxv
      (set_minVoltage mnv (set_fanTrigger ft (set_maxTemp mt
        (set_targetVoltage tv (set_mode md s))))))))).
Proof.
  assert (I : forall md vb o,
             exists md' tv mt ft mnv mxv dv bt vb' o',
               set_out o (set_verbose vb (set_mode md s)) =
               set_out o' (set_verbose vb' (set_balTime bt (set_dV dv
                 (set_maxVoltage mxv (set_minVoltage mnv (set_fanTrigger ft
                   (set_maxTemp mt (set_targetVoltage tv
                     (set_mode md' s))))))))))
    by (intros; do 10 eexists; same_state).
  unfold write_register, write_float, write_int.
  repeat match goal with
         | |- context [if ?c then _ else _] => destruct c
         | |- context [match ?x with Some _ => _ | None => _ end] => destruct x
         end;
    try (do 10 eexists; same_state).
  all: exists (mode s), (targetVoltage s), (maxTemp s), (fanTrigger s),
         (minVoltage s), (maxVoltage s), (dV s), (balTime s), (verbose s),
         (out s); destruct s; reflexivity.
Qed.

Lemma sercom_touches (rt : Py.runtime) (inp : tick_input) (s : BMS) :
  exists md tv mt ft mnv mxv dv bt vb o,
    state_of (sercom rt inp s) =
    set_out o (set_verbose vb (set_balTime bt (set_dV dv (set_maxVoltage mxv
      (set_minVoltage mnv (set_fanTrigger ft (set_maxTemp mt
        (set_targetVoltage tv (set_mode md s))))))))).
Proof.
  assert (I : forall o,
             exists md tv mt ft mnv mxv dv bt vb o',
               set_out o s =
               set_out o' (set_verbose vb (set_balTime bt (set_dV dv
                 (set_maxVoltage mxv (set_minVoltage mnv (set_fanTrigger ft
                   (set_maxTemp mt (set_targetVoltage tv
                     (set_mode md s))))))))))
    by (intros; do 10 eexists; same_state).
  assert (J : exists md tv mt ft mnv mxv dv bt vb o',
               s =
               set_out o' (set_verbose vb (set_balTime bt (set_dV dv
                 (set_maxVoltage mxv (set_minVoltage mnv (set_fanTrigger ft
                   (set_maxTemp mt (set_targetVoltage tv
                     (set_mode md s))))))))))
    by (exists (mode s), (targetVoltage s), (maxTemp s), (fanTrigger s),
          (minVoltage s), (maxVoltage s), (dV s), (balTime s), (verbose s),
          (out s); destruct s; reflexivity).
  unfold sercom.
  destruct (uart_read1 inp) as [c|]; [|exact J].
  destruct (Z.of_N (Byte.to_N c) >=? 128).
  - destruct (uart_read inp) as [bs|]; [|exact J].
    apply write_register_touches.
  - cbn [state_of].
    destruct (read_register_touches rt (Z.of_N (Byte.to_N c)) s) as (o & ->).
    apply I.
Qed.

(* ------------------------------------------------------------------ *)
(** ** The voltage-limit scan *)

Lemma limit_scan_from (l : list nat) (s : BMS) :
  fold_left
    (fun s i =>
       if Py.gtb (nth i (cells s) 0%Q) (maxVoltage s) then
         set_mode 2 (console (CellAboveMax i) s)
       else if Py.ltb (nth i (cells s) 0%Q) (minVoltage s) then
         set_mode 2 (console (CellBelowMin i) s)
       else s)
    l s
  = set_out (out s ++ map (limit_alert s) (filter (out_of_band s) l))
      (set_mode (if existsb (out_of_band s) l then 2 else mode s) s).
Proof.
  revert s. induction l as [|i l IH]; intro s.
  - cbn [fold_left filter map existsb]. rewrite app_nil_r.
    destruct s; reflexivity.
  - cbn [fold_left filter existsb]. rewrite IH. clear IH.
    unfold out_of_band, limit_alert.
    destruct (Py.gtb (nth i (cells s) 0%Q) (maxVoltage s)) eqn:G;
      [|destruct (Py.ltb (nth i (cells s) 0%Q) (minVoltage s)) eqn:L];
      cbn [orb map]; fields; try rewrite G; try rewrite L;
      try rewrite <- app_assoc; cbn [app];
      try (destruct (existsb _ l)); same_state.
Qed.

Lemma limit_scan_spec (s : BMS) :
  limit_scan s
  = set_out
      (out s ++ map (limit_alert s) (filter (out_of_band s) (seq 0 cellCount)))
      (set_mode (if existsb (out_of_band s) (seq 0 cellCount) then 2
                 else mode s) s).
Proof. apply limit_scan_from. Qed.

(* ------------------------------------------------------------------ *)
(** ** A tick whose first batch is taken *)

Lemma uart_tx_app (l r : list event) :
  uart_tx (l ++ r) = uart_tx l ++ uart_tx r.
Proof.
  induction l as [|e l IH]; [reflexivity|].
  destruct e; cbn [app uart_tx]; rewrite IH; try reflexivity.
  now rewrite app_assoc.
Qed.

Lemma uart_tx_gpio (f : nat -> Z) (l : list nat) :
  uart_tx (map (fun i => GpioSet i (f i)) l) = [].
Proof. induction l as [|i l IH]; [reflexivity | exact IH]. Qed.

Lemma getCells_shape (cellRead : reading) (s : BMS) :
  length (cells s) = cellCount ->
  exists b cap m r gr,
    getCells cellRead s =
    set_out (out s ++ [DotFill r gr 0]) (set_meanVoltage m (set_capacity cap
      (set_battVoltage b (set_cells (map cellRead cellPos) s)))).
Proof.
  intro L. pose proof (cells_getCells cellRead s L) as C.
  unfold getCells in C |- *. fields_in C. fields. rewrite C.
  do 5 eexists. reflexivity.
Qed.

Lemma measure_first (inp : tick_input) (n k : nat) (s : BMS) :
  length (cells s) = cellCount ->
  mode s <> 1
  \/ exceeds (deltas (map (fetchAll inp k) cellPos) (lastCells s)) = false ->
  measure (S n) k inp s
  = if mode s =? 1 then set_error false (getCells (fetchAll inp k) s)
    else getCells (fetchAll inp k) s.
Proof.
  intros L H. cbn [measure].
  rewrite mode_getCells.
  destruct (mode s =? 1) eqn:M; [|reflexivity].
  rewrite (unstable_getCells _ _ L).
  destruct H as [H | ->]; [|reflexivity].
  apply Z.eqb_eq in M. contradiction.
Qed.




(** The state before the measurement: the expanders written, and in mode 1
    the settling pause. *)
Lemma before_measure_spec (s : BMS) :
  (if mode (sendIO s) =? 1 then sleep 5 (sendIO s) else sendIO s)
  = set_out
      (out s ++ map (fun i => GpioSet i (bank (drain s) i))
                    (seq 0 (length (gpio s)))
             ++ (if mode s =? 1 then [Sleep 5] else []))
      (set_gpio (map (bank (drain s)) (seq 0 (length (gpio s)))) s).
Proof.
  rewrite sendIO_spec. fields.
  destruct (mode s =? 1); [rewrite app_assoc | rewrite app_nil_r]; same_state.
Qed.



(** What is left of the checks at the end of a tick: the control part
    after them and the serial protocol write none of the measurement
    fields, nor the fault latch. *)
Lemma update_after_checks (rt : Py.runtime) (inp : tick_input) (s : BMS) :
  let k := fst (if (mode s =? 0) || (mode s =? 1) then checks inp s
                else (s, false)) in
  let y := state_of (update rt inp s) in
  nvm0 y = nvm0 k /\ error y = error k /\ cells y = cells k /\
  lastCells y = lastCells k /\ battVoltage y = battVoltage k /\
  capacity y = capacity k /\ meanVoltage y = meanVoltage k.
Proof.
  cbv zeta. unfold update, scan.
  assert (T : forall k : BMS,
             let y := state_of (match act inp k with
                                | Normal s0 => sercom rt inp s0
                                | Raises e s0 => Raises e s0
                                end) in
             nvm0 y = nvm0 k /\ error y = error k /\ cells y = cells k /\
             lastCells y = lastCells k /\ battVoltage y = battVoltage k /\
             capacity y = capacity k /\ meanVoltage y = meanVoltage k).
  { intro k. cbv zeta. pose proof (act_touches inp k) as A.
    destruct (act inp k) as [y | e y]; cbn [state_of] in A |- *;
      destruct A as (c & bl & g & tb & md & bz & t & f & d & r & o & ->).
    - match goal with |- context [sercom rt inp ?x] =>
        destruct (sercom_touches rt inp x)
          as (md' & tv & mt & ft & mnv & mxv & dv & bt & vb & o' & ->) end.
      fields. repeat split.
    - fields. repeat split. }
  destruct ((mode s =? 0) || (mode s =? 1)); [|apply T].
  destruct (checks inp s) as [k r]. cbn [fst].
  destruct r; [cbn [state_of]; repeat split|].
  pose proof (getTemps_touches (tmp_value inp 0) (cpu_temperature inp 0) k)
    as G.
  destruct (getTemps (tmp_value inp 0) (cpu_temperature inp 0) k) as [t r].
  cbn [fst] in G. destruct G as (tt & f & b & m & o & ->).
  destruct r; [cbn [state_of]; fields; repeat split|].
  match goal with |- context [act inp ?x] => pose proof (T x) as Tx end.
  cbv zeta in Tx. fields_in Tx. exact Tx.
Qed.

(** The measurement fields and the latch as the checks leave them, in
    terms of the measurement [x] of the tick. *)
Lemma checks_fields (inp : tick_input) (s : BMS) :
  let x := measure 4 0 inp (if mode (sendIO s) =? 1 then sleep 5 (sendIO s)
                            else sendIO s) in
  let k := fst (checks inp s) in
  error k = error x /\ cells k = cells x /\ lastCells k = cells x /\
  nvm0 k = (if error x then 1 else nvm0 x) /\
  battVoltage k = battVoltage x /\ capacity k = capacity x /\
  meanVoltage k = meanVoltage x /\
  (error x = true -> mode k = 2 /\ buz k = true /\ snd (checks inp s) = true).
Proof.
  cbv zeta. unfold checks.
  generalize (measure 4 0 inp (if mode (sendIO s) =? 1 then sleep 5 (sendIO s)
                               else sendIO s)).
  intro x. unfold latch_fault.
  destruct (error x) eqn:E;
    match goal with |- context [limit_scan ?y] =>
      rewrite (limit_scan_spec y);
      generalize (existsb (out_of_band y) (seq 0 cellCount));
      generalize (map (limit_alert y) (filter (out_of_band y)
                                         (seq 0 cellCount)))
    end; intros al e.
  - fields. cbn [Z.eqb Pos.eqb]. fields. rewrite ?E.
    repeat split; intros; reflexivity.
  - fields.
    destruct (mode x =? 2) eqn:M2; destruct e; cbn [Z.eqb Pos.eqb];
      rewrite ?M2; fields; rewrite ?E; repeat split; intros;
      first [reflexivity | discriminate].
Qed.

Lemma measured_frame (inp : tick_input) (s : BMS) :
  let x := measure 4 0 inp (if mode (sendIO s) =? 1 then sleep 5 (sendIO s)
                            else sendIO s) in
  nvm0 x = nvm0 s /\ mode x = mode s /\ lastCells x = lastCells s.
Proof.
  cbv zeta.
  destruct (sendIO_touches s) as (g & o & ->).
  match goal with |- context [measure 4 0 inp ?p] =>
    assert (P : exists o1, p = set_out o1 (set_gpio g s))
      by (fields; destruct (mode s =? 1); eexists; same_state);
    destruct P as (o1 & ->)
  end.
  destruct (measure_touches inp 4 0 (set_out o1 (set_gpio g s)))
    as (c & b & cap & m & e & o2 & ->).
  fields. repeat split.
Qed.

Lemma measured_idle (inp : tick_input) (s : BMS) :
  mode s <> 1 ->
  error (measure 4 0 inp (if mode (sendIO s) =? 1 then sleep 5 (sendIO s)
                          else sendIO s)) = error s.
Proof.
  intro M.
  destruct (sendIO_touches s) as (g & o & ->).
  match goal with |- context [measure 4 0 inp ?p] =>
    assert (P : exists o1, p = set_out o1 (set_gpio g s))
      by (fields; destruct (mode s =? 1); eexists; same_state);
    destruct P as (o1 & ->)
  end.
  cbn [measure]. rewrite mode_getCells. fields.
  destruct (mode s =? 1) eqn:E; [apply Z.eqb_eq in E; contradiction|].
  destruct (getCells_touches (fetchAll inp 0) (set_out o1 (set_gpio g s)))
    as (c & b & cap & m & o2 & ->).
  reflexivity.
Qed.

Lemma update_returned (rt : Py.runtime) (inp : tick_input) (s : BMS) :
  mode s = 0 \/ mode s = 1 ->
  snd (checks inp s) = true ->
  update rt inp s = Normal (fst (checks inp s)).
Proof.
  intros M R. unfold update, scan.
  replace ((mode s =? 0) || (mode s =? 1)) with true
    by (destruct M as [-> | ->]; reflexivity).
  destruct (checks inp s) as [k r]. cbn [snd] in R. subst r. reflexivity.
Qed.

(** X9. In mode 0 the stability of the readings is not tested and the
    [error] flag is not recomputed: a tick latches the fault (non-volatile
    byte 1, mode 2, buzzer on) exactly when the flag was left set by an
    earlier tick, whatever the cells read; with the flag clear it leaves
    the latch alone. *)
Theorem X9_idle_latches_on_stale_flag :
  forall (rt : Py.runtime) (inp : tick_input) (s : BMS),
    mode s = 0 ->
    let s' := state_of (update rt inp s) in
    error s' = error s /\
    nvm0 s' = (if error s then 1 else nvm0 s) /\
    (error s = true ->
     update rt inp s = Normal s' /\ mode s' = 2 /\ buz s' = true).
Proof.
  intros rt inp s M. cbv zeta.
  assert (M1 : mode s <> 1) by (rewrite M; discriminate).
  pose proof (measured_idle inp s M1) as E.
  destruct (measured_frame inp s) as (N & _).
  destruct (checks_fields inp s) as (Ke & _ & _ & Kn & _ & _ & _ & Kt).
  destruct (update_after_checks rt inp s) as (Un & Ue & _).
  revert Un Ue. rewrite M. cbn [Z.eqb orb]. intros Un Ue.
  rewrite E in Ke, Kn, Kt. rewrite N in Kn.
  split; [congruence|]. split; [congruence|].
  intro Et. destruct (Kt Et) as (Km & Kb & Kr).
  rewrite (update_returned rt inp s (or_introl M) Kr). cbn [state_of].
  repeat split; assumption.
Qed.




(* ------------------------------------------------------------------ *)
(** ** The retries of the measurement *)

Lemma measure_recovers (inp : tick_input) (j : nat) :
  forall (n k : nat) (s : BMS),
    mode s = 1 ->
    length (cells s) = cellCount ->
    (forall i, (i < j)%nat ->
       exceeds (deltas (map (fetchAll inp (k + i)) cellPos) (lastCells s))
       = true) ->
    exceeds (deltas (map (fetchAll inp (k + j)) cellPos) (lastCells s))
    = false ->
    exists b cap m o,
      measure (S (j + n)) k inp s
      = set_out o (set_error false (set_meanVoltage m (set_capacity cap
          (set_battVoltage b
            (set_cells (map (fetchAll inp (k + j)) cellPos) s))))).
Proof.
  induction j as [|j IH]; intros n k s M L Hu Hs.
  - rewrite Nat.add_0_r in Hs |- *. cbn [Nat.add].
    rewrite measure_first; [|exact L | now right].
    rewrite M. cbn [Z.eqb Pos.eqb].
    destruct (getCells_shape (fetchAll inp k) s L)
      as (b & cap & m & r & gr & ->).
    do 4 eexists. same_state.
  - cbn [Nat.add].
    rewrite (measure_retry inp (S (j + n)) k s M).
    2:{ rewrite (unstable_getCells _ _ L).
        specialize (Hu 0%nat). rewrite Nat.add_0_r in Hu. apply Hu. lia. }
    pose proof (length_cells_getCells (fetchAll inp k) s) as L1.
    rewrite L in L1.
    destruct (getCells_touches (fetchAll inp k) s)
      as (c1 & b1 & cap1 & m1 & o1 & E1).
    rewrite E1 in L1 |- *.
    match goal with |- context [measure (S (j + n)) (S k) inp ?s1] =>
      destruct (IH n (S k) s1) as (b & cap & m & o & ->)
    end.
    + fields. exact M.
    + fields. fields_in L1. exact L1.
    + intros i Hi. fields.
      replace (S k + i)%nat with (k + S i)%nat by lia. apply Hu. lia.
    + fields. replace (S k + j)%nat with (k + S j)%nat by lia. exact Hs.
    + replace (S k + j)%nat with (k + S j)%nat by lia.
      do 4 eexists. same_state.
Qed.

(** X11. In mode 1 a batch that moved more than 0.05 V against the
    previous snapshot is measured again, up to 4 batches in a tick.  When
    batch [j] is the first stable one, it is the one that is kept as cell
    voltages and as the next snapshot, the error flag ends clear and the
    fault latch is not written. *)
Theorem X11_retry_recovers :
  forall (rt : Py.runtime) (inp : tick_input) (s : BMS) (j : nat),
    mode s = 1 ->
    length (cells s) = cellCount ->
    (j < 4)%nat ->
    (forall k, (k < j)%nat ->
       exceeds (deltas (map (fetchAll inp k) cellPos) (lastCells s)) = true) ->
    exceeds (deltas (map (fetchAll inp j) cellPos) (lastCells s)) = false ->
    let s' := state_of (update rt inp s) in
    error s' = false /\ nvm0 s' = nvm0 s /\
    cells s' = map (fetchAll inp j) cellPos /\
    lastCells s' = map (fetchAll inp j) cellPos.
Proof.
  intros rt inp s j M L Hj Hu Hs. cbv zeta.
  destruct (update_after_checks rt inp s) as (Un & Ue & Uc & Ul & _).
  revert Un Ue Uc Ul. rewrite M. cbn [Z.eqb Pos.eqb orb]. intros Un Ue Uc Ul.
  destruct (checks_fields inp s) as (Ke & Kc & Kl & Kn & _).
  destruct (measured_frame inp s) as (N & _).
  destruct (before_measure s) as (Pm & Pc & Pl).
  cbv zeta in Pm, Pc, Pl.
  revert Ke Kc Kl Kn N Pm Pc Pl.
  generalize (if mode (sendIO s) =? 1 then sleep 5 (sendIO s) else sendIO s).
  intros p Ke Kc Kl Kn N Pm Pc Pl.
  destruct (measure_recovers inp j (3 - j) 0 p) as (b & cap & m & o & E).
  - congruence.
  - congruence.
  - intros i Hi. rewrite Pl. apply Hu. exact Hi.
  - rewrite Pl. exact Hs.
  - replace (S (j + (3 - j))) with 4%nat in E by lia.
    rewrite E in Ke, Kc, Kl, Kn, N. fields_in Ke. fields_in Kc.
    fields_in Kl. fields_in Kn. fields_in N.
    cbn [Nat.add] in Kc, Kl. repeat split; congruence.
Qed.

(* ------------------------------------------------------------------ *)
(** ** The power path *)

(** The checks write neither the relay nor the drain plan, and when they
    let the tick go on the mode is the one the tick started in. *)
Lemma checks_power (inp : tick_input) (s : BMS) :
  let k := fst (checks inp s) in
  relay k = relay s /\ drain k = drain s /\ maxTemp k = maxTemp s /\
  charging k = charging s /\ balancing k = balancing s /\
  (snd (checks inp s) = false -> mode k = mode s).
Proof.
  cbv zeta.
  destruct (measured_frame inp s) as (_ & Mx & _). revert Mx.
  destruct (sendIO_touches s) as (g & o & E). unfold checks. rewrite E.
  match goal with |- context [measure 4 0 inp ?p] =>
    assert (P : exists o1, p = set_out o1 (set_gpio g s))
      by (fields; destruct (mode s =? 1); eexists; same_state);
    destruct P as (o1 & ->)
  end.
  destruct (measure_touches inp 4 0 (set_out o1 (set_gpio g s)))
    as (c & b & cap & m & e & o2 & ->).
  intros _.
  match goal with |- context [latch_fault ?x] =>
    destruct (latch_fault_step x) as (bz & v & md & o3 & -> & _ & Hmd) end.
  match goal with |- context [limit_scan ?x] =>
    destruct (limit_scan_step x) as (md' & o4 & -> & Hmd') end.
  fields_in Hmd. fields_in Hmd'. fields.
  destruct (md =? 2) eqn:E2; [|destruct (md' =? 2) eqn:E2']; cbn [fst snd];
    fields; repeat split; try discriminate.
  intros _. apply Z.eqb_neq in E2, E2'.
  destruct Hmd' as [-> | ->]; [|contradiction].
  destruct Hmd as [-> | ->]; [reflexivity | contradiction].
Qed.

Lemma scan_power (inp : tick_input) (s : BMS) :
  let k := fst (scan inp s) in
  relay k = relay s /\ drain k = drain s /\ maxTemp k = maxTemp s /\
  charging k = charging s /\ balancing k = balancing s /\
  (snd (scan inp s) = false ->
   mode k = mode s /\
   temps k = read_temps (tmp_value inp 0) (cpu_temperature inp 0)).
Proof.
  cbv zeta. unfold scan.
  pose proof (checks_power inp s) as C. cbv zeta in C.
  destruct (checks inp s) as [k r]. cbn [fst snd] in C.
  destruct C as (Cr & Cd & Ct & Cc & Cb & Cm).
  destruct r; [cbn [fst snd]; repeat split; try assumption; discriminate|].
  specialize (Cm eq_refl).
  unfold getTemps. fields.
  destruct (Py.gtb (Py.max (read_temps (tmp_value inp 0)
                               (cpu_temperature inp 0))) (fanTrigger k));
    fields;
    destruct (Py.gtb (Py.max (read_temps (tmp_value inp 0)
                                 (cpu_temperature inp 0))) (maxTemp k + 20)%Q);
    fields; repeat split; try assumption; try discriminate.
Qed.

Lemma gpio_scan (inp : tick_input) (s : BMS) :
  gpio (fst (scan inp s)) = map (bank (drain s)) (seq 0 (length (gpio s))).
Proof.
  unfold scan.
  assert (C : gpio (fst (checks inp s))
              = map (bank (drain s)) (seq 0 (length (gpio s)))).
  { unfold checks. rewrite before_measure_spec.
    generalize (map (bank (drain s)) (seq 0 (length (gpio s)))). intro g.
    match goal with |- context [measure 4 0 inp ?p] =>
      destruct (measure_touches inp 4 0 p)
        as (c & b & cap & m & e & o2 & ->)
    end.
    match goal with |- context [latch_fault ?x] =>
      destruct (latch_fault_step x) as (bz & v & md & o3 & -> & _) end.
    match goal with |- context [limit_scan ?x] =>
      destruct (limit_scan_step x) as (md' & o4 & -> & _) end.
    fields. destruct (md =? 2); [|destruct (md' =? 2)]; reflexivity. }
  destruct (checks inp s) as [k r]. cbn [fst] in C.
  destruct r; [exact C|].
  destruct (getTemps_touches (tmp_value inp 0) (cpu_temperature inp 0) k)
    as (t & f & b & m & o & ->).
  exact C.
Qed.

(** X12. [balance] is entered only in mode 1 with cool sensors.  A tick
    started in mode 0, or in mode 1 with the temperatures of the tick not
    below [maxTemp], leaves the charge relay, the drain plan and the
    charging and balancing flags as they were.  Its only write to the
    power path is the [sendIO] that opens the tick: each expander is set
    to the byte of the stored plan. *)
Theorem X12_balance_not_entered :
  forall (rt : Py.runtime) (inp : tick_input) (s : BMS),
    mode s = 0
    \/ (mode s = 1
        /\ (maxTemp s <= Py.max (read_temps (tmp_value inp 0)
                                   (cpu_temperature inp 0)))%Q) ->
    let s' := state_of (update rt inp s) in
    relay s' = relay s /\ drain s' = drain s /\
    charging s' = charging s /\ balancing s' = balancing s /\
    gpio s' = map (bank (drain s)) (seq 0 (length (gpio s))).
Proof.
  intros rt inp s H. cbv zeta. unfold update.
  replace ((mode s =? 0) || (mode s =? 1)) with true
    by (destruct H as [-> | (-> & _)]; reflexivity).
  pose proof (scan_power inp s) as C. cbv zeta in C.
  pose proof (gpio_scan inp s) as G.
  destruct (scan inp s) as [k r]. cbn [fst snd] in C, G.
  destruct C as (Cr & Cd & Ct & Cc & Cb & Cm).
  destruct r; [cbn [state_of]; tauto|].
  destruct (Cm eq_refl) as (Km & Kt).
  assert (A : act inp k = Normal k).
  { unfold act. rewrite Km, Kt, Ct.
    destruct H as [-> | (-> & Hot)]; [reflexivity|].
    cbn [Z.eqb Pos.eqb]. apply ltb_ge in Hot. now rewrite Hot. }
  rewrite A.
  destruct (sercom_touches rt inp k)
    as (md & tv & mt & ft & mnv & mxv & dv & bt & vb & o & ->).
  fields. tauto.
Qed.

(* ------------------------------------------------------------------ *)
(** ** More of the serial protocol *)

(** X13. The only exception a tick lets escape is the TypeError of line
    326: it needs a write command (128 or above) on the UART with nothing
    behind it in the receive buffer, so that [uart.read()] gives [None]. *)
Theorem X13_only_exception_is_empty_write :
  forall (rt : Py.runtime) (inp : tick_input) (s x : BMS) (e : exn),
    update rt inp s = Raises e x ->
    e = TypeError /\ uart_read inp = None /\
    exists c, uart_read1 inp = Some c /\ 128 <= Z.of_N (Byte.to_N c).
Proof.
  intros rt inp s x e H.
  destruct (update_shape rt inp s) as (y & _ & [E | E]); rewrite E in H;
    [discriminate|].
  unfold sercom in H.
  destruct (uart_read1 inp) as [c|]; [|discriminate].
  destruct (Z.of_N (Byte.to_N c) >=? 128) eqn:G; [|discriminate].
  destruct (uart_read inp); [discriminate|].
  injection H as <- _. split; [reflexivity|]. split; [reflexivity|].
  exists c. split; [reflexivity|]. apply Z.geb_le in G. lia.
Qed.

(** X14. A command byte the protocol does not know (not 1..6 and not
    128..136) changes nothing and sends nothing.  An unknown read byte is
    dropped whatever the receive buffer holds; an unknown write byte is
    dropped with its payload when there is one, and with an empty buffer
    ([uart.read()] is [None]) it raises the TypeError of line 326, as every
    write byte does. *)
Theorem X14_unknown_command :
  forall (rt : Py.runtime) (inp : tick_input) (s : BMS) (c : byte)
         (payload : option (list byte)),
    ~ known_command (Z.of_N (Byte.to_N c)) ->
    let o := sercom rt (host_sends c payload inp) s in
    o = (if 128 <=? Z.of_N (Byte.to_N c) then
           match payload with
           | Some _ => Normal s
           | None => Raises TypeError s
           end
         else Normal s) /\
    state_of o = s /\
    uart_tx (added s (state_of o)) = [].
Proof.
  intros rt inp s c payload H o.
  assert (E : o = (if 128 <=? Z.of_N (Byte.to_N c) then
                     match payload with
                     | Some _ => Normal s
                     | None => Raises TypeError s
                     end
                   else Normal s)).
  { subst o. unfold known_command in H.
    unfold sercom, host_sends. cbn [uart_read1 uart_read].
    pose proof (N2Z.is_nonneg (Byte.to_N c)) as P.
    revert H P. generalize (Z.of_N (Byte.to_N c)). intros v H P.
    unfold write_register, read_register. rewrite Z.geb_leb.
    destruct (128 <=? v) eqn:G;
      [apply Z.leb_le in G | apply Z.leb_gt in G].
    - destruct payload as [bs|]; [|reflexivity].
      repeat match goal with
             | |- context [?a =? ?b] =>
                 destruct (Z.eqb_spec a b); [exfalso; lia|]
             end.
      reflexivity.
    - repeat match goal with
             | |- context [v =? ?b] =>
                 destruct (Z.eqb_spec v b); [exfalso; lia|]
             end.
      reflexivity. }
  assert (S0 : state_of o = s)
    by (rewrite E; destruct (128 <=? _); [destruct payload|]; reflexivity).
  split; [exact E|]. split; [exact S0|].
  rewrite S0. now rewrite added_same.
Qed.

Lemma str_of_bytes_empty (bs : list byte) :
  Py.bool_of_str (Py.str_of_bytes bs) = negb (match bs with [] => true
                                                    | _ => false end).
Proof. destruct bs; reflexivity. Qed.

(** X15. Register 136 stores [bool(data)] of the payload text: every
    payload of at least one byte, "0" and "False" included, switches
    [verbose] on.  With nothing behind the command byte ([uart.read()] is
    [None]) line 326 raises TypeError and [verbose] stays as it was.  The
    assignment stores [False] only for a payload of no byte at all, a
    zero-length [bytes] object. *)
Theorem X15_verbose_register :
  forall (rt : Py.runtime) (inp : tick_input) (s : BMS)
         (payload : option (list byte)),
    let o := sercom rt (host_sends x88 payload inp) s in
    o = match payload with
        | None => Raises TypeError s
        | Some [] => Normal (set_verbose false s)
        | Some (_ :: _) => Normal (set_verbose true s)
        end /\
    (forall b bs, payload = Some (b :: bs) -> verbose (state_of o) = true) /\
    (payload = None -> verbose (state_of o) = verbose s) /\
    uart_tx (added s (state_of o)) = [].
Proof.
  intros rt inp s payload. cbv zeta.
  assert (E : sercom rt (host_sends x88 payload inp) s
              = match payload with
                | None => Raises TypeError s
                | Some [] => Normal (set_verbose false s)
                | Some (_ :: _) => Normal (set_verbose true s)
                end).
  { unfold sercom, host_sends. cbn [uart_read1 uart_read].
    change (Z.of_N (Byte.to_N x88)) with 136.
    unfold write_register. cbn [Z.geb Z.compare Pos.compare Pos.compare_cont
      Z.eqb Pos.eqb].
    destruct payload as [bs|]; [|reflexivity].
    rewrite str_of_bytes_empty. destruct bs; reflexivity. }
  rewrite E. split; [reflexivity|]. split; [|split].
  - intros b bs ->. reflexivity.
  - intros ->. reflexivity.
  - destruct payload as [[|b bs]|]; cbn [state_of]; now rewrite added_same.
Qed.

Lemma send_lines_out (rt : Py.runtime) (width : Z) (l : list Q) (s : BMS) :
  exists evs,
    fold_left (send_float_line rt width) l s = set_out (out s ++ evs) s
    /\ uart_tx evs = flat_map (line rt width) l.
Proof.
  revert s. induction l as [|x l IH]; intro s.
  - exists []. split; [|reflexivity]. cbn [fold_left]. rewrite app_nil_r.
    destruct s; reflexivity.
  - cbn [fold_left flat_map].
    destruct (IH (send_float_line rt width s x)) as (evs & -> & U).
    exists ([UartWrite (Py.bytes_of_str (Py.str_float rt x));
             UartWrite (Py.bytes_of_str
                          (Py.zeros (width - Py.len (Py.str_float rt x)))
                        ++ [x0a])] ++ evs).
    split.
    + unfold send_float_line. fields. rewrite <- !app_assoc. same_state.
    + rewrite uart_tx_app, U. cbn [uart_tx]. rewrite app_nil_r.
      unfold line. now rewrite <- !app_assoc.
Qed.

Lemma length_line (rt : Py.runtime) (width : Z) (x : Q) :
  Z.of_nat (length (line rt width x))
  = Z.max width (Py.len (Py.str_float rt x)) + 1.
Proof.
  unfold line. rewrite !length_app, !length_bytes_of_str, length_zeros.
  cbn [length]. unfold Py.len. lia.
Qed.

Lemma length_flat_map_const {A B : Type} (f : A -> list B) (n : nat)
    (l : list A) :
  (forall x, In x l -> length (f x) = n) ->
  length (flat_map f l) = (n * length l)%nat.
Proof.
  induction l as [|a l IH]; intro H; [cbn; lia|].
  cbn [flat_map length]. rewrite length_app, IH, (H a).
  - lia.
  - now left.
  - intros x Hx. apply H. now right.
Qed.

(** X16. The list registers.  Command 4 answers one line per cell and
    command 5 one line per temperature: the text of the value, padded with
    "0" to 7 (5 for a temperature) characters, and a newline.  When every
    value prints in at most 7 (5) characters the answers are 8 bytes per
    cell and 6 bytes per temperature: 160 and 30 bytes for 20 cells and 5
    temperatures.  The temperatures are those of a [getTemps] call: before
    the first one the list holds the integers of [__init__], which print
    as "0". *)
Theorem X16_list_registers :
  forall (rt : Py.runtime) (s : BMS) (values : list Z) (cpu : Q),
    temps s = read_temps values cpu ->
    (forall x, In x (cells s) -> Py.len (Py.str_float rt x) <= 7) ->
    (forall t, In t (temps s) -> Py.len (Py.str_float rt t) <= 5) ->
    response rt 4 s = flat_map (line rt 7) (cells s) /\
    response rt 5 s = flat_map (line rt 5) (read_temps values cpu) /\
    length (response rt 4 s) = (8 * length (cells s))%nat /\
    length (response rt 5 s) = (6 * (length values + 1))%nat.
Proof.
  intros rt s values cpu Hm Hc Ht.
  assert (R4 : response rt 4 s = flat_map (line rt 7) (cells s)).
  { unfold response, read_register. cbn [Z.eqb Pos.eqb].
    destruct (send_lines_out rt 7 (cells s) s) as (evs & -> & U).
    now rewrite (added_app s evs). }
  assert (R5 : response rt 5 s = flat_map (line rt 5) (temps s)).
  { unfold response, read_register. cbn [Z.eqb Pos.eqb].
    destruct (send_lines_out rt 5 (temps s) s) as (evs & -> & U).
    now rewrite (added_app s evs). }
  assert (L : length (temps s) = (length values + 1)%nat).
  { rewrite Hm. unfold read_temps.
    rewrite !length_map, length_app, length_map. reflexivity. }
  rewrite R4, R5. split; [reflexivity|]. split; [now rewrite Hm|]. split.
  - apply length_flat_map_const. intros x Hx.
    pose proof (length_line rt 7 x) as P. specialize (Hc x Hx). lia.
  - rewrite <- L. apply length_flat_map_const. intros x Hx.
    pose proof (length_line rt 5 x) as P. specialize (Ht x Hx). lia.
Qed.

(* ------------------------------------------------------------------ *)
(** ** Capacity and the pack LED *)

Lemma round_mono (x y : Q) : (x <= y)%Q -> Py.round x <= Py.round y.
Proof.
  intro H. unfold Py.round.
  pose proof (Qfloor_resp_le x y H) as F.
  pose proof (Qfloor_le x) as Lx. pose proof (Qlt_floor x) as Ux.
  pose proof (Qfloor_le y) as Ly. pose proof (Qlt_floor y) as Uy.
  destruct (Z.eq_dec (Qfloor x) (Qfloor y)) as [E | N].
  - rewrite <- E in *.
    destruct (x - inject_Z (Qfloor x) ?= 1 # 2)%Q eqn:Cx;
      destruct (y - inject_Z (Qfloor x) ?= 1 # 2)%Q eqn:Cy;
      try (destruct (Z.even (Qfloor x))); try lia;
      exfalso;
      rewrite <- ?Qeq_alt, <- ?Qlt_alt, <- ?Qgt_alt in Cx;
      rewrite <- ?Qeq_alt, <- ?Qlt_alt, <- ?Qgt_alt in Cy;
      lra.
  - assert (Qfloor x + 1 <= Qfloor y) by lia.
    destruct (x - inject_Z (Qfloor x) ?= 1 # 2)%Q;
      destruct (y - inject_Z (Qfloor y) ?= 1 # 2)%Q;
      try (destruct (Z.even (Qfloor x))); try (destruct (Z.even (Qfloor y)));
      lia.
Qed.

Lemma capacity_getCells (cellRead : reading) (s : BMS) :
  capacity (getCells cellRead s)
  = Z.min (Z.max (Py.round ((100 / (84 - 68))
                            * (battVoltage (getCells cellRead s) - 68))%Q) 0)
      100.
Proof. reflexivity. Qed.

Lemma scale_mono (a b : Q) :
  (a <= b)%Q ->
  ((100 / (84 - 68)) * (a - 68) <= (100 / (84 - 68)) * (b - 68))%Q.
Proof.
  intro H. apply Qmult_le_l; [reflexivity|]. lra.
Qed.

(** X17. The capacity estimate grows with the pack voltage and saturates:
    a higher total never gives a lower capacity, 84 V and above give 100,
    68 V and below give 0. *)
Theorem X17_capacity_monotone :
  forall (rd rd' : reading) (s s' : BMS),
    let a := getCells rd s in
    let b := getCells rd' s' in
    (battVoltage a <= battVoltage b)%Q ->
    capacity a <= capacity b /\
    ((84 <= battVoltage b)%Q -> capacity b = 100) /\
    ((battVoltage a <= 68)%Q -> capacity a = 0).
Proof.
  intros rd rd' s s'. cbv zeta. intro H.
  rewrite !capacity_getCells.
  revert H. generalize (battVoltage (getCells rd s)).
  generalize (battVoltage (getCells rd' s')). intros vb va H.
  pose proof (round_mono _ _ (scale_mono va vb H)) as M.
  split; [lia|]. split; intro B.
  - pose proof (round_mono _ _ (scale_mono 84 vb B)) as T.
    change (Py.round ((100 / (84 - 68)) * (84 - 68))%Q) with 100 in T. lia.
  - pose proof (round_mono _ _ (scale_mono va 68 B)) as T.
    change (Py.round ((100 / (84 - 68)) * (68 - 68))%Q) with 0 in T. lia.
Qed.

Lemma colour_range :
  forallb
    (fun n =>
       let cap := Z.of_nat n in
       let r := Py.int_of_float ((-255 / 100) * inject_Z cap + 255)%Q in
       let g := Py.int_of_float ((255 / 100) * inject_Z cap)%Q in
       (0 <=? r) && (r <=? 255) && (0 <=? g) && (g <=? 255)
       && (254 <=? r + g) && (r + g <=? 255))
    (seq 0 101) = true.
Proof. vm_compute. reflexivity. Qed.

(** X18. The pack LED.  Each measurement sets the dot once, to the colour
    [(r, g, 0)] computed from the capacity; both components stay within
    0..255 and add up to 254 or 255, from red [(255, 0, 0)] at capacity 0
    to green at capacity 100, where the red component is 0 and the green
    one 254 or 255 (255 in exact arithmetic; 254 where the float product
    [(255/100)*100] falls just below 255, as it does in IEEE doubles). *)
Theorem X18_pack_led_colour :
  forall (rd : reading) (s : BMS),
    let s' := getCells rd s in
    exists r g,
      added s s' = [DotFill r g 0] /\
      0 <= r <= 255 /\ 0 <= g <= 255 /\ 254 <= r + g <= 255 /\
      (capacity s' = 0 -> r = 255 /\ g = 0) /\
      (capacity s' = 100 -> r = 0 /\ 254 <= g <= 255).
Proof.
  intros rd s. cbv zeta.
  pose proof (capacity_getCells rd s) as C.
  assert (B : 0 <= capacity (getCells rd s) <= 100) by (rewrite C; lia).
  clear C.
  exists (Py.int_of_float ((-255 / 100)
                           * inject_Z (capacity (getCells rd s)) + 255)%Q),
    (Py.int_of_float ((255 / 100) * inject_Z (capacity (getCells rd s)))%Q).
  split; [apply added_app; reflexivity|].
  revert B. generalize (capacity (getCells rd s)). intros cap B.
  pose proof colour_range as R. rewrite forallb_forall in R.
  specialize (R (Z.to_nat cap)).
  rewrite in_seq, Z2Nat.id in R by lia. cbv zeta in R.
  assert (I : (0 <= Z.to_nat cap < 0 + 101)%nat) by lia.
  specialize (R I).
  rewrite !andb_true_iff, !Z.leb_le in R.
  split; [lia|]. split; [lia|]. split; [lia|].
  split; intros ->; split; first [reflexivity | vm_compute; intuition discriminate].
Qed.

(* ------------------------------------------------------------------ *)
(** ** The balance window *)

Lemma target_in_band_spec (s : BMS) :
  target_in_band s <->
  Py.ltb (targetVoltage s) (minVoltage s)
  || Py.gtb (targetVoltage s) (maxVoltage s) = false.
Proof.
  unfold target_in_band. rewrite orb_false_iff, ltb_ge, gtb_le. tauto.
Qed.

Lemma wants_charge_spec (s : BMS) :
  wants_charge s <->
  (Py.ltb (minCell s) (minVoltage s)
   || Py.ltb (meanVoltage s) (targetVoltage s - dV s / 2)%Q)
  && Py.ltb (maxCell s) (maxVoltage s - (5 # 100))%Q = true.
Proof.
  unfold wants_charge. rewrite andb_true_iff, orb_true_iff, !ltb_lt. tauto.
Qed.

Lemma wants_balance_spec (s : BMS) :
  wants_balance s <->
  (Py.gtb (maxCell s - minCell s) (dV s)
   || Py.gtb (meanVoltage s) (targetVoltage s + dV s / 2)%Q)
  && Py.gtb (minCell s) (minVoltage s) = true.
Proof.
  unfold wants_balance. rewrite andb_true_iff, orb_true_iff, !gtb_gt. tauto.
Qed.

Lemma getTemps_shape (values : list Z) (cpu : Q) (s : BMS) :
  exists f b m evs,
    fst (getTemps values cpu s) =
    set_out (out s ++ evs) (set_mode m (set_buz b (set_fan f
      (set_temps (read_temps values cpu) s))))
    /\ (m = mode s /\ b = buz s \/ m = 2 /\ b = true).
Proof.
  unfold getTemps. fields.
  destruct (Py.gtb (Py.max (read_temps values cpu)) (fanTrigger s));
    unfold fan_value, emit; fields;
    destruct (Py.gtb (Py.max (read_temps values cpu)) (maxTemp s + 20)%Q);
    cbn [fst]; unfold buz_value, console, emit; fields.
  - exists true, true, 2, [FanSet true; Console ThermalShutdown; BuzSet true].
    split; [rewrite <- !app_assoc; same_state | now right].
  - exists true, (buz s), (mode s), [FanSet true].
    split; [same_state | now left].
  - exists false, true, 2, [FanSet false; Console ThermalShutdown; BuzSet true].
    split; [rewrite <- !app_assoc; same_state | now right].
  - exists false, (buz s), (mode s), [FanSet false].
    split; [same_state | now left].
Qed.

Lemma monitor_shape (inp : tick_input) (n k : nat) (s : BMS) :
  exists t f b m evs,
    monitor n k inp s =
    set_out (out s ++ evs) (set_mode m (set_buz b (set_fan f (set_temps t s))))
    /\ (m = mode s /\ b = buz s \/ m = 2 /\ b = true)
    /\ uart_tx evs = [] /\ ~ In (RelaySet true) evs.
Proof.
  revert k s. induction n as [|n IH]; intros k s.
  - exists (temps s), (fan s), (buz s), (mode s), [].
    split; [rewrite app_nil_r; destruct s; reflexivity|].
    split; [now left|]. split; [reflexivity | intros []].
  - cbn [monitor].
    destruct (getTemps_shape (tmp_value inp k) (cpu_temperature inp k) s)
      as (f & b & m & evs & E & Hm).
    assert (Q1 : uart_tx evs = [] /\ ~ In (RelaySet true) evs).
    { pose proof (f_equal out E) as O. revert O.
      unfold getTemps. fields.
      destruct (Py.gtb _ (fanTrigger s)); unfold fan_value, emit; fields;
        destruct (Py.gtb _ (maxTemp s + 20)%Q); cbn [fst]; fields;
        rewrite <- ?app_assoc; intro O; apply app_inv_head in O; subst evs;
        (split; [reflexivity|]); cbn [app In]; intuition discriminate. }
    destruct Q1 as (U1 & R1).
    rewrite E. clear E. fields.
    destruct (Py.gtb (Py.max (read_temps (tmp_value inp k)
                                 (cpu_temperature inp k))) (maxTemp s)).
    + exists (read_temps (tmp_value inp k) (cpu_temperature inp k)), f, b, m,
        evs. repeat split; assumption.
    + match goal with |- context [monitor n (S k) inp ?x] =>
        destruct (IH (S k) x) as (t' & f' & b' & m' & evs' & -> & Hm' & U2 & R2)
      end.
      fields_in Hm'.
      exists t', f', b', m', (evs ++ [Sleep 8] ++ evs').
      split; [fields; rewrite <- !app_assoc; same_state|].
      split; [intuition congruence|]. split.
      * rewrite !uart_tx_app, U1, U2. reflexivity.
      * intro H. apply in_app_or in H. destruct H as [H | H]; [tauto|].
        apply in_app_or in H. destruct H as [[H | []] | H];
          [discriminate | tauto].
Qed.

Lemma decide_balance_shape (s : BMS) :
  exists bl tb d g evs,
    state_of (decide_balance s) =
    set_out (out s ++ evs) (set_gpio g (set_drain d (set_testBalCount tb
      (set_balancing bl s))))
    /\ (uart_tx evs = [] /\ Forall pin_write evs)
    /\ ~ In (RelaySet true) evs
    /\ (wants_balance s ->
        bl = true /\ tb = 0 /\
        forall t, choose_target s = Some t ->
                  d = drain (select_cells t s)
                  /\ g = map (bank d) (seq 0 (length (gpio s))))
    /\ (~ wants_balance s ->
        bl = false /\ tb = testBalCount s /\ d = drain s /\ g = gpio s).
Proof.
  assert (G : forall (f : nat -> Z) (l : list nat),
             ~ In (RelaySet true) (map (fun i => GpioSet i (f i)) l)).
  { intros f l H. apply in_map_iff in H. destruct H as (i & H & _).
    discriminate. }
  assert (P : forall (f : nat -> Z) (l : list nat),
             Forall pin_write (map (fun i => GpioSet i (f i)) l)).
  { intros f l. apply Forall_forall. intros e H. apply in_map_iff in H.
    destruct H as (i & <- & _). exact I. }
  pose proof (wants_balance_spec s) as W.
  unfold decide_balance.
  match goal with |- context [if ?c then _ else _] => destruct c end.
  - assert (W1 : wants_balance s) by now apply W.
    cbv zeta.
    destruct (choose_target (set_testBalCount 0 (set_balancing true s)))
      as [target|] eqn:CT; cbn [state_of];
      change (choose_target s = Some target) in CT
      || change (choose_target s = None) in CT.
    + rewrite sendIO_spec.
      pose proof (select_cells_drain_flags target s) as F.
      match goal with |- context [select_cells ?t ?x] =>
        destruct (select_cells_touches t x) as (d & E) end.
      rewrite E in F |- *. fields_in F. fields.
      exists true, 0, d. do 2 eexists. split; [same_state|].
      split; [split; [apply uart_tx_gpio | apply P]|]. split; [apply G|].
      split; [|tauto]. intros _. split; [reflexivity|]. split; [reflexivity|].
      intros t Ht. rewrite CT in Ht. injection Ht as <-.
      split; [exact F | reflexivity].
    + exists true, 0, (drain s), (gpio s), [].
      split; [rewrite app_nil_r; destruct s; reflexivity|].
      split; [split; [reflexivity | constructor]|]. split; [intros []|].
      split; [|tauto]. intros _. split; [reflexivity|]. split; [reflexivity|].
      intros t Ht. rewrite CT in Ht. discriminate.
  - assert (W0 : ~ wants_balance s) by (intro H; apply W in H; discriminate).
    cbn [state_of].
    exists false, (testBalCount s), (drain s), (gpio s), [].
    split; [rewrite app_nil_r; destruct s; reflexivity|].
    split; [split; [reflexivity | constructor]|]. split; [intros []|]. tauto.
Qed.

Lemma decide_balance_raises (s y : BMS) (e : exn) :
  decide_balance s = Raises e y -> e = UnboundLocalError.
Proof.
  unfold decide_balance.
  match goal with |- context [if ?c then _ else _] => destruct c end;
    [|discriminate].
  cbv zeta. destruct (choose_target _); [discriminate|].
  intro H. injection H as <- _. reflexivity.
Qed.

Lemma settle_window (inp : tick_input) (s : BMS) :
  balancing s = true \/ charging s = true ->
  settle inp s
  = relay_value false
      (set_drain (repeat 0 cellCount)
         (monitor (Z.to_nat (balTime s / 8)) 1 inp s)).
Proof.
  intro H. unfold settle.
  destruct (balancing s); [reflexivity|].
  destruct (charging s); [reflexivity|].
  destruct H; discriminate.
Qed.

Lemma decide_charge_shape (s : BMS) :
  exists c r e1,
    decide_charge s = set_out (out s ++ e1) (set_relay r (set_charging c s))
    /\ (wants_charge s -> c = true /\ r = true /\ e1 = [RelaySet true])
    /\ (~ wants_charge s -> c = false /\ r = relay s /\ e1 = []).
Proof.
  pose proof (wants_charge_spec s) as WC.
  unfold decide_charge.
  match goal with |- context [if ?c then _ else _] => destruct c end.
  - exists true, true, [RelaySet true]. split; [same_state|].
    split; [tauto|]. intro N. exfalso. apply N, WC. reflexivity.
  - exists false, (relay s), []. split.
    + rewrite app_nil_r. destruct s; reflexivity.
    + split; [|tauto]. intro W. apply WC in W. discriminate.
Qed.

Lemma select_cells_frame (t : Q) (s : BMS) (o : list event) (r c : bool) :
  drain (select_cells t (set_out o (set_relay r (set_charging c s))))
  = drain (select_cells t s).
Proof. rewrite !select_cells_drain. reflexivity. Qed.

(** [balance] with the target in the band and the extremes in order: the
    decisions end normally, and the call ends with the last part run on
    the state they leave. *)
Lemma balance_decided (inp : tick_input) (s : BMS) :
  target_in_band s ->
  (minCell s <= maxCell s)%Q ->
  exists c r bl tb d g evs,
    balance inp s
    = Normal (settle inp
                (set_out (out s ++ evs) (set_gpio g (set_drain d
                   (set_testBalCount tb (set_balancing bl (set_relay r
                      (set_charging c s))))))))
    /\ (uart_tx evs = [] /\ Forall pin_write evs)
    /\ (wants_charge s ->
        c = true /\ r = true /\
        exists evs', evs = RelaySet true :: evs' /\ ~ In (RelaySet true) evs')
    /\ (~ wants_charge s -> c = false /\ r = relay s /\ ~ In (RelaySet true) evs)
    /\ (wants_balance s ->
        bl = true /\ tb = 0 /\
        forall t, choose_target s = Some t ->
                  d = drain (select_cells t s)
                  /\ g = map (bank d) (seq 0 (length (gpio s))))
    /\ (~ wants_balance s ->
        bl = false /\ tb = testBalCount s /\ d = drain s /\ g = gpio s).
Proof.
  intros B Hle. apply target_in_band_spec in B.
  unfold balance. rewrite B.
  pose proof (decide_balance_bound s) as NB.
  destruct (decide_charge_shape s) as (c & r & e1 & DC & C1 & C0).
  rewrite DC in NB |- *.
  match goal with |- context [decide_balance ?y] =>
    assert (WB : wants_balance y <-> wants_balance s)
      by (unfold wants_balance; fields; reflexivity);
    pose proof (decide_balance_shape y) as D;
    pose proof (decide_balance_raises y) as DR
  end.
  destruct (decide_balance _) as [x | e x].
  - cbn [state_of] in D.
    destruct D as (bl & tb & d & g & evs & -> & (U & P) & R & W1 & W0).
    rewrite WB in W1, W0. clear WB.
    exists c, r, bl, tb, d, g, (e1 ++ evs).
    split; [f_equal; f_equal; fields; rewrite <- app_assoc; same_state|].
    split.
    { rewrite uart_tx_app, U.
      assert (E : e1 = [RelaySet true] \/ e1 = []).
      { pose proof (wants_charge_spec s) as WC.
        destruct ((Py.ltb (minCell s) (minVoltage s)
                   || Py.ltb (meanVoltage s) (targetVoltage s - dV s / 2)%Q)
                  && Py.ltb (maxCell s) (maxVoltage s - (5 # 100))%Q).
        - left. apply C1, WC. reflexivity.
        - right. apply C0. intro H. apply WC in H. discriminate. }
      destruct E as [-> | ->];
        (split; [reflexivity|]); [constructor; [exact I | exact P] | exact P]. }
    split.
    { intro W. destruct (C1 W) as (-> & -> & ->).
      split; [reflexivity|]. split; [reflexivity|].
      exists evs. split; [reflexivity | exact R]. }
    split.
    { intro W. destruct (C0 W) as (-> & -> & ->).
      split; [reflexivity|]. split; [reflexivity | exact R]. }
    split; [|fields_in W0; tauto].
    intro W. destruct (W1 W) as (-> & -> & T).
    split; [reflexivity|]. split; [reflexivity|].
    intros t Ht. specialize (T t Ht). rewrite select_cells_frame in T.
    fields_in T. exact T.
  - exfalso. apply (NB x Hle). now rewrite (DR x e eq_refl).
Qed.

(** With a charge or a balance decision the call ends with the window:
    the temperature watch, then the plan cleared and the relay opened. *)
Lemma balance_window (inp : tick_input) (s : BMS) :
  target_in_band s ->
  (minCell s <= maxCell s)%Q ->
  wants_charge s \/ wants_balance s ->
  exists c r bl tb d g evs,
    let x :=
      set_out (out s ++ evs) (set_gpio g (set_drain d
        (set_testBalCount tb (set_balancing bl (set_relay r
          (set_charging c s)))))) in
    balance inp s
    = Normal (relay_value false
                (set_drain (repeat 0 cellCount)
                   (monitor (Z.to_nat (balTime s / 8)) 1 inp x)))
    /\ (uart_tx evs = [] /\ Forall pin_write evs)
    /\ (wants_charge s ->
        c = true /\ r = true /\
        exists evs', evs = RelaySet true :: evs' /\ ~ In (RelaySet true) evs')
    /\ (~ wants_charge s -> c = false /\ r = relay s /\ ~ In (RelaySet true) evs)
    /\ (wants_balance s ->
        bl = true /\ tb = 0 /\
        forall t, choose_target s = Some t ->
                  d = drain (select_cells t s)
                  /\ g = map (bank d) (seq 0 (length (gpio s))))
    /\ (~ wants_balance s ->
        bl = false /\ tb = testBalCount s /\ d = drain s /\ g = gpio s).
Proof.
  intros B Hle W.
  destruct (balance_decided inp s B Hle)
    as (c & r & bl & tb & d & g & evs & E & U & C1 & C0 & B1 & B0).
  exists c, r, bl, tb, d, g, evs. cbv zeta.
  split; [|tauto].
  rewrite E. f_equal. rewrite settle_window; [reflexivity|].
  fields. destruct W as [W | W]; [right | left]; tauto.
Qed.

(** X19. Charging lasts for the window of one [balance] call.  With the
    target in the band and the charge condition of line 167 true, the call
    closes the relay first and opens it again before it returns, with the
    drain plan cleared; nothing is sent on the UART, and a pass that does
    not balance leaves the confirmation counter alone. *)
Theorem X19_charging_window :
  forall (inp : tick_input) (s : BMS),
    target_in_band s ->
    (minCell s <= maxCell s)%Q ->
    wants_charge s ->
    exists s',
      balance inp s = Normal s' /\
      charging s' = true /\ relay s' = false /\
      drain s' = repeat 0 cellCount /\
      uart_tx (added s s') = [] /\
      (exists evs, added s s' = RelaySet true :: evs ++ [RelaySet false]
                   /\ ~ In (RelaySet true) evs) /\
      (~ wants_balance s -> testBalCount s' = testBalCount s).
Proof.
  intros inp s B Hle W.
  destruct (balance_window inp s B Hle (or_introl W))
    as (c & r & bl & tb & d & g & evs & E & (U & _) & C1 & _ & _ & B0).
  cbv zeta in E. destruct (C1 W) as (-> & -> & evs' & -> & R).
  rewrite E. clear E. eexists. split; [reflexivity|].
  match goal with |- context [monitor ?n 1 inp ?x] =>
    destruct (monitor_shape inp n 1 x)
      as (t & f & b & m & evs2 & -> & _ & U2 & R2)
  end.
  fields.
  assert (A : forall y : BMS,
             out y = ((out s ++ RelaySet true :: evs') ++ evs2)
                     ++ [RelaySet false] ->
             added s y = RelaySet true :: (evs' ++ evs2) ++ [RelaySet false]).
  { intros y H. apply added_app. rewrite H, <- !app_assoc. reflexivity. }
  match goal with |- context [added s ?y] =>
    rewrite !(A y eq_refl) end.
  split; [reflexivity|]. split; [reflexivity|]. split; [reflexivity|].
  split.
  { cbn [uart_tx] in U |- *. rewrite !uart_tx_app, U, U2. reflexivity. }
  split.
  { exists (evs' ++ evs2). split; [reflexivity|].
    intro H. apply in_app_or in H. tauto. }
  intro N. now destruct (B0 N) as (_ & -> & _).
Qed.

(** X20. The discharge pattern outlives the call that chose it.  With the
    target in the band and the balance condition of line 176 true,
    [balance] writes the selected plan to the expanders, and on return the
    plan in [drain] is cleared while the expanders still hold the
    selection: the cells keep draining until the [sendIO] of the next tick
    writes zeros. *)
Theorem X20_expanders_keep_selection :
  forall (inp : tick_input) (s : BMS),
    target_in_band s ->
    (minCell s <= maxCell s)%Q ->
    wants_balance s ->
    exists t s',
      choose_target s = Some t /\
      balance inp s = Normal s' /\
      balancing s' = true /\ testBalCount s' = 0 /\
      relay s' = false /\
      drain s' = repeat 0 cellCount /\
      gpio s' = map (bank (drain (select_cells t s))) (seq 0 (length (gpio s))) /\
      gpio (sendIO s') = repeat 0 (length (gpio s)).
Proof.
  intros inp s B Hle W.
  destruct (choose_target s) as [t|] eqn:CT.
  2:{ exfalso. apply (choose_target_bound s Hle); [|exact CT].
      apply wants_balance_spec in W. apply andb_true_iff in W. tauto. }
  destruct (balance_window inp s B Hle (or_intror W))
    as (c & r & bl & tb & d & g & evs & E & _ & _ & _ & B1 & _).
  cbv zeta in E. destruct (B1 W) as (-> & -> & T).
  destruct (T t CT) as (-> & ->).
  exists t. rewrite E. clear E. eexists.
  split; [reflexivity|]. split; [reflexivity|].
  rewrite sendIO_spec.
  match goal with |- context [monitor ?n 1 inp ?x] =>
    destruct (monitor_shape inp n 1 x)
      as (t' & f & b & m & evs2 & -> & _)
  end.
  fields. rewrite bank_zeros_map, length_map, length_seq.
  repeat split; reflexivity.
Qed.

Lemma no_window (b : Z) : b < 8 -> Z.to_nat (b / 8) = 0%nat.
Proof.
  intro H. assert (b / 8 <= 0); [|lia].
  apply Z.lt_succ_r. apply Z.div_lt_upper_bound; lia.
Qed.

(** X21. [balTime] counts whole periods of 8 seconds: with [balTime]
    below 8 (zero and negative values included) the window is empty.  The
    relay closed by a charge decision is opened again at once, no
    temperature is read and no time is spent in the call. *)
Theorem X21_short_balTime_empty_window :
  forall (inp : tick_input) (s : BMS),
    target_in_band s ->
    (minCell s <= maxCell s)%Q ->
    wants_charge s \/ wants_balance s ->
    balTime s < 8 ->
    exists s',
      balance inp s = Normal s' /\
      relay s' = false /\ drain s' = repeat 0 cellCount /\
      temps s' = temps s /\ fan s' = fan s /\ mode s' = mode s /\
      buz s' = buz s /\
      Forall pin_write (added s s').
Proof.
  intros inp s B Hle W T.
  destruct (balance_window inp s B Hle W)
    as (c & r & bl & tb & d & g & evs & E & (_ & P) & _).
  cbv zeta in E. rewrite (no_window _ T) in E. cbn [monitor] in E.
  rewrite E. clear E. eexists. split; [reflexivity|]. fields.
  repeat split; try reflexivity.
  rewrite (added_app s (evs ++ [RelaySet false])) by (now rewrite app_assoc).
  apply Forall_app. split; [exact P|]. constructor; [exact I | constructor].
Qed.

Lemma getTemps_spec (values : list Z) (cpu : Q) (s : BMS) :
  let r := read_temps values cpu in
  let trip := Py.gtb (Py.max r) (maxTemp s + 20)%Q in
  exists f evs,
    fst (getTemps values cpu s) =
    set_out (out s ++ evs)
      (set_mode (if trip then 2 else mode s)
         (set_buz (if trip then true else buz s)
            (set_fan f (set_temps r s))))
    /\ (forall secs, ~ In (Sleep secs) evs)
    /\ ~ In (RelaySet true) evs.
Proof.
  cbv zeta. unfold getTemps. fields.
  destruct (Py.gtb (Py.max (read_temps values cpu)) (fanTrigger s));
    unfold fan_value, emit; fields;
    destruct (Py.gtb (Py.max (read_temps values cpu)) (maxTemp s + 20)%Q);
    cbn [fst]; unfold buz_value, console, emit; fields.
  - exists true, [FanSet true; Console ThermalShutdown; BuzSet true].
    split; [rewrite <- !app_assoc; same_state|].
    split; [intros secs H|intro H]; cbn [In] in H; intuition discriminate.
  - exists true, [FanSet true].
    split; [same_state|].
    split; [intros secs H|intro H]; cbn [In] in H; intuition discriminate.
  - exists false, [FanSet false; Console ThermalShutdown; BuzSet true].
    split; [rewrite <- !app_assoc; same_state|].
    split; [intros secs H|intro H]; cbn [In] in H; intuition discriminate.
  - exists false, [FanSet false].
    split; [same_state|].
    split; [intros secs H|intro H]; cbn [In] in H; intuition discriminate.
Qed.

Lemma some_window (b : Z) : 8 <= b -> exists n, Z.to_nat (b / 8) = S n.
Proof.
  intro H. assert (1 <= b / 8) by (apply Z.div_le_lower_bound; lia).
  exists (Z.to_nat (b / 8) - 1)%nat. lia.
Qed.

Lemma temps_getTemps (values : list Z) (cpu : Q) (s : BMS) :
  temps (fst (getTemps values cpu s)) = read_temps values cpu
  /\ maxTemp (fst (getTemps values cpu s)) = maxTemp s.
Proof.
  destruct (getTemps_shape values cpu s) as (f & b & m & evs & -> & _).
  split; reflexivity.
Qed.

Lemma monitor_hot (inp : tick_input) (n k : nat) (s : BMS) :
  (maxTemp s
   < Py.max (read_temps (tmp_value inp k) (cpu_temperature inp k)))%Q ->
  monitor (S n) k inp s
  = fst (getTemps (tmp_value inp k) (cpu_temperature inp k) s).
Proof.
  intro H. cbn [monitor]. cbv zeta.
  destruct (temps_getTemps (tmp_value inp k) (cpu_temperature inp k) s)
    as (-> & ->).
  apply gtb_gt in H. rewrite H. reflexivity.
Qed.

(** X22. The temperature watch of the window.  When the first reading
    taken in the window is above [maxTemp], the window ends at once: no
    time is spent, the plan is cleared and the relay opened.  The mode is
    left alone unless the reading is also above [maxTemp + 20], which is
    the thermal shutdown (mode 2, buzzer on). *)
Theorem X22_window_stops_when_hot :
  forall (inp : tick_input) (s : BMS),
    target_in_band s ->
    (minCell s <= maxCell s)%Q ->
    wants_charge s \/ wants_balance s ->
    8 <= balTime s ->
    let r := read_temps (tmp_value inp 1) (cpu_temperature inp 1) in
    (maxTemp s < Py.max r)%Q ->
    exists s',
      balance inp s = Normal s' /\
      temps s' = r /\ relay s' = false /\ drain s' = repeat 0 cellCount /\
      (forall secs, ~ In (Sleep secs) (added s s')) /\
      ((maxTemp s + 20 < Py.max r)%Q -> mode s' = 2 /\ buz s' = true) /\
      ((Py.max r <= maxTemp s + 20)%Q -> mode s' = mode s /\ buz s' = buz s).
Proof.
  intros inp s B Hle W T r Hot. subst r.
  destruct (balance_window inp s B Hle W)
    as (c & rl & bl & tb & d & g & evs & E & (_ & P) & _).
  cbv zeta in E. destruct (some_window _ T) as (n & N).
  rewrite N in E. rewrite monitor_hot in E by exact Hot.
  match type of E with context [getTemps ?v ?c ?x] =>
    destruct (getTemps_spec v c x) as (f & evs2 & G & S2 & _)
  end.
  cbv zeta in G. rewrite G in E. clear G.
  rewrite E. clear E. eexists. split; [reflexivity|]. fields.
  split; [reflexivity|]. split; [reflexivity|]. split; [reflexivity|].
  split.
  { intros secs H.
    rewrite (added_app s (evs ++ evs2 ++ [RelaySet false])) in H
      by (now rewrite !app_assoc).
    apply in_app_or in H. destruct H as [H | H].
    - rewrite Forall_forall in P. apply P in H. exact H.
    - apply in_app_or in H. destruct H as [H | [H | []]];
        [now apply (S2 secs) | discriminate]. }
  split; intro H.
  - apply gtb_gt in H. rewrite H. split; reflexivity.
  - apply gtb_le in H. rewrite H. split; reflexivity.
Qed.

(** X23. The confirmation count.  With the target in the band and neither
    the charge nor the balance condition true, [balance] switches nothing:
    below a count of 4 it adds one to [testBalCount] and waits 8 seconds;
    at 4 and above it beeps twice, resets the count and stores mode 0. *)
Theorem X23_confirmation_count :
  forall (inp : tick_input) (s : BMS),
    target_in_band s ->
    ~ wants_charge s ->
    ~ wants_balance s ->
    exists s',
      balance inp s = Normal s' /\
      relay s' = relay s /\ drain s' = drain s /\ gpio s' = gpio s /\
      temps s' = temps s /\
      (testBalCount s < 4 ->
       testBalCount s' = testBalCount s + 1 /\ mode s' = mode s /\
       buz s' = buz s /\ added s s' = [Sleep 8]) /\
      (4 <= testBalCount s ->
       testBalCount s' = 0 /\ mode s' = 0 /\ buz s' = false /\
       added s s' = [BuzSet true; Sleep (1 # 10); BuzSet false; Sleep (1 # 10);
                     BuzSet true; Sleep (1 # 10); BuzSet false; Sleep (1 # 10)]).
Proof.
  intros inp s B NC NB. apply target_in_band_spec in B.
  unfold balance. rewrite B.
  destruct (decide_charge_shape s) as (c & r & e1 & DC & _ & C0).
  destruct (C0 NC) as (-> & -> & ->). rewrite DC. clear DC C0.
  rewrite app_nil_r.
  assert (D : decide_balance (set_out (out s) (set_relay (relay s)
                                (set_charging false s)))
              = Normal (set_balancing false (set_charging false s))).
  { unfold decide_balance.
    match goal with |- context [if ?c then _ else _] =>
      destruct c eqn:E end.
    - exfalso. apply NB. apply wants_balance_spec. exact E.
    - f_equal; same_state. }
  rewrite D. clear D. eexists. split; [reflexivity|].
  unfold settle. fields. cbn [negb andb].
  destruct (testBalCount s <? 4) eqn:T;
    [apply Z.ltb_lt in T | apply Z.ltb_ge in T].
  - fields. repeat split; try reflexivity; try lia.
    now apply added_app.
  - cbn [seq fold_left]. fields. repeat split; try reflexivity; try lia.
    apply added_app. fields. rewrite <- !app_assoc. reflexivity.
Qed.

(* ------------------------------------------------------------------ *)
(** ** Between two ticks *)

(** X24. Between two ticks the drain plan holds no flag, so the first
    thing a tick does in modes 0 and 1, [sendIO], switches every discharge
    resistor off: it writes 0 to each expander. *)
Theorem X24_tick_starts_with_resistors_off :
  forall (rt : Py.runtime) (s : BMS),
    reachable rt s ->
    quiet_drain s /\
    gpio (sendIO s) = repeat 0 (length (gpio s)) /\
    added s (sendIO s) = map (fun i => GpioSet i 0) (seq 0 (length (gpio s))).
Proof.
  intros rt s R. pose proof (reachable_quiet rt s R) as Q.
  split; [exact Q|]. rewrite sendIO_spec. fields.
  assert (B : forall i, bank (drain s) i = 0) by (intro i; now apply bank_zero).
  split.
  - rewrite (map_const_repeat _ 0), length_seq; [reflexivity | exact B].
  - rewrite (added_app s (map (fun i => GpioSet i (bank (drain s) i))
                            (seq 0 (length (gpio s))))) by reflexivity.
    apply map_ext. intro i. now rewrite B.
Qed.

(* ------------------------------------------------------------------ *)
(** ** The constructor *)

Lemma setitem_zeros (n i : nat) : Py.setitem (repeat 0 n) i 0 = repeat 0 n.
Proof.
  revert i. induction n as [|n IH]; intro i; [reflexivity|].
  destruct i; cbn [repeat Py.setitem]; [reflexivity | now rewrite IH].
Qed.

Lemma init_mcp_spec (n : nat) (l : list nat) (s : BMS) :
  gpio s = repeat 0 n ->
  fold_left (fun s i => gpio_value i 0 (emit (IodirSet i 0) s)) l s
  = set_out (out s ++ flat_map (fun i => [IodirSet i 0; GpioSet i 0]) l) s.
Proof.
  revert s. induction l as [|i l IH]; intros s G.
  - cbn [fold_left flat_map]. rewrite app_nil_r. destruct s; reflexivity.
  - cbn [fold_left flat_map]. rewrite IH.
    + unfold gpio_value, emit. fields.
      rewrite G, setitem_zeros, <- G, <- !app_assoc. cbn [app].
      destruct s; reflexivity.
    + unfold gpio_value, emit. fields. rewrite G. apply setitem_zeros.
Qed.

(** X25. The constructor.  It wakes and calibrates the ADCs, sets every
    expander to output with all pins low, sends the byte 127 on the UART,
    reports and clears a latched fault, and takes the first measurement,
    in this order; the snapshot it leaves is that measurement.  It does not
    drive the buzzer, the relay or the fan: they stay as they were handed
    in. *)
Theorem X25_constructor :
  forall (n_mcp n_tmp : nat) (buz0 relay0 fan0 : bool) (nvm : Z)
         (rd : reading),
    let s := init n_mcp n_tmp buz0 relay0 fan0 nvm rd in
    mode s = 0 /\ error s = false /\
    cells s = map rd cellPos /\ lastCells s = map rd cellPos /\
    gpio s = repeat 0 n_mcp /\
    buz s = buz0 /\ relay s = relay0 /\ fan s = fan0 /\
    uart_tx (out s) = [x7f] /\
    exists r g,
      out s = [Adc wakeupAll; Adc (wregAll 2 [64; 3]); Adc selfOffsetAll]
              ++ flat_map (fun i => [IodirSet i 0; GpioSet i 0]) (seq 0 n_mcp)
              ++ [UartWrite [x7f]]
              ++ (if nvm =? 1 then [Console PreviousFault; NvmSet 0] else [])
              ++ [DotFill r g 0].
Proof.
  intros n_mcp n_tmp buz0 relay0 fan0 nvm rd. cbv zeta. unfold init.
  cbv zeta.
  rewrite (init_mcp_spec n_mcp).
  2:{ fields. exact eq_refl. }
  match goal with |- context [getCells rd ?x] =>
    assert (L : length (cells x) = cellCount)
      by (fields; destruct (nvm =? 1); apply repeat_length);
    destruct (getCells_shape rd x L) as (b & cap & m & r & g & ->)
  end.
  assert (F : forall l, uart_tx (flat_map (fun i => [IodirSet i 0; GpioSet i 0]) l)
                        = []).
  { induction l as [|i l IH]; [reflexivity | exact IH]. }
  fields.
  destruct (nvm =? 1); fields; rewrite <- ?app_assoc; cbn [app];
    rewrite ?uart_tx_app, ?F; cbn [uart_tx app];
    repeat split; try reflexivity;
    first [ exists r, g; reflexivity
          | rewrite uart_tx_app, F; reflexivity ].
Qed.

(* ------------------------------------------------------------------ *)
(** ** The further properties at concrete inputs *)

Lemma X5_parameters_change_only_by_write_witness :
  let tick := Example.quiet (Example.flat 4) 30 in
  let s := Example.boot 0 (Example.flat 4) in
  no_write tick /\
  config (state_of (update Example.runtime tick s)) = config s.
Proof.
  cbv zeta.
  assert (H : no_write (Example.quiet (Example.flat 4) 30)) by exact I.
  split; [exact H|].
  exact (X5_parameters_change_only_by_write Example.runtime
           (Example.quiet (Example.flat 4) 30)
           (Example.boot 0 (Example.flat 4)) H).
Defined.

Lemma X6_mode_is_0_1_2_witness :
  let s := started Example.one_low in
  reachable Example.runtime s /\ (mode s = 0 \/ mode s = 1 \/ mode s = 2).
Proof.
  cbv zeta.
  assert (R : reachable Example.runtime (started Example.one_low))
    by (apply reach_update, reach_init).
  split; [exact R|].
  exact (X6_mode_is_0_1_2 Example.runtime (started Example.one_low) R).
Defined.

Lemma X7_shutdown_tick_witness :
  let tick := Example.quiet (Example.flat 4) 30 in
  mode halted = 2 /\ uart_read1 tick = None /\
  exists s',
    update Example.runtime tick halted = Normal s' /\
    mode s' = 2 /\ buz s' = false /\ relay s' = false /\
    gpio s' = [0; 0; 0].
Proof.
  cbv zeta.
  assert (M : mode halted = 2) by (vm_compute; reflexivity).
  assert (U : uart_read1 (Example.quiet (Example.flat 4) 30) = None)
    by reflexivity.
  split; [exact M|]. split; [exact U|].
  destruct (X7_shutdown_tick Example.runtime
              (Example.quiet (Example.flat 4) 30) halted M U)
    as (s' & E & Hm & Hb & Hr & _ & Hg & _).
  exists s'. split; [exact E|]. split; [exact Hm|]. split; [exact Hb|].
  split; [exact Hr|]. rewrite Hg. vm_compute. reflexivity.
Defined.

Lemma X8_shutdown_left_by_host_only_witness :
  let tick := host_sends x80 (Some [x30]) (Example.quiet (Example.flat 4) 30) in
  mode halted = 2 /\
  mode (state_of (update Example.runtime tick halted)) <> 2.
Proof.
  cbv zeta.
  assert (M : mode halted = 2) by (vm_compute; reflexivity).
  split; [exact M|].
  apply (proj2 (X8_shutdown_left_by_host_only Example.runtime
                  (host_sends x80 (Some [x30])
                     (Example.quiet (Example.flat 4) 30)) halted M)).
  exists [x30]. split; [reflexivity|]. split; [reflexivity|]. left.
  reflexivity.
Defined.

Lemma X9_idle_latches_on_stale_flag_witness :
  let tick := Example.quiet (Example.flat 4) 30 in
  let s' := state_of (update Example.runtime tick rearmed) in
  mode rearmed = 0 /\ error rearmed = true /\
  nvm0 s' = 1 /\ mode s' = 2 /\ buz s' = true.
Proof.
  cbv zeta.
  assert (M : mode rearmed = 0) by (vm_compute; reflexivity).
  assert (E : error rearmed = true) by (vm_compute; reflexivity).
  split; [exact M|]. split; [exact E|].
  pose proof (X9_idle_latches_on_stale_flag Example.runtime
                (Example.quiet (Example.flat 4) 30) rearmed M) as P.
  cbv zeta in P. destruct P as (_ & N & T).
  rewrite E in N. destruct (T E) as (_ & Hm & Hb).
  split; [exact N|]. split; [exact Hm | exact Hb].
Defined.


Lemma X11_retry_recovers_witness :
  let s := started (Example.flat 4) in
  let s' := state_of (update Example.runtime jitter s) in
  mode s = 1 /\
  length (cells s) = cellCount /\
  exceeds (deltas (map (fetchAll jitter 0) cellPos) (lastCells s)) = true /\
  exceeds (deltas (map (fetchAll jitter 1) cellPos) (lastCells s)) = false /\
  error s' = false /\ nvm0 s' = nvm0 s /\
  cells s' = map (fetchAll jitter 1) cellPos.
Proof.
  cbv zeta.
  assert (M : mode (started (Example.flat 4)) = 1) by (vm_compute; reflexivity).
  assert (L : length (cells (started (Example.flat 4))) = cellCount)
    by (vm_compute; reflexivity).
  assert (U : exceeds (deltas (map (fetchAll jitter 0) cellPos)
                         (lastCells (started (Example.flat 4)))) = true)
    by (vm_compute; reflexivity).
  assert (S1 : exceeds (deltas (map (fetchAll jitter 1) cellPos)
                          (lastCells (started (Example.flat 4)))) = false)
    by (vm_compute; reflexivity).
  assert (J : (1 < 4)%nat) by lia.
  assert (Uk : forall k, (k < 1)%nat ->
             exceeds (deltas (map (fetchAll jitter k) cellPos)
                        (lastCells (started (Example.flat 4)))) = true).
  { intros k Hk. assert (K : k = 0%nat) by lia. rewrite K. exact U. }
  split; [exact M|]. split; [exact L|]. split; [exact U|]. split; [exact S1|].
  pose proof (X11_retry_recovers Example.runtime jitter
                (started (Example.flat 4)) 1%nat M L J Uk S1) as P.
  cbv zeta in P. destruct P as (He & Hn & Hc & _).
  split; [exact He|]. split; [exact Hn | exact Hc].
Defined.

Lemma X12_balance_not_entered_witness :
  let tick := host_sends x80 (Some [x31]) (Example.quiet Example.one_low 30) in
  let s := Example.boot 0 Example.one_low in
  let s' := state_of (update Example.runtime tick s) in
  mode s = 0 /\ relay s' = relay s /\ drain s' = drain s.
Proof.
  cbv zeta.
  assert (M : mode (Example.boot 0 Example.one_low) = 0)
    by (vm_compute; reflexivity).
  split; [exact M|].
  pose proof (X12_balance_not_entered Example.runtime
                (host_sends x80 (Some [x31])
                   (Example.quiet Example.one_low 30))
                (Example.boot 0 Example.one_low) (or_introl M)) as P.
  cbv zeta in P. destruct P as (Hr & Hd & _).
  split; [exact Hr | exact Hd].
Defined.

Lemma X13_only_exception_is_empty_write_witness :
  let tick := host_sends x85 None (Example.quiet (Example.flat 4) 30) in
  let s := Example.boot 0 (Example.flat 4) in
  update Example.runtime tick s
  = Raises TypeError (state_of (update Example.runtime tick s)) /\
  uart_read tick = None /\
  exists c, uart_read1 tick = Some c /\ 128 <= Z.of_N (Byte.to_N c).
Proof.
  cbv zeta.
  assert (E : update Example.runtime
                (host_sends x85 None (Example.quiet (Example.flat 4) 30))
                (Example.boot 0 (Example.flat 4))
              = Raises TypeError
                  (state_of (update Example.runtime
                               (host_sends x85 None
                                  (Example.quiet (Example.flat 4) 30))
                               (Example.boot 0 (Example.flat 4)))))
    by (vm_compute; reflexivity).
  split; [exact E|].
  destruct (X13_only_exception_is_empty_write Example.runtime _ _ _ _ E)
    as (_ & U & C).
  split; [exact U | exact C].
Defined.

Lemma X14_unknown_command_witness :
  let tick := Example.quiet (Example.flat 4) 30 in
  let s := Example.boot 0 (Example.flat 4) in
  ~ known_command (Z.of_N (Byte.to_N x89)) /\
  sercom Example.runtime (host_sends x89 (Some [x31]) tick) s = Normal s /\
  sercom Example.runtime (host_sends x89 None tick) s = Raises TypeError s.
Proof.
  cbv zeta.
  assert (H : ~ known_command (Z.of_N (Byte.to_N x89)))
    by (unfold known_command; cbn; lia).
  split; [exact H|].
  pose proof (X14_unknown_command Example.runtime
                (Example.quiet (Example.flat 4) 30)
                (Example.boot 0 (Example.flat 4)) x89 (Some [x31]) H) as P.
  pose proof (X14_unknown_command Example.runtime
                (Example.quiet (Example.flat 4) 30)
                (Example.boot 0 (Example.flat 4)) x89 None H) as Q0.
  cbv zeta in P, Q0.
  split; [exact (proj1 P) | exact (proj1 Q0)].
Defined.

Lemma X16_list_registers_witness :
  let s := started (Example.flat 4) in
  temps s = read_temps [10000; 10000; 10000; 10000] 30 /\
  (forall x, In x (cells s) -> Py.len (Py.str_float Example.runtime x) <= 7) /\
  (forall t, In t (temps s) -> Py.len (Py.str_float Example.runtime t) <= 5) /\
  length (response Example.runtime 4 s) = 160%nat /\
  length (response Example.runtime 5 s) = 30%nat.
Proof.
  cbv zeta.
  assert (M : temps (started (Example.flat 4))
              = read_temps [10000; 10000; 10000; 10000] 30)
    by (vm_compute; reflexivity).
  assert (C : cells (started (Example.flat 4)) = repeat 4%Q 20)
    by (vm_compute; reflexivity).
  assert (Hc : forall x, In x (cells (started (Example.flat 4))) ->
                         Py.len (Py.str_float Example.runtime x) <= 7).
  { intros x Hx. rewrite C in Hx. apply repeat_spec in Hx. rewrite Hx.
    vm_compute. discriminate. }
  assert (Ht : forall t, In t (temps (started (Example.flat 4))) ->
                         Py.len (Py.str_float Example.runtime t) <= 5).
  { intros t Hx. rewrite M in Hx. vm_compute in Hx.
    repeat (destruct Hx as [<- | Hx]; [vm_compute; discriminate|]).
    destruct Hx. }
  split; [exact M|]. split; [exact Hc|]. split; [exact Ht|].
  destruct (X16_list_registers Example.runtime (started (Example.flat 4))
              [10000; 10000; 10000; 10000] 30 M Hc Ht) as (_ & _ & L4 & L5).
  rewrite L4, L5, C. split; reflexivity.
Defined.

Lemma X17_capacity_monotone_witness :
  let s := Example.boot 0 (Example.flat 4) in
  let a := getCells (Example.flat (36 # 10)) s in
  let b := getCells (Example.flat (42 # 10)) s in
  (battVoltage a <= battVoltage b)%Q /\
  capacity a <= capacity b /\ capacity b = 100.
Proof.
  cbv zeta.
  assert (H : (battVoltage (getCells (Example.flat (36 # 10))
                              (Example.boot 0 (Example.flat 4)))
               <= battVoltage (getCells (Example.flat (42 # 10))
                                 (Example.boot 0 (Example.flat 4))))%Q)
    by (vm_compute; discriminate).
  split; [exact H|].
  pose proof (X17_capacity_monotone (Example.flat (36 # 10))
                (Example.flat (42 # 10)) (Example.boot 0 (Example.flat 4))
                (Example.boot 0 (Example.flat 4)) H) as P.
  cbv zeta in P. destruct P as (M & T & _).
  split; [exact M|]. apply T. vm_compute. discriminate.
Defined.

Lemma X19_charging_window_witness :
  let rd := Example.flat (36 # 10) in
  let s := at_balance rd in
  target_in_band s /\ (minCell s <= maxCell s)%Q /\ wants_charge s /\
  exists s',
    balance (Example.quiet rd 30) s = Normal s' /\
    charging s' = true /\ relay s' = false.
Proof.
  cbv zeta.
  assert (B : target_in_band (at_balance (Example.flat (36 # 10))))
    by (apply target_in_band_spec; vm_compute; reflexivity).
  assert (Hle : (minCell (at_balance (Example.flat (36 # 10)))
                 <= maxCell (at_balance (Example.flat (36 # 10))))%Q)
    by (vm_compute; discriminate).
  assert (W : wants_charge (at_balance (Example.flat (36 # 10))))
    by (apply wants_charge_spec; vm_compute; reflexivity).
  split; [exact B|]. split; [exact Hle|]. split; [exact W|].
  destruct (X19_charging_window
              (Example.quiet (Example.flat (36 # 10)) 30) _ B Hle W)
    as (s' & E & Hc & Hr & _).
  exists s'. split; [exact E|]. split; [exact Hc | exact Hr].
Defined.

Lemma X20_expanders_keep_selection_witness :
  let s := at_balance Example.one_low in
  target_in_band s /\ (minCell s <= maxCell s)%Q /\ wants_balance s /\
  exists t s',
    choose_target s = Some t /\
    balance (Example.quiet Example.one_low 30) s = Normal s' /\
    drain s' = repeat 0 cellCount /\
    gpio s' = map (bank (drain (select_cells t s))) (seq 0 (length (gpio s))).
Proof.
  cbv zeta.
  assert (B : target_in_band (at_balance Example.one_low))
    by (apply target_in_band_spec; vm_compute; reflexivity).
  assert (Hle : (minCell (at_balance Example.one_low)
                 <= maxCell (at_balance Example.one_low))%Q)
    by (vm_compute; discriminate).
  assert (W : wants_balance (at_balance Example.one_low))
    by (apply wants_balance_spec; vm_compute; reflexivity).
  split; [exact B|]. split; [exact Hle|]. split; [exact W|].
  destruct (X20_expanders_keep_selection
              (Example.quiet Example.one_low 30) _ B Hle W)
    as (t & s' & Ct & E & _ & _ & _ & Hd & Hg & _).
  exists t, s'. split; [exact Ct|]. split; [exact E|].
  split; [exact Hd | exact Hg].
Defined.

Lemma X21_short_balTime_empty_window_witness :
  let rd := Example.flat (36 # 10) in
  let s := set_balTime 7 (at_balance rd) in
  target_in_band s /\ (minCell s <= maxCell s)%Q /\ wants_charge s /\
  balTime s < 8 /\
  exists s',
    balance (Example.quiet rd 30) s = Normal s' /\
    relay s' = false /\ temps s' = temps s /\
    Forall pin_write (added s s').
Proof.
  cbv zeta.
  assert (B : target_in_band
                (set_balTime 7 (at_balance (Example.flat (36 # 10)))))
    by (apply target_in_band_spec; vm_compute; reflexivity).
  assert (Hle : (minCell (set_balTime 7 (at_balance (Example.flat (36 # 10))))
                 <= maxCell (set_balTime 7
                               (at_balance (Example.flat (36 # 10)))))%Q)
    by (vm_compute; discriminate).
  assert (W : wants_charge
                (set_balTime 7 (at_balance (Example.flat (36 # 10)))))
    by (apply wants_charge_spec; vm_compute; reflexivity).
  assert (T : balTime (set_balTime 7 (at_balance (Example.flat (36 # 10)))) < 8)
    by (vm_compute; reflexivity).
  split; [exact B|]. split; [exact Hle|]. split; [exact W|]. split; [exact T|].
  destruct (X21_short_balTime_empty_window
              (Example.quiet (Example.flat (36 # 10)) 30) _ B Hle
              (or_introl W) T)
    as (s' & E & Hr & _ & Ht & _ & _ & _ & P).
  exists s'. split; [exact E|]. split; [exact Hr|]. split; [exact Ht | exact P].
Defined.

Lemma X22_window_stops_when_hot_witness :
  let rd := Example.flat (36 # 10) in
  let s := at_balance rd in
  let tick := Example.quiet rd 90 in
  target_in_band s /\ (minCell s <= maxCell s)%Q /\ wants_charge s /\
  8 <= balTime s /\
  (maxTemp s
   < Py.max (read_temps (tmp_value tick 1) (cpu_temperature tick 1)))%Q /\
  exists s',
    balance tick s = Normal s' /\
    relay s' = false /\ mode s' = mode s.
Proof.
  cbv zeta.
  assert (B : target_in_band (at_balance (Example.flat (36 # 10))))
    by (apply target_in_band_spec; vm_compute; reflexivity).
  assert (Hle : (minCell (at_balance (Example.flat (36 # 10)))
                 <= maxCell (at_balance (Example.flat (36 # 10))))%Q)
    by (vm_compute; discriminate).
  assert (W : wants_charge (at_balance (Example.flat (36 # 10))))
    by (apply wants_charge_spec; vm_compute; reflexivity).
  assert (T : 8 <= balTime (at_balance (Example.flat (36 # 10))))
    by (vm_compute; discriminate).
  assert (Hot : (maxTemp (at_balance (Example.flat (36 # 10)))
                 < Py.max (read_temps
                             (tmp_value (Example.quiet (Example.flat (36 # 10)) 90) 1)
                             (cpu_temperature
                                (Example.quiet (Example.flat (36 # 10)) 90) 1)))%Q)
    by (vm_compute; reflexivity).
  split; [exact B|]. split; [exact Hle|]. split; [exact W|]. split; [exact T|].
  split; [exact Hot|].
  pose proof (X22_window_stops_when_hot
                (Example.quiet (Example.flat (36 # 10)) 90) _ B Hle
                (or_introl W) T) as P.
  cbv zeta in P. destruct (P Hot) as (s' & E & _ & Hr & _ & _ & _ & Cool).
  exists s'. split; [exact E|]. split; [exact Hr|].
  apply Cool. vm_compute. discriminate.
Defined.

Lemma X23_confirmation_count_witness :
  let rd := Example.flat (385 # 100) in
  let s := at_balance rd in
  target_in_band s /\ ~ wants_charge s /\ ~ wants_balance s /\
  testBalCount s < 4 /\
  exists s',
    balance (Example.quiet rd 30) s = Normal s' /\
    testBalCount s' = testBalCount s + 1 /\ added s s' = [Sleep 8].
Proof.
  cbv zeta.
  assert (B : target_in_band (at_balance (Example.flat (385 # 100))))
    by (apply target_in_band_spec; vm_compute; reflexivity).
  assert (NC : ~ wants_charge (at_balance (Example.flat (385 # 100))))
    by (intro H; apply wants_charge_spec in H; vm_compute in H;
        discriminate H).
  assert (NB : ~ wants_balance (at_balance (Example.flat (385 # 100))))
    by (intro H; apply wants_balance_spec in H; vm_compute in H;
        discriminate H).
  assert (T : testBalCount (at_balance (Example.flat (385 # 100))) < 4)
    by (vm_compute; reflexivity).
  split; [exact B|]. split; [exact NC|]. split; [exact NB|]. split; [exact T|].
  destruct (X23_confirmation_count
              (Example.quiet (Example.flat (385 # 100)) 30) _ B NC NB)
    as (s' & E & _ & _ & _ & _ & Low & _).
  destruct (Low T) as (Hc & _ & _ & Ha).
  exists s'. split; [exact E|]. split; [exact Hc | exact Ha].
Defined.

Lemma X24_tick_starts_with_resistors_off_witness :
  let s := started Example.one_low in
  reachable Example.runtime s /\
  quiet_drain s /\ gpio (sendIO s) = repeat 0 (length (gpio s)).
Proof.
  cbv zeta.
  assert (R : reachable Example.runtime (started Example.one_low))
    by (apply reach_update, reach_init).
  split; [exact R|].
  destruct (X24_tick_starts_with_resistors_off Example.runtime _ R)
    as (Q & G & _).
  split; [exact Q | exact G].
Defined.

(* ------------------------------------------------------------------ *)
(** ** The thermal trip in every part of a tick *)

Lemma scan_extremes (inp : tick_input) (s : BMS) :
  snd (scan inp s) = false ->
  (minCell (fst (scan inp s)) <= maxCell (fst (scan inp s)))%Q.
Proof.
  unfold scan. pose proof (checks_extremes inp s) as C.
  destruct (checks inp s) as [s1 r]. cbn [fst snd] in C.
  destruct r; [discriminate|]. specialize (C eq_refl).
  destruct (getTemps_touches (tmp_value inp 0) (cpu_temperature inp 0) s1)
    as (t & f & b & m & o & E).
  intros _. rewrite E. exact C.
Qed.

Lemma monitor_cool (inp : tick_input) (n k : nat) (s : BMS) :
  (Py.max (read_temps (tmp_value inp k) (cpu_temperature inp k))
   <= maxTemp s)%Q ->
  monitor (S n) k inp s
  = monitor n (S k) inp
      (sleep 8 (fst (getTemps (tmp_value inp k) (cpu_temperature inp k) s))).
Proof.
  intro H. cbn [monitor]. cbv zeta.
  destruct (temps_getTemps (tmp_value inp k) (cpu_temperature inp k) s)
    as (-> & ->).
  apply gtb_le in H. rewrite H. reflexivity.
Qed.

(** The watch of the window, lines 228-233: the readings are taken one by
    one while they stay at or below [maxTemp]; a reading above
    [maxTemp + 20] that is reached stores mode 2, switches the buzzer on
    and ends the watch. *)
Lemma monitor_trip (inp : tick_input) (j : nat) :
  forall (n k : nat) (s : BMS),
    (j < n)%nat ->
    (forall i, (i < j)%nat ->
       (Py.max (read_temps (tmp_value inp (k + i)) (cpu_temperature inp (k + i)))
        <= maxTemp s)%Q) ->
    (maxTemp s + 20
     < Py.max (read_temps (tmp_value inp (k + j))
                 (cpu_temperature inp (k + j))))%Q ->
    mode (monitor n k inp s) = 2 /\ buz (monitor n k inp s) = true /\
    temps (monitor n k inp s)
    = read_temps (tmp_value inp (k + j)) (cpu_temperature inp (k + j)).
Proof.
  induction j as [|j IH]; intros n k s Hn Hc Ht;
    (destruct n as [|n]; [lia|]).
  - rewrite Nat.add_0_r in Ht |- *.
    rewrite monitor_hot by lra.
    destruct (getTemps_trip _ _ s Ht) as (s' & G & M & B & T & _).
    rewrite G. cbn [fst]. tauto.
  - rewrite monitor_cool.
    2:{ specialize (Hc 0%nat). rewrite Nat.add_0_r in Hc. apply Hc. lia. }
    assert (E : maxTemp (sleep 8 (fst (getTemps (tmp_value inp k)
                                         (cpu_temperature inp k) s)))
                = maxTemp s).
    { transitivity (maxTemp (fst (getTemps (tmp_value inp k)
                                    (cpu_temperature inp k) s)));
        [reflexivity | apply temps_getTemps]. }
    replace (k + S j)%nat with (S k + j)%nat by lia.
    apply IH.
    + lia.
    + intros i Hi. rewrite E.
      replace (S k + i)%nat with (k + S i)%nat by lia. apply Hc. lia.
    + rewrite E. replace (S k + j)%nat with (k + S j)%nat by lia. exact Ht.
Qed.

Lemma send_lines_trace (rt : Py.runtime) (width : Z) (l : list Q) (s : BMS) :
  exists evs,
    fold_left (send_float_line rt width) l s = set_out (out s ++ evs) s
    /\ Forall (fun e => exists bs, e = UartWrite bs) evs.
Proof.
  revert s. induction l as [|x l IH]; intro s.
  - exists []. split; [|constructor]. cbn [fold_left]. rewrite app_nil_r.
    destruct s; reflexivity.
  - cbn [fold_left].
    destruct (IH (send_float_line rt width s x)) as (evs & -> & U).
    exists ([UartWrite (Py.bytes_of_str (Py.str_float rt x));
             UartWrite (Py.bytes_of_str
                          (Py.zeros (width - Py.len (Py.str_float rt x)))
                        ++ [x0a])] ++ evs).
    split.
    + unfold send_float_line. fields. rewrite <- !app_assoc. same_state.
    + apply Forall_app. split; [|exact U].
      repeat constructor; eexists; reflexivity.
Qed.

(** The serial protocol writes to nothing on the board but the UART. *)
Lemma sercom_trace (rt : Py.runtime) (inp : tick_input) (s : BMS) :
  exists evs,
    out (state_of (sercom rt inp s)) = out s ++ evs
    /\ Forall (fun e => exists bs, e = UartWrite bs) evs.
Proof.
  assert (N : exists evs, out s = out s ++ evs
                          /\ Forall (fun e => exists bs, e = UartWrite bs) evs)
    by (exists []; split; [now rewrite app_nil_r | constructor]).
  assert (W : forall bs, exists evs,
               out s ++ [UartWrite bs] = out s ++ evs
               /\ Forall (fun e => exists bs, e = UartWrite bs) evs)
    by (intro bs; exists [UartWrite bs]; split;
        [reflexivity | repeat constructor; eexists; reflexivity]).
  unfold sercom.
  destruct (uart_read1 inp) as [c|]; [|exact N].
  destruct (Z.of_N (Byte.to_N c) >=? 128).
  - destruct (uart_read inp) as [bs|]; [|exact N].
    cbn [state_of]. unfold write_register, write_float, write_int.
    repeat match goal with
           | |- context [if ?c then _ else _] => destruct c
           | |- context [match ?x with Some _ => _ | None => _ end] =>
               destruct x
           end;
      first [exact N | apply W].
  - cbn [state_of]. unfold read_register, send_float.
    destruct (send_lines_trace rt 7 (cells s) s) as (e7 & -> & U7).
    destruct (send_lines_trace rt 5 (temps s) s) as (e5 & -> & U5).
    repeat match goal with
           | |- context [if ?c then _ else _] => destruct c
           end;
      first [ exact N | apply W
            | exists e7; split; [reflexivity | exact U7]
            | exists e5; split; [reflexivity | exact U5]
            | eexists [_; _]; split;
              [fields; rewrite <- app_assoc; reflexivity
              | repeat constructor; eexists; reflexivity] ].
Qed.

(** C1, amended.  Every [getTemps] call of a tick that finds
    [max(temps) > maxTemp + 20] stores mode 2 and switches the buzzer on
    within the tick; the calls are made in modes 0 and 1 only.
    - The thermal scan (line 303): in mode 0 or 1, when the measurement and
      voltage-limit checks of the tick pass and the temperatures then read
      are above [maxTemp + 20], the tick ends there with the mode at 2 and
      the alarm on; the alert and the write of [True] to the buzzer are its
      last events.
    - The balance window (lines 228-232): in mode 1, when the tick reaches
      the window and reading [j + 1] of the window is above [maxTemp + 20]
      (the readings before it, being at or below [maxTemp], let the watch
      go on), the tick ends with the alarm on, the relay open and the
      drain plan cleared; the mode is 2 unless the host, served after the
      window, writes mode 0 or 1 in this very tick.
    - Mode 2: the tick reads no temperature, switches the buzzer off and
      does not switch it on, whatever the sensors would read. *)
Theorem C1_thermal_trip :
  forall (rt : Py.runtime) (inp : tick_input) (s : BMS),
    (mode s = 0 \/ mode s = 1 ->
     snd (checks inp s) = false ->
     (maxTemp s + 20
      < Py.max (read_temps (tmp_value inp 0) (cpu_temperature inp 0)))%Q ->
     exists s',
       update rt inp s = Normal s' /\
       mode s' = 2 /\ buz s' = true /\
       temps s' = read_temps (tmp_value inp 0) (cpu_temperature inp 0) /\
       exists evs, out s' = evs ++ [Console ThermalShutdown; BuzSet true])
    /\
    (mode s = 1 ->
     snd (scan inp s) = false ->
     (Py.max (read_temps (tmp_value inp 0) (cpu_temperature inp 0))
      < maxTemp s)%Q ->
     target_in_band s ->
     wants_charge (fst (scan inp s)) \/ wants_balance (fst (scan inp s)) ->
     forall j,
       (j < Z.to_nat (balTime s / 8))%nat ->
       (forall k, (1 <= k <= j)%nat ->
          (Py.max (read_temps (tmp_value inp k) (cpu_temperature inp k))
           <= maxTemp s)%Q) ->
       (maxTemp s + 20
        < Py.max (read_temps (tmp_value inp (S j))
                    (cpu_temperature inp (S j))))%Q ->
       let s' := state_of (update rt inp s) in
       buz s' = true /\ relay s' = false /\ drain s' = repeat 0 cellCount /\
       temps s' = read_temps (tmp_value inp (S j)) (cpu_temperature inp (S j)) /\
       (mode s' <> 2
        <-> exists bs,
              uart_read1 inp = Some x80 /\ uart_read inp = Some bs /\
              (Py.str_of_bytes bs = "0"%string
               \/ Py.str_of_bytes bs = "1"%string)))
    /\
    (mode s = 2 ->
     let s' := state_of (update rt inp s) in
     temps s' = temps s /\ buz s' = false /\
     ~ In (BuzSet true) (added s s') /\
     ~ In (Console ThermalShutdown) (added s s')).
Proof.
  intros rt inp s. split; [apply scan_trip|]. split.
  - intros M R Cool B W j Hj Hc Ht. cbv zeta.
    pose proof (scan_power inp s) as P. cbv zeta in P.
    pose proof (control_step_scan inp s) as CS.
    pose proof (scan_extremes inp s R) as Hle.
    unfold update. rewrite M. cbn [Z.eqb Pos.eqb orb].
    destruct (scan inp s) as [x r]. cbn [fst snd] in P, CS, Hle, R, W.
    subst r. destruct P as (_ & _ & _ & _ & _ & Pm).
    destruct (Pm eq_refl) as (Xm & Xt). clear Pm.
    destruct CS as (Cfg & _). unfold config in Cfg.
    injection Cfg as E1 E2 E3 E4 E5 E6 E7 E8.
    assert (Emt : maxTemp x = maxTemp s) by congruence.
    assert (Ebt : balTime x = balTime s) by congruence.
    assert (Bx : target_in_band x)
      by (unfold target_in_band in B |- *;
          replace (minVoltage x) with (minVoltage s) by congruence;
          replace (maxVoltage x) with (maxVoltage s) by congruence;
          replace (targetVoltage x) with (targetVoltage s) by congruence;
          exact B).
    assert (A : act inp x = balance inp x).
    { unfold act. rewrite Xm, M, Xt, Emt. cbn [Z.eqb Pos.eqb].
      apply ltb_lt in Cool. now rewrite Cool. }
    rewrite A. clear A.
    destruct (balance_window inp x Bx Hle W)
      as (c & rl & bl & tb & d & g & evs & E & _).
    cbv zeta in E. rewrite E. clear E. rewrite Ebt.
    match goal with |- context [monitor ?n 1 inp ?y] =>
      destruct (monitor_trip inp j n 1 y) as (Ym & Yb & Yt);
        [ exact Hj
        | intros i Hi; fields; rewrite Emt; apply Hc; lia
        | fields; rewrite Emt; exact Ht
        | revert Ym Yb Yt; generalize (monitor n 1 inp y) ]
    end.
    cbn [Nat.add]. intros y Ym Yb Yt.
    assert (Zm : mode (relay_value false (set_drain (repeat 0 cellCount) y)) = 2)
      by exact Ym.
    pose proof (sercom_leaves_shutdown rt inp _ Zm) as L.
    destruct (sercom_touches rt inp
                (relay_value false (set_drain (repeat 0 cellCount) y)))
      as (md & tv & mt & ft & mnv & mxv & dv & bt & vb & o & Es).
    rewrite Es in L |- *. fields. fields_in L.
    split; [exact Yb|]. split; [reflexivity|]. split; [reflexivity|].
    split; [exact Yt | exact L].
  - intro M. cbv zeta. rewrite (update_shutdown rt inp s M).
    destruct (power_down_spec s) as (_ & Hb & _ & _ & _ & _ & Ht & _ & Ho).
    revert Hb Ht Ho. generalize (power_down s). intros x Hb Ht Ho.
    destruct (sercom_trace rt inp x) as (evs & Oe & U).
    destruct (sercom_touches rt inp x)
      as (md & tv & mt & ft & mnv & mxv & dv & bt & vb & o & Es).
    assert (Ad : added s (state_of (sercom rt inp x))
                 = ([BuzSet false; RelaySet false]
                    ++ map (fun i => GpioSet i 0) (seq 0 (length (gpio s)))
                    ++ [Adc sleepAll]) ++ evs)
      by (apply added_app; rewrite Oe, Ho, <- !app_assoc; reflexivity).
    rewrite Ad. rewrite Es. fields.
    assert (NU : forall e, In e evs -> exists bs, e = UartWrite bs)
      by (now apply Forall_forall).
    assert (NG : forall e, In e (map (fun i => GpioSet i 0)
                                   (seq 0 (length (gpio s)))) ->
                           exists i v, e = GpioSet i v).
    { intros e He. apply in_map_iff in He. destruct He as (i & <- & _).
      now exists i, 0. }
    split; [exact Ht|]. split; [exact Hb|].
    split; intro H; apply in_app_or in H; destruct H as [H | H];
      try (apply NU in H; destruct H as (bs & H); discriminate H);
      cbn [app In] in H; destruct H as [H | [H | H]]; try discriminate H;
      apply in_app_or in H; destruct H as [H | [H | []]];
      try discriminate H;
      apply NG in H; destruct H as (i & v & H); discriminate H.
Qed.

Lemma C1_thermal_trip_witness :
  let boot := Example.boot 0 (Example.flat 4) in
  let active := started Example.one_low in
  (* the scan *)
  (mode (state_of (update Example.runtime hot_tick boot)) = 2
   /\ buz (state_of (update Example.runtime hot_tick boot)) = true)
  /\
  (* the window: 30 C at the scan, 120 C in the window *)
  (mode active = 1
   /\ mode (state_of (update Example.runtime late_heat active)) = 2
   /\ buz (state_of (update Example.runtime late_heat active)) = true)
  /\
  (* mode 2 *)
  (mode tripped = 2
   /\ buz (state_of (update Example.runtime hot_tick tripped)) = false).
Proof.
  cbv zeta.
  pose proof (C1_thermal_trip Example.runtime hot_tick
                (Example.boot 0 (Example.flat 4))) as (A & _ & _).
  pose proof (C1_thermal_trip Example.runtime late_heat
                (started Example.one_low)) as (_ & B & _).
  pose proof (C1_thermal_trip Example.runtime hot_tick tripped) as (_ & _ & C).
  split; [|split].
  - destruct A as (s' & E & M & Bz & _).
    + left. reflexivity.
    + vm_compute. reflexivity.
    + vm_compute. reflexivity.
    + rewrite E. cbn [state_of]. split; [exact M | exact Bz].
  - assert (M : mode (started Example.one_low) = 1)
      by (vm_compute; reflexivity).
    split; [exact M|].
    assert (R : snd (scan late_heat (started Example.one_low)) = false)
      by (vm_compute; reflexivity).
    assert (Cool : (Py.max (read_temps (tmp_value late_heat 0)
                              (cpu_temperature late_heat 0))
                    < maxTemp (started Example.one_low))%Q)
      by (vm_compute; reflexivity).
    assert (Bd : target_in_band (started Example.one_low))
      by (apply target_in_band_spec; vm_compute; reflexivity).
    assert (W : wants_balance (fst (scan late_heat (started Example.one_low))))
      by (apply wants_balance_spec; vm_compute; reflexivity).
    assert (J : (0 < Z.to_nat (balTime (started Example.one_low) / 8))%nat)
      by (vm_compute; lia).
    assert (Hc : forall k, (1 <= k <= 0)%nat ->
               (Py.max (read_temps (tmp_value late_heat k)
                          (cpu_temperature late_heat k))
                <= maxTemp (started Example.one_low))%Q)
      by (intros k Hk; lia).
    assert (Ht : (maxTemp (started Example.one_low) + 20
                  < Py.max (read_temps (tmp_value late_heat 1)
                              (cpu_temperature late_heat 1)))%Q)
      by (vm_compute; reflexivity).
    specialize (B M R Cool Bd (or_intror W) 0%nat J Hc Ht).
    cbv zeta in B. destruct B as (Bz & _ & _ & _ & Md).
    split; [|exact Bz].
    destruct (Z.eq_dec (mode (state_of (update Example.runtime late_heat
                                          (started Example.one_low)))) 2)
      as [E | N]; [exact E|].
    apply Md in N. destruct N as (bs & U & _). discriminate U.
  - assert (M : mode tripped = 2) by (vm_compute; reflexivity).
    split; [exact M|].
    specialize (C M). cbv zeta in C. exact (proj1 (proj2 C)).
Defined.
